(** * CVECrawler: a shallow embedding of [src/cve/CVECrawler.py]

    The crawler mirrors the NVD vulnerability feed into a directory tree.
    This development embeds the methods that carry its behaviour
    ([get_cve_path_and_filename], [fetch_and_add_references], [save_data],
    [save_wrapper], [init_data_population], [maintain_data] and [run])
    and proves or refutes the properties stated about them.

    Conventions of the embedding.
    - A Python [str] is a [string]: a sequence of code points below 256.
    - A Python [int] is a [Z].
    - A record decoded from JSON is a [json] tree; a [dict] is an ordered
      association list with unique keys. Numbers that are not integers do
      not occur in what the crawler reads and are not represented.
    - The envelope of an answer of the feed is typed where the crawler
      compares and iterates: [startIndex] and [totalResults] are integers
      and the result list is a list of records.
    - The file system is a finite map from paths to file contents and a
      set of directories. A write fails when the file cannot be opened,
      not half way, and a body is read as a whole or not at all.
    - A raised exception is the [Raise] branch of [result], with its
      class: [maintain_data] catches [FileNotFoundError] alone when it
      reads the watermark, and every other handler catches them all.
    - The network, the wall clock, [json.dumps], the outcome of
      [os.makedirs], the permission to open a file for reading or for
      writing and the codecs Python knows are the fields of an
      environment record [env]. Everything the crawler sends or waits for
      is appended to a trace, and the network and the clock may answer
      differently as the trace grows. *)

From Stdlib Require Import ZArith String Ascii List Bool Lia.
From Stdlib Require Import DecimalString DecimalPos DecimalN.
From stdpp Require Import base option list gmap strings.

Set Warnings "-register-all".
Local Open Scope string_scope.
Local Open Scope list_scope.
Local Open Scope Z_scope.

(** ** Python strings *)

Module Py.

(** [s1 + s2] *)
Fixpoint cat (s1 s2 : string) : string :=
  match s1 with
  | EmptyString => s2
  | String c s1' => String c (cat s1' s2)
  end.

(** [str.isspace] on one code point below 256: the separators that
    [str.strip] removes and that [int] skips. *)
Definition isspace (c : ascii) : bool :=
  let n := nat_of_ascii c in
  ((9 <=? n)%nat && (n <=? 13)%nat)
  || ((28 <=? n)%nat && (n <=? 32)%nat)
  || (n =? 133)%nat || (n =? 160)%nat.

Fixpoint lstrip (s : string) : string :=
  match s with
  | EmptyString => EmptyString
  | String c s' => if isspace c then lstrip s' else s
  end.

Fixpoint rstrip (s : string) : string :=
  match s with
  | EmptyString => EmptyString
  | String c s' =>
      match rstrip s' with
      | EmptyString => if isspace c then EmptyString else String c EmptyString
      | r => String c r
      end
  end.

(** [s.strip()] *)
Definition strip (s : string) : string := rstrip (lstrip s).

(** [s.split(sep)] for a one-character separator: never empty, and
    [n] separators give [n + 1] parts. *)
Fixpoint split (sep : ascii) (s : string) : list string :=
  match s with
  | EmptyString => [EmptyString]
  | String c s' =>
      if Ascii.eqb c sep then EmptyString :: split sep s'
      else match split sep s' with
           | [] => [String c EmptyString]
           | w :: ws => String c w :: ws
           end
  end.

(** [s.startswith(p)] *)
Fixpoint startswith (p s : string) : bool :=
  match p, s with
  | EmptyString, _ => true
  | String _ _, EmptyString => false
  | String a p', String b s' => Ascii.eqb a b && startswith p' s'
  end.

(** [sub in s] *)
Fixpoint contains (sub s : string) : bool :=
  startswith sub s
  || match s with
     | EmptyString => false
     | String _ s' => contains sub s'
     end.

(** [s.endswith(p)] *)
Fixpoint endswith (p s : string) : bool :=
  String.eqb p s
  || match s with
     | EmptyString => false
     | String _ s' => endswith p s'
     end.

(** [c in s] for one character. *)
Fixpoint has_char (c : ascii) (s : string) : bool :=
  match s with
  | EmptyString => false
  | String c' s' => Ascii.eqb c c' || has_char c s'
  end.

(** [c.isdigit()] for a code point below 128. *)
Definition isdigit (c : ascii) : bool :=
  let n := nat_of_ascii c in (48 <=? n)%nat && (n <=? 57)%nat.

(** Every character of [s] is a decimal digit. *)
Fixpoint all_digits (s : string) : bool :=
  match s with
  | EmptyString => true
  | String c s' => isdigit c && all_digits s'
  end.

(** The value of a decimal digit. *)
Definition digit_val (c : ascii) : option Z :=
  let n := nat_of_ascii c in
  if (48 <=? n)%nat && (n <=? 57)%nat then Some (Z.of_nat (n - 48)) else None.

(** The digits of an [int] literal: decimal digits, with single
    underscores allowed between two digits. [seen] tells whether the
    previous character was a digit. *)
Fixpoint int_digits (acc : Z) (seen : bool) (s : string) : option Z :=
  match s with
  | EmptyString => if seen then Some acc else None
  | String c s' =>
      match digit_val c with
      | Some d => int_digits (10 * acc + d) true s'
      | None =>
          if Ascii.eqb c "_" && seen then int_digits acc false s' else None
      end
  end.

(** [int(s)] in base 10: surrounding white space, one optional sign,
    then [int_digits]. [None] is [ValueError]. The interpreter's limit
    on the number of digits is not modelled. *)
Definition int (s : string) : option Z :=
  match strip s with
  | EmptyString => None
  | String c r =>
      if Ascii.eqb c "+" then int_digits 0 false r
      else if Ascii.eqb c "-" then Z.opp <$> int_digits 0 false r
      else int_digits 0 false (String c r)
  end.

(** The decimal digits of a natural number. *)
Definition digits (n : N) : string := NilEmpty.string_of_uint (N.to_uint n).

(** [str(z)] *)
Definition str (z : Z) : string :=
  if z <? 0 then String "-" (digits (Z.to_N (- z))) else digits (Z.to_N z).

(** [s.zfill(w)] for a string of digits: zeros on the left up to width
    [w], nothing removed. *)
Definition zfill (w : nat) (s : string) : string :=
  cat (string_of_list_ascii (repeat "0"%char (w - String.length s))) s.

(** ['{:06d}'.format(z)]: at least six characters, the sign first. *)
Definition format_06d (z : Z) : string :=
  if z <? 0 then String "-" (zfill 5 (digits (Z.to_N (- z))))
  else zfill 6 (digits (Z.to_N z)).

(** [s[a:b]] for [0 <= a <= b] *)
Definition slice (a b : nat) (s : string) : string := String.substring a (b - a) s.

(** The line feed written after each appended line. *)
Definition nl : string := String (ascii_of_nat 10) EmptyString.

(** One step of [posixpath.join]. *)
Definition join1 (path b : string) : string :=
  if startswith "/" b then b
  else if String.eqb path "" || endswith "/" path then cat path b
  else cat path (cat "/" b).

(** [os.path.join(a, *ps)] on a POSIX system. *)
Definition os_path_join (a : string) (ps : list string) : string :=
  fold_left join1 ps a.

End Py.

(** ** Exceptions and results *)

Inductive exn : Type :=
  | KeyError
  | IndexError
  | ValueError
  | TypeError
  | AttributeError
  | OSError
  | FileNotFoundError
  | PermissionError
  | LookupError
  | OverflowError
  | RequestException
  | RuntimeError (msg : string).

Inductive result (A : Type) : Type :=
  | Ok (a : A)
  | Raise (e : exn).

Arguments Ok {A} a.
Arguments Raise {A} e.

Definition rbind {A B : Type} (r : result A) (k : A -> result B) : result B :=
  match r with
  | Ok a => k a
  | Raise e => Raise e
  end.

#[global] Instance result_bind : MBind result := fun A B k r => rbind r k.
#[global] Instance result_ret : MRet result := fun A a => Ok a.

(** [None] becomes the exception [e]. *)
Definition or_raise {A : Type} (e : exn) (o : option A) : result A :=
  match o with
  | Some a => Ok a
  | None => Raise e
  end.

Definition is_ok {A : Type} (r : result A) : bool :=
  match r with
  | Ok _ => true
  | Raise _ => false
  end.

(** ** JSON values *)

Inductive json : Type :=
  | JNull
  | JBool (b : bool)
  | JNum (z : Z)
  | JStr (s : string)
  | JArr (l : list json)
  | JObj (kvs : list (string * json)).

(** [d.get(k)] on the association list of a dict. *)
Fixpoint assoc (k : string) (kvs : list (string * json)) : option json :=
  match kvs with
  | [] => None
  | (k', v) :: rest => if String.eqb k k' then Some v else assoc k rest
  end.

(** [d[k] = v] on the association list of a dict: the key keeps its
    place when present and is added last otherwise. *)
Fixpoint assoc_set (k : string) (v : json) (kvs : list (string * json))
  : list (string * json) :=
  match kvs with
  | [] => [(k, v)]
  | (k', v') :: rest =>
      if String.eqb k k' then (k, v) :: rest else (k', v') :: assoc_set k v rest
  end.

(** [j[k]] for a string key [k]. *)
Definition jget (k : string) (j : json) : result json :=
  match j with
  | JObj kvs => or_raise KeyError (assoc k kvs)
  | _ => Raise TypeError
  end.

(** [j[k] = v] for a string key [k]. *)
Definition jset (k : string) (v : json) (j : json) : result json :=
  match j with
  | JObj kvs => Ok (JObj (assoc_set k v kvs))
  | _ => Raise TypeError
  end.

(** [for x in j]: the elements of a list, the keys of a dict, the
    characters of a string; anything else is not iterable. *)
Definition jiter (j : json) : result (list json) :=
  match j with
  | JArr l => Ok l
  | JObj kvs => Ok (map (fun kv => JStr (fst kv)) kvs)
  | JStr s => Ok (map (fun c => JStr (String c EmptyString)) (list_ascii_of_string s))
  | _ => Raise TypeError
  end.

(** [[f(x) for x in l]] where [f] may raise. *)
Fixpoint mapM_result {A B : Type} (f : A -> result B) (l : list A) : result (list B) :=
  match l with
  | [] => Ok []
  | x :: rest => y ← f x; ys ← mapM_result f rest; Ok (y :: ys)
  end.

(** ** Configuration: the fields set by [__init__] *)

(** [self.mode]: ['info'] or ['changes']; [__init__] exits on any other
    value. The field is [cmode] below. *)
Inductive mode : Type := Info | Changes.

Record config : Type := {
  storage_path : string;
  request_timeout : Z;
  interval_between_requests : Z;
  update_interval : Z;
  retry_interval : Z;
  retries_for_request : Z;
  cmode : mode
}.

(** The defaults of [__init__]. *)
Definition default_config (m : mode) : config := {|
  storage_path := "/usr/src/data";
  request_timeout := 60;
  interval_between_requests := 6;
  update_interval := 7200;
  retry_interval := 600;
  retries_for_request := 9;
  cmode := m
|}.

Definition INDEX_FILENAME : string := ".index.txt".
Definition LAST_UPDATE_FILENAME : string := ".last_timestamp.txt".
Definition MISSING_INDEXES : string := "missing_indexes.txt".

(** ** [get_cve_path_and_filename] *)

(** [json_data['cve']['id']] or [json_data['change']['cveId']]. *)
Definition cve_field (m : mode) (json_data : json) : result json :=
  match m with
  | Info => c ← jget "cve" json_data; jget "id" c
  | Changes => c ← jget "change" json_data; jget "cveId" c
  end.

(** [cve.split('-')]: only a [str] has the method. *)
Definition split_cve (cve : json) : result (list string) :=
  match cve with
  | JStr s => Ok (Py.split "-" s)
  | _ => Raise AttributeError
  end.

(** ** The environment and the world

    What the crawler cannot decide by itself is read from [env]: the
    answer of the network to a request (it may depend on how much has
    happened before, so that a page can fail eight times and then
    succeed), the wall clock, the serialiser [json.dumps], what
    [os.makedirs] does, whether a path can be opened for reading and for
    writing, and which codecs Python knows. *)

(** The three kinds of [requests.get] the crawler issues. The URL of the
    first two is [ENDPOINT_NIST] followed by the query; only the query's
    arguments are kept. *)
Inductive request : Type :=
  | GetBulk (index : Z)
  | GetDelta (timestamp now : string)
  | GetRef (ref_url : json).

(** The decoded body of an answer of the feed: [startIndex],
    [totalResults] and the result list under the key of each mode
    ([None] when the key is missing). *)
Record page : Type := {
  startIndex : Z;
  totalResults : Z;
  vulnerabilities : option (list json);
  cveChanges : option (list json)
}.

(** An HTTP answer. [encoding] is [response.encoding]: the charset that
    [requests] reads from the headers, [None] when it finds none. [text]
    is the body, [None] when reading it raises; [json_body] is
    [response.json()], [None] when it raises. *)
Record response : Type := {
  status_code : Z;
  content_length : option string;
  content_type : option string;
  encoding : option string;
  text : option string;
  json_body : option page
}.

Inductive event : Type :=
  | Requested (q : request)
  | Slept (seconds : Z).

(** [writable p] tells whether [open(p, 'w')], or [open(p, 'a')],
    succeeds: the directory of [p] is there and the file may be written.
    [makedirs name] is what [os.makedirs(name, exist_ok=True)] does: the
    directories it creates on its way and the exception it raises, if any
    (an [OSError] for a name that is too long, taken by a file or not
    permitted, a [ValueError] for a name with a null character).
    [read_error p] is the exception that opening [p] for reading or
    reading it raises for a reason other than its absence.
    [known_codec enc] tells whether [codecs.lookup(enc)] succeeds; it
    never does for the empty name. *)
Record env : Type := {
  dumps : json -> string;
  net : nat -> request -> option response;
  clock : nat -> string;
  writable : string -> bool;
  read_error : string -> option exn;
  makedirs : string -> list string * option exn;
  known_codec : string -> bool
}.

(** The world changed by the crawler: the files, the directories it has
    made sure of and, in order, the requests sent and the sleeps taken. *)
Record world : Type := {
  fs : gmap string string;
  dirs : gset string;
  trace : list event
}.

(** An effectful computation: it changes the world and returns or
    raises; what it did before raising stays done. *)
Definition io (A : Type) : Type := world -> result A * world.

Definition io_ret {A : Type} (a : A) : io A := fun w => (Ok a, w).

Definition io_raise {A : Type} (e : exn) : io A := fun w => (Raise e, w).

Definition io_bind {A B : Type} (m : io A) (k : A -> io B) : io B :=
  fun w =>
    match m w with
    | (Ok a, w') => k a w'
    | (Raise e, w') => (Raise e, w')
    end.

(** [try: m except: h] *)
Definition try_except {A : Type} (m : io A) (h : exn -> io A) : io A :=
  fun w =>
    match m w with
    | (Ok a, w') => (Ok a, w')
    | (Raise e, w') => h e w'
    end.

Definition lift {A : Type} (r : result A) : io A := fun w => (r, w).

Notation "'do' x <- m ; k" := (io_bind m (fun x => k))
  (at level 10, x pattern, m at level 100, k at level 200, only parsing).

Definition log (e : event) (w : world) : world :=
  {| fs := fs w; dirs := dirs w; trace := trace w ++ [e] |}.

Definition set_file (p s : string) (w : world) : world :=
  {| fs := <[p := s]> (fs w); dirs := dirs w; trace := trace w |}.

Definition add_dirs (l : list string) (w : world) : world :=
  {| fs := fs w; dirs := dirs w ∪ list_to_set l; trace := trace w |}.

(** The longest interval [time.sleep] takes, in seconds: beyond it the
    interval does not fit the 64-bit count of nanoseconds it is turned
    into. *)
Definition SLEEP_MAX : Z := 9223372036.

(** The exception [time.sleep(seconds)] raises, if any: [OverflowError]
    for an interval out of range, [ValueError] for a negative one. *)
Definition sleep_error (seconds : Z) : option exn :=
  if (seconds <? - SLEEP_MAX) || (SLEEP_MAX <? seconds) then Some OverflowError
  else if seconds <? 0 then Some ValueError
  else None.

Section Crawler.

Variable E : env.
Variable cfg : config.

(** [requests.get(...)]: the request is recorded; the answer is the
    network's at this point of the trace. *)
Definition requests_get (q : request) : io response :=
  fun w => (or_raise RequestException (net E (length (trace w)) q),
            log (Requested q) w).

(** [time.sleep(seconds)] *)
Definition sleep (seconds : Z) : io unit :=
  fun w =>
    match sleep_error seconds with
    | Some e => (Raise e, w)
    | None => (Ok tt, log (Slept seconds) w)
    end.

(** [os.makedirs(name, exist_ok=True)]: what it created stays when it
    raises; when it returns, [name] is a directory. *)
Definition os_makedirs (name : string) : io unit :=
  fun w =>
    match makedirs E name with
    | (made, None) => (Ok tt, add_dirs (made ++ [name]) w)
    | (made, Some e) => (Raise e, add_dirs made w)
    end.

(** [datetime.datetime.now().isoformat()] *)
Definition datetime_now : io string :=
  fun w => (Ok (clock E (length (trace w))), w).

(** [with open(p, 'w') as f: f.write(s)] *)
Definition write_file (p s : string) : io unit :=
  fun w => if writable E p then (Ok tt, set_file p s w) else (Raise OSError, w).

(** [with open(p, 'a') as f: f.write(s)] *)
Definition append_file (p s : string) : io unit :=
  fun w =>
    if writable E p
    then (Ok tt, set_file p (Py.cat (default "" (fs w !! p)) s) w)
    else (Raise OSError, w).

(** [with open(p, 'r') as f: f.read()] *)
Definition read_file (p : string) : io string :=
  fun w =>
    match read_error E p with
    | Some e => (Raise e, w)
    | None => (or_raise FileNotFoundError (fs w !! p), w)
    end.

(** [f.write(v)] after [open(p, 'w')] for a value that came out of
    JSON: the file is truncated by [open], and only a [str] can then
    be written. *)
Definition write_value (p : string) (v : json) : io unit :=
  match v with
  | JStr s => write_file p s
  | _ => do _ <- write_file p "" ; io_raise TypeError
  end.

(** *** [get_cve_path_and_filename] *)

(** Lines 166 to 170 and 172: the directory [full_path] and the path
    that the method returns. *)
Definition cve_location (json_data : json) : result (string * string) :=
  cve ← cve_field (cmode cfg) json_data;
  parts ← split_cve cve;
  year ← or_raise IndexError (parts !! 1%nat);
  seq ← or_raise IndexError (parts !! 2%nat);
  n ← or_raise ValueError (Py.int seq);
  let cve_padded := Py.format_06d n in
  let full_path :=
    Py.os_path_join (storage_path cfg)
      [year; Py.slice 0 2 cve_padded; Py.slice 2 4 cve_padded] in
  Ok (full_path,
      Py.os_path_join full_path
        [Py.cat "CVE-" (Py.cat year (Py.cat "-" cve_padded))]).

Definition get_cve_path_and_filename (json_data : json) : io string :=
  do location <- lift (cve_location json_data) ;
  do _ <- os_makedirs (fst location) ;
  io_ret (snd location).

(** *** [fetch_and_add_references] *)

Definition TEXTUAL_KEYWORDS : list string :=
  ["text"; "json"; "xml"; "javascript"; "x-www-form-urlencoded"].

Definition SIZE_THRESHOLD : Z := 5 * 1024 * 1024.

Definition ERROR_MARKER : string := "Error with the request".

(** [any(kw in content_type for kw in [...])] *)
Definition is_textual (content_type : string) : bool :=
  existsb (fun kw => Py.contains kw content_type) TEXTUAL_KEYWORDS.

(** [content_length and int(content_length) > 5 * 1024 * 1024]: an
    absent or empty header is false without being parsed. *)
Definition over_threshold (content_length : option string) : result bool :=
  match content_length with
  | None => Ok false
  | Some "" => Ok false
  | Some s => n ← or_raise ValueError (Py.int s); Ok (SIZE_THRESHOLD <? n)
  end.

(** [with open(full_path, 'wb') as f: for chunk in
    response.iter_content(chunk_size=8192): f.write(chunk)]. The file
    exists, empty, as soon as it is opened. *)
Definition stream_to (full_path : string) (r : response) : io unit :=
  do _ <- write_file full_path "" ;
  do body <- lift (or_raise RequestException (text r)) ;
  write_file full_path body.

(** [with open(full_path, 'w', encoding=response.encoding or 'utf-8') as
    f: for chunk in response.iter_content(chunk_size=8192,
    decode_unicode=True): f.write(chunk)]. The file exists, empty, as
    soon as it is opened. Without an encoding the chunks are [bytes],
    which a file opened as text refuses: the first chunk, if there is
    one, raises [TypeError]. With an encoding the chunks are decoded,
    which asks for its codec. *)
Definition stream_text_to (full_path : string) (r : response) : io unit :=
  do _ <- write_file full_path "" ;
  match encoding r with
  | None =>
      do body <- lift (or_raise RequestException (text r)) ;
      if String.eqb body "" then io_ret tt else io_raise TypeError
  | Some enc =>
      if known_codec E enc then
        do body <- lift (or_raise RequestException (text r)) ;
        write_file full_path body
      else io_raise LookupError
  end.

(** The body of the inner [try] for one reference: the value that goes
    with the URL, and the counter afterwards. *)
Definition fetch_reference (json_data : json) (ext_ref_id : Z) (ref_url : json)
  : io (json * Z) :=
  do r <- requests_get (GetRef ref_url) ;
  if status_code r =? 200 then
    let content_type := default "" (content_type r) in
    do path <- get_cve_path_and_filename json_data ;
    if is_textual content_type then
      do big <- lift (over_threshold (content_length r)) ;
      if (big : bool) then
        let full_path := Py.cat path (Py.cat "-" (Py.cat (Py.str ext_ref_id) ".txt")) in
        do _ <- stream_text_to full_path r ;
        io_ret (JStr full_path, ext_ref_id + 1)
      else
        do body <- lift (or_raise RequestException (text r)) ;
        io_ret (JStr body, ext_ref_id)
    else
      let full_path := Py.cat path (Py.cat "-" (Py.str ext_ref_id)) in
      do _ <- stream_to full_path r ;
      io_ret (JStr full_path, ext_ref_id + 1)
  else io_ret (JNum (status_code r), ext_ref_id).

(** One turn of [for ref_url in references]: the inner [try] and its
    [except], which puts the error marker in the place of the value and
    leaves the counter as it was. *)
Definition archive_reference (json_data : json) (ext_ref_id : Z) (ref_url : json)
  : io (json * Z) :=
  try_except (fetch_reference json_data ext_ref_id ref_url)
    (fun _ => io_ret (JStr ERROR_MARKER, ext_ref_id)).

(** [for ref_url in references: try: ... except: ...]. An entry is the
    pair [(ref_url, value)], written by [json.dumps] as a two-element
    array. *)
Fixpoint fetch_references (json_data : json) (references : list json)
    (ext_ref_id : Z) (read_references : list json) : io (list json) :=
  match references with
  | [] => io_ret read_references
  | ref_url :: rest =>
      do r <- archive_reference json_data ext_ref_id ref_url ;
      fetch_references json_data rest (snd r)
        (read_references ++ [JArr [ref_url; fst r]])
  end.

(** [for ref in json_data['cve']['references']:
    references.append(ref['url'])] *)
Definition reference_urls (json_data : json) : result (list json) :=
  c ← jget "cve" json_data;
  refs ← jget "references" c;
  l ← jiter refs;
  mapM_result (jget "url") l.

(** [json_data['cve']['added_references'] = read_references] *)
Definition add_references (read_references : list json) (json_data : json)
  : result json :=
  c ← jget "cve" json_data;
  c' ← jset "added_references" (JArr read_references) c;
  jset "cve" c' json_data.

Definition fetch_and_add_references (json_data : json) : io json :=
  try_except
    (do references <- lift (reference_urls json_data) ;
     do read_references <- fetch_references json_data references 0 [] ;
     lift (add_references read_references json_data))
    (fun _ => io_ret json_data).

(** *** [save_data] *)

Definition save_data (json_data : json) : io unit :=
  try_except
    (do path <- get_cve_path_and_filename json_data ;
     match cmode cfg with
     | Info => write_file (Py.cat path ".json") (dumps E json_data)
     | Changes =>
         append_file (Py.cat path ".jsonl") (Py.cat (dumps E json_data) Py.nl)
     end)
    (fun _ => io_raise (RuntimeError "Cannot save data")).

(** *** [save_wrapper] *)

(** [response_json['vulnerabilities']] or [response_json['cveChanges']] *)
Definition results (response_json : page) : result (list json) :=
  match cmode cfg with
  | Info => or_raise KeyError (vulnerabilities response_json)
  | Changes => or_raise KeyError (cveChanges response_json)
  end.

(** The body of [for e in json_list]. *)
Definition save_item (e : json) : io unit :=
  do complete_json <-
    match cmode cfg with
    | Info => fetch_and_add_references e
    | Changes => io_ret e
    end ;
  save_data complete_json.

Fixpoint save_items (json_list : list json) : io unit :=
  match json_list with
  | [] => io_ret tt
  | e :: rest => do _ <- save_item e ; save_items rest
  end.

Definition save_wrapper (response_json : page) : io unit :=
  do json_list <- lift (results response_json) ;
  save_items json_list.

(** *** [init_data_population] *)

Definition index_path : string := Py.os_path_join (storage_path cfg) [INDEX_FILENAME].
Definition missing_path : string := Py.os_path_join (storage_path cfg) [MISSING_INDEXES].
Definition last_update_path : string :=
  Py.os_path_join (storage_path cfg) [LAST_UPDATE_FILENAME].

(** The cursor to start from: [int(file.read().strip())], and 0 when
    anything raises. *)
Definition load_index : io Z :=
  try_except
    (do content <- read_file index_path ;
     lift (or_raise ValueError (Py.int (Py.strip content))))
    (fun _ => io_ret 0).

Definition entries_for_request : Z :=
  match cmode cfg with
  | Info => 2000
  | Changes => 5000
  end.

(** Where the [try] statement of one iteration leaves the loop. *)
Inductive attempt : Type :=
  | UpToDate
  | Attempted (index actual_retries : Z) (is_exception_or_too_many_request : bool).

(** The [try] statement of one iteration (lines 74 to 93). *)
Definition attempt_page (index actual_retries : Z) : io attempt :=
  try_except
    (do response <- requests_get (GetBulk index) ;
     if status_code response =? 200 then
       do response_json <- lift (or_raise ValueError (json_body response)) ;
       if totalResults response_json <=? startIndex response_json then
         io_ret UpToDate
       else
         do _ <- save_wrapper response_json ;
         io_ret (Attempted (index + entries_for_request) 0 false)
     else io_ret (Attempted index (actual_retries + 1) true))
    (fun _ => io_ret (Attempted index (actual_retries + 1) true)).

(** The rest of the iteration (lines 94 to 107): the page is given up
    when the counter equals the limit, then the crawler sleeps. The
    result is the cursor and the counter of the next iteration. *)
Definition after_attempt (index actual_retries : Z) (failed : bool) : io (Z * Z) :=
  do next <-
    (if actual_retries =? retries_for_request cfg then
       do _ <- append_file missing_path (Py.cat (Py.str index) Py.nl) ;
       io_ret (index + entries_for_request, 0)
     else io_ret (index, actual_retries)) ;
  do _ <- sleep (if failed then retry_interval cfg else interval_between_requests cfg) ;
  io_ret next.

(** One iteration of [while True]: [None] is [break]. *)
Definition iteration (index actual_retries : Z) : io (option (Z * Z)) :=
  do _ <- write_file index_path (Py.str index) ;
  do a <- attempt_page index actual_retries ;
  match a with
  | UpToDate => io_ret None
  | Attempted index' actual_retries' failed =>
      do next <- after_attempt index' actual_retries' failed ;
      io_ret (Some next)
  end.

(** The loop, for at most [fuel] iterations. The outer [None] says that
    the loop was still running when the fuel ran out. *)
Fixpoint crawl (fuel : nat) (index actual_retries : Z) (w : world)
  : option (result unit * world) :=
  match fuel with
  | O => None
  | S fuel' =>
      match iteration index actual_retries w with
      | (Raise e, w') => Some (Raise e, w')
      | (Ok None, w') => Some (Ok tt, w')
      | (Ok (Some (index', actual_retries')), w') =>
          crawl fuel' index' actual_retries' w'
      end
  end.

Definition init_data_population (fuel : nat) (w : world)
  : option (result unit * world) :=
  match load_index w with
  | (Ok index, w') => crawl fuel index 0 w'
  | (Raise e, w') => Some (Raise e, w')
  end.

(** *** [maintain_data] *)

(** [response_json[key][-1]['cve']['lastModified']] or
    [response_json[key][-1]['change']['created']] *)
Definition last_item_timestamp (json_list : list json) : result json :=
  item ← or_raise IndexError (last json_list);
  match cmode cfg with
  | Info => c ← jget "cve" item; jget "lastModified" c
  | Changes => c ← jget "change" item; jget "created" c
  end.

(** The [try] statement of [maintain_data] (lines 202 to 227). *)
Definition fetch_update (timestamp now : string) : io unit :=
  try_except
    (do response <- requests_get (GetDelta timestamp now) ;
     if status_code response =? 200 then
       do response_json <- lift (or_raise ValueError (json_body response)) ;
       do json_list <- lift (results response_json) ;
       do last_timestamp <-
         match json_list with
         | [] => io_ret (JStr now)
         | _ :: _ =>
             do t <- lift (last_item_timestamp json_list) ;
             do _ <- save_wrapper response_json ;
             io_ret t
         end ;
       write_value last_update_path last_timestamp
     else io_ret tt)
    (fun _ => io_ret tt).

Definition maintain_data : io unit :=
  do now <- datetime_now ;
  do found <- try_except
                (do content <- read_file last_update_path ; io_ret (Some content))
                (fun e => match e with
                          | FileNotFoundError => io_ret None
                          | _ => io_raise e
                          end) ;
  match found with
  | None => write_file last_update_path now
  | Some content => fetch_update (Py.strip content) now
  end.

(** *** [run] *)

(** [run] up to the infinite loop: the storage directory, the bulk
    crawl, then the line that stamps the watermark file. *)
Definition startup (fuel : nat) (w : world) : option (result unit * world) :=
  match os_makedirs (storage_path cfg) w with
  | (Raise e, w') => Some (Raise e, w')
  | (Ok _, w0) =>
      match init_data_population fuel w0 with
      | None => None
      | Some (Raise e, w') => Some (Raise e, w')
      | Some (Ok _, w') =>
          Some ((do now <- datetime_now ; write_file last_update_path now) w')
      end
  end.

(** One turn of the infinite loop of [run]. *)
Definition cycle : io unit :=
  do _ <- sleep (update_interval cfg) ;
  maintain_data.

(** The first [n] turns of the infinite loop. *)
Fixpoint cycles (n : nat) : io unit :=
  match n with
  | O => io_ret tt
  | S n' => do _ <- cycle ; cycles n'
  end.

(** [run], cut after [n] turns of its loop. *)
Definition run (fuel n : nat) (w : world) : option (result unit * world) :=
  match startup fuel w with
  | None => None
  | Some (Raise e, w') => Some (Raise e, w')
  | Some (Ok _, w') => Some (cycles n w')
  end.

End Crawler.

(** ** Notions used to speak about the loop *)

(** Whether the attempt for the page at [index], made in the world [w],
    sets [is_exception_or_too_many_request]. *)
Definition attempt_fails (E : env) (cfg : config) (index : Z) (w : world) : bool :=
  match fst (attempt_page E cfg index 0 w) with
  | Ok (Attempted _ _ failed) => failed
  | _ => false
  end.

(** Whether the attempt saves the page. *)
Definition attempt_succeeds (E : env) (cfg : config) (index : Z) (w : world) : bool :=
  match fst (attempt_page E cfg index 0 w) with
  | Ok (Attempted _ _ failed) => negb failed
  | _ => false
  end.

(** The world in which the attempt of an iteration is made: the cursor
    has just been written. *)
Definition checkpoint (cfg : config) (index : Z) (w : world) : world :=
  set_file (index_path cfg) (Py.str index) w.

(** The cursor, the counter and the world after [n] iterations; [None]
    when the loop has ended or raised before. *)
Fixpoint iterations (E : env) (cfg : config) (n : nat) (index actual_retries : Z)
    (w : world) : option (Z * Z * world) :=
  match n with
  | O => Some (index, actual_retries, w)
  | S n' =>
      match iteration E cfg index actual_retries w with
      | (Ok (Some (index', actual_retries')), w') =>
          iterations E cfg n' index' actual_retries' w'
      | _ => None
      end
  end.

(** The attempt of iteration number [j], counted from 0, of a crawl that
    starts at [index] in [w] with the counter at 0, fails. *)
Definition fails_at (E : env) (cfg : config) (index : Z) (w : world) (j : nat)
  : Prop :=
  match iterations E cfg j index 0 w with
  | Some (i, _, v) => attempt_fails E cfg i (checkpoint cfg i v) = true
  | None => False
  end.

(** The attempt of iteration number [j] saves its page. *)
Definition succeeds_at (E : env) (cfg : config) (index : Z) (w : world) (j : nat)
  : Prop :=
  match iterations E cfg j index 0 w with
  | Some (i, _, v) => attempt_succeeds E cfg i (checkpoint cfg i v) = true
  | None => False
  end.

(** ** What archiving and saving leave alone

    The three control files of the crawler end in [x.txt], [p.txt] and
    [s.txt]; no record file and no side file does. *)

Definition control_like (p : string) : bool :=
  Py.endswith "x.txt" p || Py.endswith "p.txt" p || Py.endswith "s.txt" p.

Definition is_ref_request (e : event) : bool :=
  match e with
  | Requested (GetRef _) => true
  | _ => false
  end.

(** [w'] differs from [w] by record files, side files, directories and
    requests for references only. *)
Definition quiet (w w' : world) : Prop :=
  (forall p : string, control_like p = true -> fs w' !! p = fs w !! p)
  /\ exists l : list event,
       trace w' = trace w ++ l /\ forallb is_ref_request l = true.

Definition quietly {A : Type} (m : io A) : Prop :=
  forall w : world, quiet w (snd (m w)).

(** A computation that sends nothing and does not sleep. *)
Definition silent {A : Type} (m : io A) : Prop :=
  forall w : world, trace (snd (m w)) = trace w.

(** The entries of the references [refs] with the values [vals]. *)
Definition entries (refs vals : list json) : list json :=
  zip_with (fun u v => JArr [u; v]) refs vals.

(** The cursors of the page requests of a trace, in order. *)
Fixpoint bulk_requests (t : list event) : list Z :=
  match t with
  | [] => []
  | Requested (GetBulk index) :: t' => index :: bulk_requests t'
  | _ :: t' => bulk_requests t'
  end.

(** ** Inputs used in the examples *)

(** An [info] record that carries the identifier [cve] and nothing else. *)
Definition record_with_id (cve : string) : json :=
  JObj [("cve", JObj [("id", JStr cve)])].

(** An [info] record with an identifier and reference URLs. *)
Definition record_with_refs (cve : string) (urls : list string) : json :=
  JObj [("cve", JObj [("id", JStr cve);
                      ("references",
                       JArr (map (fun u => JObj [("url", JStr u)]) urls))])].

(** A serialiser without escapes, enough to tell the example records
    apart. *)
Definition quoted (s : string) : string :=
  String (ascii_of_nat 34) (Py.cat s (String (ascii_of_nat 34) EmptyString)).

Fixpoint dumps_plain (j : json) : string :=
  match j with
  | JNull => "null"
  | JBool true => "true"
  | JBool false => "false"
  | JNum z => Py.str z
  | JStr s => quoted s
  | JArr l =>
      Py.cat "["
        (Py.cat
           ((fix items (l : list json) : string :=
               match l with
               | [] => ""
               | [x] => dumps_plain x
               | x :: rest => Py.cat (dumps_plain x) (Py.cat ", " (items rest))
               end) l)
           "]")
  | JObj kvs =>
      Py.cat "{"
        (Py.cat
           ((fix members (kvs : list (string * json)) : string :=
               match kvs with
               | [] => ""
               | [(k, v)] => Py.cat (quoted k) (Py.cat ": " (dumps_plain v))
               | (k, v) :: rest =>
                   Py.cat (quoted k)
                     (Py.cat ": " (Py.cat (dumps_plain v) (Py.cat ", " (members rest))))
               end) kvs)
           "}")
  end.

(** The codecs of the examples. *)
Definition example_codec (enc : string) : bool :=
  String.eqb enc "utf-8" || String.eqb enc "ISO-8859-1".

(** An environment with the network [n], a clock that shows the number
    of events so far, and a disk that accepts every directory, every read
    and every write. *)
Definition example_env (n : nat -> request -> option response) : env := {|
  dumps := dumps_plain;
  net := n;
  clock := fun t => Py.cat "2024-05-01T12:00:" (Py.zfill 2 (Py.digits (N.of_nat t)));
  writable := fun _ => true;
  read_error := fun _ => None;
  makedirs := fun _ => ([], None);
  known_codec := example_codec
|}.

Definition empty_world : world := {| fs := ∅; dirs := ∅; trace := [] |}.

(** The trace of a run that came to its end without raising. *)
Definition trace_of (o : option (result unit * world)) : option (list event) :=
  match o with
  | Some (Ok _, w) => Some (trace w)
  | _ => None
  end.

(** The world in which a run came to its end. *)
Definition final_world (o : option (result unit * world)) : world :=
  match o with
  | Some (_, w) => w
  | None => empty_world
  end.

(** The files of a run that came to its end without raising. *)
Definition files_of (o : option (result unit * world)) : option (gmap string string) :=
  match o with
  | Some (Ok _, w) => Some (fs w)
  | _ => None
  end.

(** A page of the feed, with the same items under the key of each mode. *)
Definition feed_page (index total : Z) (items : list json) : page := {|
  startIndex := index;
  totalResults := total;
  vulnerabilities := Some items;
  cveChanges := Some items
|}.

Definition feed_response (pg : page) : response := {|
  status_code := 200;
  content_length := None;
  content_type := Some "application/json";
  encoding := Some "utf-8";
  text := None;
  json_body := Some pg
|}.

(** The record on the page of the feed that starts at [index]. *)
Definition page_record (index : Z) : json :=
  record_with_id
    (if index <? 2000 then "CVE-2024-0001"
     else if index <? 4000 then "CVE-2024-2001"
     else "CVE-2024-4001").

(** A feed of [total] records that answers every request: a page request
    at [index] gets one record while [index] is below [total] and an
    empty page from there on; an update request gets an empty list; a
    reference is not reachable. *)
Definition steady_feed (total : Z) : nat -> request -> option response :=
  fun _ q =>
    match q with
    | GetBulk index =>
        Some (feed_response
                (feed_page index total
                   (if index <? total then [page_record index] else [])))
    | GetDelta _ _ => Some (feed_response (feed_page 0 0 []))
    | GetRef _ => None
    end.

(** The disk left by an earlier run that had crawled a feed of 4500
    records and then kept its watermark up to date. *)
Definition restart_world : world := {|
  fs := <[Py.os_path_join "/usr/src/data" [INDEX_FILENAME] := "6000"]>
          (<[Py.os_path_join "/usr/src/data" [LAST_UPDATE_FILENAME]
             := "2024-01-01T00:00:00.000000"]> ∅);
  dirs := {["/usr/src/data"]};
  trace := []
|}.

(** A network that answers nothing. *)
Definition dead_net : nat -> request -> option response := fun _ _ => None.

(** A network that answers nothing during the first [t0] events and is
    [n] from there on. *)
Definition silent_until (t0 : nat) (n : nat -> request -> option response)
  : nat -> request -> option response :=
  fun t q => if (t <? t0)%nat then None else n t q.

(** A feed whose pages hold one record with a two-part identifier, for
    which no path can be derived. *)
Definition broken_feed : nat -> request -> option response :=
  fun _ q =>
    match q with
    | GetBulk index =>
        Some (feed_response (feed_page index 4500 [record_with_id "CVE-2024"]))
    | _ => None
    end.

(** The cursor, the counter and the page requests sent so far. *)
Definition progress (o : option (Z * Z * world)) : option (Z * Z * list Z) :=
  match o with
  | Some (index, actual_retries, w) =>
      Some (index, actual_retries, bulk_requests (trace w))
  | None => None
  end.

(** An [info] record with an identifier and a modification time. *)
Definition record_modified (cve modified : string) : json :=
  JObj [("cve", JObj [("id", JStr cve); ("lastModified", JStr modified)])].

(** A feed that answers every update request with [items]. *)
Definition delta_feed (items : list json) : nat -> request -> option response :=
  fun _ q =>
    match q with
    | GetDelta _ _ => Some (feed_response (feed_page 0 (Z.of_nat (length items)) items))
    | _ => None
    end.

(** The disk of a crawler whose watermark is [stamp]. *)
Definition world_with_watermark (stamp : string) : world := {|
  fs := <[Py.os_path_join "/usr/src/data" [LAST_UPDATE_FILENAME] := stamp]> ∅;
  dirs := {["/usr/src/data"]};
  trace := []
|}.

(** A [changes] record: an event on the vulnerability [cve]. *)
Definition change_record (cve created : string) : json :=
  JObj [("change", JObj [("cveId", JStr cve); ("created", JStr created)])].

(** An environment like [example_env] whose disk refuses every write. *)
Definition read_only_env (n : nat -> request -> option response) : env := {|
  dumps := dumps_plain;
  net := n;
  clock := fun t => Py.cat "2024-05-01T12:00:" (Py.zfill 2 (Py.digits (N.of_nat t)));
  writable := fun _ => false;
  read_error := fun _ => None;
  makedirs := fun _ => ([], None);
  known_codec := example_codec
|}.

(** A feed whose answers lack the result list. *)
Definition keyless_feed : nat -> request -> option response :=
  fun _ q =>
    match q with
    | GetBulk index =>
        Some (feed_response
                {| startIndex := index; totalResults := 4500;
                   vulnerabilities := None; cveChanges := None |})
    | _ => None
    end.

(** An environment like [example_env] in which the list of missing
    cursors of the default storage directory cannot be opened. *)
Definition no_missing_env (n : nat -> request -> option response) : env := {|
  dumps := dumps_plain;
  net := n;
  clock := fun t => Py.cat "2024-05-01T12:00:" (Py.zfill 2 (Py.digits (N.of_nat t)));
  writable := fun p => negb (String.eqb p "/usr/src/data/missing_indexes.txt");
  read_error := fun _ => None;
  makedirs := fun _ => ([], None);
  known_codec := example_codec
|}.

(** An environment like [example_env] on a disk where no directory can
    be made. *)
Definition no_dirs_env (n : nat -> request -> option response) : env := {|
  dumps := dumps_plain;
  net := n;
  clock := fun t => Py.cat "2024-05-01T12:00:" (Py.zfill 2 (Py.digits (N.of_nat t)));
  writable := fun _ => true;
  read_error := fun _ => None;
  makedirs := fun _ => ([], Some OSError);
  known_codec := example_codec
|}.

(** An environment like [example_env] in which the watermark file of the
    default storage directory can be written and not read. *)
Definition locked_watermark_env (n : nat -> request -> option response) : env := {|
  dumps := dumps_plain;
  net := n;
  clock := fun t => Py.cat "2024-05-01T12:00:" (Py.zfill 2 (Py.digits (N.of_nat t)));
  writable := fun _ => true;
  read_error := fun p => if String.eqb p "/usr/src/data/.last_timestamp.txt"
                         then Some PermissionError else None;
  makedirs := fun _ => ([], None);
  known_codec := example_codec
|}.

(** The defaults with a negative retry interval. *)
Definition hasty_config (m : mode) : config := {|
  storage_path := "/usr/src/data";
  request_timeout := 60;
  interval_between_requests := 6;
  update_interval := 7200;
  retry_interval := -1;
  retries_for_request := 9;
  cmode := m
|}.

(** The encoding [requests] gives an answer whose [Content-Type] names
    no charset. *)
Definition default_encoding (ctype : string) : option string :=
  if Py.contains "text" ctype then Some "ISO-8859-1"
  else if Py.contains "application/json" ctype then Some "utf-8"
  else None.

(** An answer to a reference request. *)
Definition ref_response (status : Z) (len : option string) (ctype body : string)
  : response := {|
  status_code := status;
  content_length := len;
  content_type := Some ctype;
  encoding := default_encoding ctype;
  text := Some body;
  json_body := None
|}.

(** A network where every reference answers with [r] and the feed does
    not answer. *)
Definition ref_net (r : response) : nat -> request -> option response :=
  fun _ q =>
    match q with
    | GetRef _ => Some r
    | _ => None
    end.

(** *** The path layout and the identifier check in the words of the
    specification

    These two definitions follow the specification, not the code; they
    exist to be compared with [get_cve_path_and_filename]. *)

(** [root/year/seq[0:2]/seq[2:4]/<PREFIX>-<year>-<seq>] for a sequence
    component [seq] already rendered as digits. *)
Definition spec_storage_path (root prefix year seq : string) : string :=
  Py.cat root (Py.cat "/" (Py.cat year (Py.cat "/" (Py.cat (Py.slice 0 2 seq)
    (Py.cat "/" (Py.cat (Py.slice 2 4 seq) (Py.cat "/" (Py.cat prefix
      (Py.cat "-" (Py.cat year (Py.cat "-" seq))))))))))).

(** An identifier is well formed when it splits into exactly three
    dash-separated parts and the third reads as an integer that is not
    negative. *)
Definition spec_well_formed (cve : string) : bool :=
  match Py.split "-" cve with
  | [_; _; seq] =>
      match Py.int seq with
      | Some n => 0 <=? n
      | None => false
      end
  | _ => false
  end.

(** ** Notions used to speak about decimal numbers *)

(** The number read from the digits [u] after the digits that gave
    [acc]. *)
Fixpoint uval (acc : Z) (u : Decimal.uint) : Z :=
  match u with
  | Decimal.Nil => acc
  | Decimal.D0 u' => uval (10 * acc + 0) u'
  | Decimal.D1 u' => uval (10 * acc + 1) u'
  | Decimal.D2 u' => uval (10 * acc + 2) u'
  | Decimal.D3 u' => uval (10 * acc + 3) u'
  | Decimal.D4 u' => uval (10 * acc + 4) u'
  | Decimal.D5 u' => uval (10 * acc + 5) u'
  | Decimal.D6 u' => uval (10 * acc + 6) u'
  | Decimal.D7 u' => uval (10 * acc + 7) u'
  | Decimal.D8 u' => uval (10 * acc + 8) u'
  | Decimal.D9 u' => uval (10 * acc + 9) u'
  end.

(** * Properties *)

(** ** Python strings *)

Module PyFacts.

Lemma cat_assoc (a b c : string) : Py.cat (Py.cat a b) c = Py.cat a (Py.cat b c).
Proof. induction a as [|x a IH]; simpl; [done | by f_equal]. Qed.

Lemma cat_empty_r (a : string) : Py.cat a "" = a.
Proof. induction a as [|x a IH]; simpl; [done | by f_equal]. Qed.

Lemma length_cat (a b : string) :
  String.length (Py.cat a b) = (String.length a + String.length b)%nat.
Proof. induction a as [|x a IH]; simpl; [done | by f_equal]. Qed.

Lemma length_string_of_list (l : list ascii) :
  String.length (string_of_list_ascii l) = length l.
Proof. induction l as [|x l IH]; simpl; [done | by f_equal]. Qed.

Lemma length_zfill (w : nat) (s : string) :
  String.length (Py.zfill w s) = Nat.max w (String.length s).
Proof.
  unfold Py.zfill. rewrite length_cat, length_string_of_list, repeat_length. lia.
Qed.

(** *** [split] *)

Lemma split_nonempty (sep : ascii) (s : string) : Py.split sep s <> [].
Proof.
  induction s as [|c s IH]; simpl; [done |].
  destruct (Ascii.eqb c sep); [done |].
  by destruct (Py.split sep s).
Qed.

Lemma split_no_sep (sep : ascii) (s p : string) :
  In p (Py.split sep s) -> Py.has_char sep p = false.
Proof.
  revert p. induction s as [|c s IH]; simpl; intros p Hp.
  - destruct Hp as [<- | []]. done.
  - destruct (Ascii.eqb c sep) eqn:Hc.
    + destruct Hp as [<- | Hp]; [done | by apply IH].
    + destruct (Py.split sep s) as [|w ws] eqn:Hs.
      * destruct Hp as [<- | []]. simpl. rewrite Ascii.eqb_sym, Hc. done.
      * destruct Hp as [<- | Hp].
        -- simpl. rewrite Ascii.eqb_sym, Hc. simpl. apply IH. by left.
        -- apply IH. by right.
Qed.

(** *** [strip] keeps no character that was not there *)

Lemma has_char_lstrip (c : ascii) (s : string) :
  Py.has_char c (Py.lstrip s) = true -> Py.has_char c s = true.
Proof.
  induction s as [|x s IH]; simpl; [done |].
  destruct (Py.isspace x); simpl; [|done].
  intros H. rewrite (IH H). apply orb_true_r.
Qed.

Lemma has_char_rstrip (c : ascii) (s : string) :
  Py.has_char c (Py.rstrip s) = true -> Py.has_char c s = true.
Proof.
  induction s as [|x s IH]; simpl; [done |].
  destruct (Py.rstrip s) as [|y r] eqn:Hr.
  - destruct (Py.isspace x); simpl; [done |].
    rewrite orb_false_r. intros ->. done.
  - simpl. intros H. apply orb_true_iff in H as [H | H].
    + rewrite H. done.
    + simpl in IH. rewrite (IH H). apply orb_true_r.
Qed.

Lemma has_char_strip (c : ascii) (s : string) :
  Py.has_char c (Py.strip s) = true -> Py.has_char c s = true.
Proof. unfold Py.strip. intros H. by apply has_char_lstrip, has_char_rstrip. Qed.

(** *** [int] *)

Lemma digit_val_range (c : ascii) (d : Z) : Py.digit_val c = Some d -> 0 <= d <= 9.
Proof.
  unfold Py.digit_val. destruct (_ && _) eqn:H; [|done].
  intros [= <-]. apply andb_true_iff in H as [H1 H2].
  apply Nat.leb_le in H1, H2. lia.
Qed.

Lemma int_digits_nonneg (s : string) (acc : Z) (seen : bool) (n : Z) :
  0 <= acc -> Py.int_digits acc seen s = Some n -> 0 <= n.
Proof.
  revert acc seen. induction s as [|c s IH]; simpl; intros acc seen Hacc.
  - destruct seen; [|done]. by intros [= <-].
  - destruct (Py.digit_val c) as [d|] eqn:Hd.
    + apply digit_val_range in Hd. apply IH. lia.
    + destruct (_ && _); [|done]. by apply IH.
Qed.

(** A string without a minus sign never reads as a negative number. *)
Lemma int_nonneg (s : string) (n : Z) :
  Py.has_char "-" s = false -> Py.int s = Some n -> 0 <= n.
Proof.
  unfold Py.int. intros Hs.
  destruct (Py.strip s) as [|c r] eqn:Hstrip; [done |].
  destruct (Ascii.eqb c "+") eqn:Hplus.
  { apply int_digits_nonneg. lia. }
  destruct (Ascii.eqb c "-") eqn:Hminus.
  { exfalso. apply Ascii.eqb_eq in Hminus as ->.
    assert (Py.has_char "-" (Py.strip s) = true) as H by (by rewrite Hstrip).
    apply has_char_strip in H. congruence. }
  apply int_digits_nonneg. lia.
Qed.

(** *** Decimal digits *)

Lemma all_digits_uint (u : Decimal.uint) :
  Py.all_digits (NilEmpty.string_of_uint u) = true.
Proof. induction u; simpl; done. Qed.

Lemma string_of_uint_nonempty (u : Decimal.uint) :
  u <> Decimal.Nil -> NilEmpty.string_of_uint u <> "".
Proof. destruct u; simpl; done. Qed.

Lemma all_digits_digits (n : N) : Py.all_digits (Py.digits n) = true.
Proof. apply all_digits_uint. Qed.

Lemma digits_nonempty (n : N) : Py.digits n <> "".
Proof.
  unfold Py.digits. apply string_of_uint_nonempty.
  destruct n as [|q]; simpl; [done |].
  apply DecimalPos.Unsigned.to_uint_nonnil.
Qed.

Lemma all_digits_cat (a b : string) :
  Py.all_digits (Py.cat a b) = Py.all_digits a && Py.all_digits b.
Proof.
  induction a as [|x a IH]; simpl; [done |].
  rewrite IH. by rewrite andb_assoc.
Qed.

Lemma all_digits_zeros (k : nat) :
  Py.all_digits (string_of_list_ascii (repeat "0"%char k)) = true.
Proof. induction k as [|k IH]; simpl; done. Qed.

Lemma all_digits_zfill (w : nat) (s : string) :
  Py.all_digits s = true -> Py.all_digits (Py.zfill w s) = true.
Proof.
  intros H. unfold Py.zfill. by rewrite all_digits_cat, all_digits_zeros, H.
Qed.

Lemma all_digits_substring (s : string) (a k : nat) :
  Py.all_digits s = true -> Py.all_digits (String.substring a k s) = true.
Proof.
  revert a k. induction s as [|c s IH]; intros a k H.
  - by destruct a, k.
  - simpl in H. apply andb_true_iff in H as [Hc Hs].
    destruct a as [|a]; destruct k as [|k]; simpl; auto.
    by rewrite Hc, IH.
Qed.

Lemma length_substring (s : string) (a k : nat) :
  (a + k <= String.length s)%nat -> String.length (String.substring a k s) = k.
Proof.
  revert a k. induction s as [|c s IH]; intros a k H; simpl in H.
  - assert (a = 0%nat) as -> by lia. assert (k = 0%nat) as -> by lia. done.
  - destruct a as [|a]; destruct k as [|k]; simpl; auto.
    + f_equal. apply IH. lia.
    + apply IH. lia.
    + apply IH. lia.
Qed.

(** A non-empty string of digits ends with a digit. *)
Lemma all_digits_last (s : string) :
  Py.all_digits s = true -> s <> "" ->
  exists front c, s = Py.cat front (String c "") /\ Py.isdigit c = true.
Proof.
  induction s as [|x s IH]; [done |]. simpl. intros H _.
  apply andb_true_iff in H as [Hx Hs].
  destruct s as [|y s].
  - exists "", x. done.
  - destruct (IH Hs) as (front & c & Heq & Hc); [done |].
    exists (String x front), c. simpl. by rewrite <- Heq.
Qed.

(** *** [format_06d] *)

Lemma format_06d_nonneg (n : Z) :
  0 <= n -> Py.format_06d n = Py.zfill 6 (Py.digits (Z.to_N n)).
Proof.
  intros H. unfold Py.format_06d.
  destruct (n <? 0) eqn:Hn; [|done]. apply Z.ltb_lt in Hn. lia.
Qed.

Lemma length_format_06d (n : Z) :
  0 <= n ->
  String.length (Py.format_06d n)
  = Nat.max 6 (String.length (Py.digits (Z.to_N n))).
Proof. intros H. by rewrite format_06d_nonneg, length_zfill. Qed.

Lemma all_digits_format_06d (n : Z) :
  0 <= n -> Py.all_digits (Py.format_06d n) = true.
Proof.
  intros H. rewrite format_06d_nonneg by done.
  apply all_digits_zfill, all_digits_digits.
Qed.

(** *** [startswith], [endswith] and [os.path.join] *)

Lemma endswith_cat (p a b : string) :
  (String.length p <= String.length b)%nat ->
  Py.endswith p (Py.cat a b) = Py.endswith p b.
Proof.
  intros Hlen. induction a as [|x a IH]; simpl; [done |].
  rewrite IH. destruct (String.eqb p (String x (Py.cat a b))) eqn:Heq; [|done].
  apply String.eqb_eq in Heq. subst p. simpl in Hlen.
  rewrite length_cat in Hlen. lia.
Qed.

Lemma endswith_cat_self (a p : string) : Py.endswith p (Py.cat a p) = true.
Proof.
  induction a as [|x a IH]; simpl.
  - destruct p; simpl; [done |]. by rewrite Ascii.eqb_refl, String.eqb_refl.
  - rewrite IH. apply orb_true_r.
Qed.

Lemma digits_not_slash_start (s : string) :
  Py.all_digits s = true -> Py.startswith "/" s = false.
Proof.
  destruct s as [|c s]; [done |]. simpl. intros H.
  apply andb_true_iff in H as [Hc _].
  rewrite andb_true_r. destruct (Ascii.eqb "/" c) eqn:Heq; [|done].
  apply Ascii.eqb_eq in Heq. subst c. done.
Qed.

Lemma digits_not_slash_end (s : string) :
  Py.all_digits s = true -> Py.endswith "/" s = false.
Proof.
  induction s as [|c s IH]; [done |]. intros H.
  change (Py.all_digits (String c s))
    with (Py.isdigit c && Py.all_digits s) in H.
  apply andb_true_iff in H as [Hc Hs].
  change (Py.endswith "/" (String c s))
    with (String.eqb "/" (String c s) || Py.endswith "/" s).
  rewrite (IH Hs), orb_false_r.
  destruct (String.eqb_spec "/" (String c s)) as [Heq | Hne]; [|done].
  injection Heq as <- _. done.
Qed.

Lemma join1_plain (path b : string) :
  path <> "" -> Py.endswith "/" path = false -> Py.startswith "/" b = false ->
  Py.join1 path b = Py.cat path (Py.cat "/" b).
Proof.
  intros Hne Hend Hstart. unfold Py.join1. rewrite Hstart, Hend.
  destruct (String.eqb path "") eqn:Heq; [|done].
  by apply String.eqb_eq in Heq.
Qed.

Lemma cat_nonempty_r (a b : string) : b <> "" -> Py.cat a b <> "".
Proof. destruct a, b; simpl; done. Qed.

End PyFacts.

(** ** Path resolution *)

Module PathFacts.

Import PyFacts.

(** Joining a clean component keeps the path clean: no trailing
    separator appears, so the next component is again set after
    exactly one separator. *)
Lemma join1_clean (path b : string) :
  path <> "" -> Py.endswith "/" path = false ->
  b <> "" -> Py.startswith "/" b = false -> Py.endswith "/" b = false ->
  Py.join1 path b = Py.cat path (Py.cat "/" b)
  /\ Py.join1 path b <> ""
  /\ Py.endswith "/" (Py.join1 path b) = false.
Proof.
  intros Hp Hpe Hb Hbs Hbe.
  rewrite (join1_plain path b Hp Hpe Hbs). split; [done |]. split.
  - apply cat_nonempty_r. done.
  - rewrite <- cat_assoc, endswith_cat; [done |].
    destruct b; [done | simpl; lia].
Qed.

Lemma digits_nonempty_by_length (s : string) (k : nat) :
  String.length s = S k -> s <> "".
Proof. by destruct s. Qed.

(** What [cve_location] computes once the identifier has been read and
    split. *)
Lemma location_parts (cfg : config) (json_data : json) (cve : string)
    (prefix year seq : string) (rest : list string) (n : Z) :
  cve_field (cmode cfg) json_data = Ok (JStr cve) ->
  Py.split "-" cve = prefix :: year :: seq :: rest ->
  Py.int seq = Some n ->
  let full_path :=
    Py.os_path_join (storage_path cfg)
      [year; Py.slice 0 2 (Py.format_06d n); Py.slice 2 4 (Py.format_06d n)] in
  cve_location cfg json_data
  = Ok (full_path,
        Py.os_path_join full_path
          [Py.cat "CVE-" (Py.cat year (Py.cat "-" (Py.format_06d n)))]).
Proof.
  intros Hid Hsplit Hint. unfold cve_location.
  rewrite Hid. simpl. rewrite Hsplit. simpl. rewrite Hint. done.
Qed.

(** The method is its computation of the path followed by
    [os.makedirs]. *)
Lemma resolve_unfold (E : env) (cfg : config) (json_data : json) (w : world) :
  get_cve_path_and_filename E cfg json_data w
  = match cve_location cfg json_data with
    | Ok (full_path, path) =>
        match makedirs E full_path with
        | (made, None) => (Ok path, add_dirs (made ++ [full_path]) w)
        | (made, Some e) => (Raise e, add_dirs made w)
        end
    | Raise e => (Raise e, w)
    end.
Proof.
  unfold get_cve_path_and_filename, io_bind, lift, os_makedirs.
  destruct (cve_location cfg json_data) as [[full_path path] | e]; [|done].
  simpl. by destruct (makedirs E full_path) as [made [e|]].
Qed.

(** What the method returns or raises does not depend on the world. *)
Lemma resolve_any_world (E : env) (cfg : config) (json_data : json) (w v : world) :
  fst (get_cve_path_and_filename E cfg json_data w)
  = fst (get_cve_path_and_filename E cfg json_data v).
Proof.
  rewrite !resolve_unfold.
  destruct (cve_location cfg json_data) as [[full_path path] | e]; [|done].
  by destruct (makedirs E full_path) as [made [e|]].
Qed.

(** The method touches no file and sends nothing: directories are all
    it adds. *)
Lemma resolve_files (E : env) (cfg : config) (json_data : json) (w : world) :
  fs (snd (get_cve_path_and_filename E cfg json_data w)) = fs w
  /\ trace (snd (get_cve_path_and_filename E cfg json_data w)) = trace w
  /\ dirs w ⊆ dirs (snd (get_cve_path_and_filename E cfg json_data w)).
Proof.
  rewrite resolve_unfold.
  destruct (cve_location cfg json_data) as [[full_path path] | e]; [|done].
  destruct (makedirs E full_path) as [made [e|]]; simpl;
    (split; [done |]; split; [done | set_solver]).
Qed.

(** What the method returns depends on the identifier alone. *)
Lemma location_same_identifier (cfg : config) (j1 j2 : json) :
  cve_field (cmode cfg) j1 = cve_field (cmode cfg) j2 ->
  cve_location cfg j1 = cve_location cfg j2.
Proof. intros H. unfold cve_location. by rewrite H. Qed.

(** Parts after the third do not count. *)
Lemma location_three_parts (cfg : config) (j1 j2 : json) (cve1 cve2 : string) :
  cve_field (cmode cfg) j1 = Ok (JStr cve1) ->
  cve_field (cmode cfg) j2 = Ok (JStr cve2) ->
  take 3 (Py.split "-" cve1) = take 3 (Py.split "-" cve2) ->
  cve_location cfg j1 = cve_location cfg j2.
Proof.
  intros H1 H2 Ht.
  assert (forall i : nat, (i < 3)%nat ->
            Py.split "-" cve1 !! i = Py.split "-" cve2 !! i) as Hlook.
  { intros i Hi. rewrite <- (lookup_take_lt (Py.split "-" cve1) 3 i Hi).
    rewrite Ht. by apply lookup_take_lt. }
  unfold cve_location. rewrite H1, H2. simpl.
  by rewrite (Hlook 1%nat), (Hlook 2%nat) by lia.
Qed.

Lemma resolve_same_location (E : env) (cfg cfg' : config) (j1 j2 : json) (w : world) :
  cve_location cfg j1 = cve_location cfg' j2 ->
  get_cve_path_and_filename E cfg j1 w = get_cve_path_and_filename E cfg' j2 w.
Proof. intros H. by rewrite !resolve_unfold, H. Qed.

(** The sequence part of a split identifier holds no dash, so it reads
    as a number that is not negative. *)
Lemma sequence_nonneg (cve prefix year seq : string) (rest : list string) (n : Z) :
  Py.split "-" cve = prefix :: year :: seq :: rest ->
  Py.int seq = Some n -> 0 <= n.
Proof.
  intros Hsplit Hint. apply (int_nonneg seq); [|done].
  apply (split_no_sep "-" cve). rewrite Hsplit. simpl. auto.
Qed.

End PathFacts.

(** ** Claims about path resolution *)

Section PathClaims.

Import PyFacts PathFacts.

(** C5, as amended. For an identifier with at least three dash-separated
    parts whose third part [int] accepts as [n], the method makes the
    directory obtained by joining the storage root, the year and the first
    and the second pair of characters of the padded sequence, and, when
    [os.makedirs] returns, it returns that directory joined with the file
    name made of the literal [CVE], the year and the padded sequence,
    in whatever world it is called; making the directory is all it does.
    The padded sequence is [n] in decimal with zeros on the left up to
    six characters, so it has six characters or, for a longer number, as
    many as the number has digits. The path depends on the identifier
    alone: any other record with the same identifier resolves alike. For
    a storage root and a year with no separator at their ends, the path is
    literally [root/year/p[0:2]/p[2:4]/CVE-year-p]. *)
Theorem path_layout (E : env) (cfg : config) (json_data : json) (cve : string)
    (prefix year seq : string) (rest : list string) (n : Z) (made : list string) :
  cve_field (cmode cfg) json_data = Ok (JStr cve) ->
  Py.split "-" cve = prefix :: year :: seq :: rest ->
  Py.int seq = Some n ->
  let p := Py.zfill 6 (Py.digits (Z.to_N n)) in
  let root := storage_path cfg in
  let full_path := Py.os_path_join root [year; Py.slice 0 2 p; Py.slice 2 4 p] in
  let path :=
    Py.os_path_join full_path [Py.cat "CVE-" (Py.cat year (Py.cat "-" p))] in
  makedirs E full_path = (made, None) ->
  (forall w : world,
     get_cve_path_and_filename E cfg json_data w
     = (Ok path, add_dirs (made ++ [full_path]) w))
  /\ String.length p = Nat.max 6 (String.length (Py.digits (Z.to_N n)))
  /\ (forall (other : json) (w : world),
        cve_field (cmode cfg) other = Ok (JStr cve) ->
        get_cve_path_and_filename E cfg other w
        = get_cve_path_and_filename E cfg json_data w)
  /\ (root <> "" -> Py.endswith "/" root = false ->
      year <> "" -> Py.startswith "/" year = false ->
      Py.endswith "/" year = false ->
      path = spec_storage_path root "CVE" year p).
Proof.
  intros Hid Hsplit Hint p root full_path path Hmk.
  pose proof (sequence_nonneg _ _ _ _ _ _ Hsplit Hint) as Hn.
  pose proof (location_parts cfg json_data _ _ _ _ _ _ Hid Hsplit Hint) as Hres.
  cbv zeta in Hres.
  rewrite (format_06d_nonneg n Hn) in Hres. fold p in Hres. fold root in Hres.
  fold full_path in Hres. fold path in Hres.
  split; [|split; [|split]].
  { intros w. by rewrite resolve_unfold, Hres, Hmk. }
  { apply length_zfill. }
  { intros other w Hother. apply resolve_same_location.
    apply location_same_identifier. by rewrite Hother, Hid. }
  intros Hroot Hroot_end Hyear Hyear_start Hyear_end.
  unfold path, full_path, Py.os_path_join, spec_storage_path. simpl.
  assert (Py.all_digits p = true) as Hdig
    by apply all_digits_zfill, all_digits_digits.
  assert (6 <= String.length p)%nat as Hlen
    by (unfold p; rewrite length_zfill; lia).
  destruct (join1_clean root year Hroot Hroot_end Hyear Hyear_start Hyear_end)
    as (E1 & N1 & C1).
  assert (String.length (Py.slice 0 2 p) = 2%nat) as La
    by (apply length_substring; lia).
  assert (String.length (Py.slice 2 4 p) = 2%nat) as Lb
    by (apply length_substring; simpl; lia).
  assert (Py.all_digits (Py.slice 0 2 p) = true) as Da
    by (by apply all_digits_substring).
  assert (Py.all_digits (Py.slice 2 4 p) = true) as Db
    by (by apply all_digits_substring).
  destruct (join1_clean (Py.join1 root year) (Py.slice 0 2 p) N1 C1)
    as (E2 & N2 & C2);
    [by eapply digits_nonempty_by_length
    | by apply digits_not_slash_start | by apply digits_not_slash_end |].
  destruct (join1_clean _ (Py.slice 2 4 p) N2 C2) as (E3 & N3 & C3);
    [by eapply digits_nonempty_by_length
    | by apply digits_not_slash_start | by apply digits_not_slash_end |].
  rewrite (join1_plain _ _ N3 C3) by done.
  rewrite E3, E2, E1. rewrite !cat_assoc. done.
Qed.

(** The layout theorem at the identifier [CVE-2021-44]. *)
Lemma path_layout_witness :
  get_cve_path_and_filename (example_env dead_net) (default_config Info)
    (record_with_id "CVE-2021-44") empty_world
  = (Ok "/usr/src/data/2021/00/00/CVE-2021-000044",
     add_dirs ["/usr/src/data/2021/00/00"] empty_world).
Proof.
  exact (proj1 (path_layout (example_env dead_net) (default_config Info)
                  (record_with_id "CVE-2021-44")
                  "CVE-2021-44" "CVE" "2021" "44" [] 44 []
                  eq_refl eq_refl eq_refl eq_refl) empty_world).
Defined.

(** C5, as stated, fails: the sequence component is not always six
    digits. The identifier [CVE-2017-1000117] resolves to a path whose
    sequence component has seven digits, which is the layout of the
    specification for no six-character sequence. *)
Lemma six_digits_refuted :
  fst (get_cve_path_and_filename (example_env dead_net) (default_config Info)
         (record_with_id "CVE-2017-1000117") empty_world)
  = Ok "/usr/src/data/2017/10/00/CVE-2017-1000117"
  /\ forall seq6 : string,
       String.length seq6 = 6%nat ->
       "/usr/src/data/2017/10/00/CVE-2017-1000117"
       <> spec_storage_path "/usr/src/data" "CVE" "2017" seq6.
Proof.
  split; [reflexivity |].
  intros seq6 Hlen.
  destruct seq6 as [|c1 [|c2 [|c3 [|c4 [|c5 [|c6 [|c7 s]]]]]]];
    simpl in Hlen; try lia.
  vm_compute. intros Heq. discriminate Heq.
Qed.

(** C8, as amended. Path resolution raises exactly in three cases: the
    identifier has fewer than three dash-separated parts, and the
    exception is [IndexError]; [int] rejects its third part, and the
    exception is [ValueError]; the directory of the record cannot be
    made, and the exception is the one of [os.makedirs]. In the first
    two cases nothing has been done when it raises. Parts after the
    third are not looked at. *)
Theorem resolution_fails_iff (E : env) (cfg : config) (json_data : json)
    (cve : string) (w : world) :
  cve_field (cmode cfg) json_data = Ok (JStr cve) ->
  let parts := Py.split "-" cve in
  let outcome := get_cve_path_and_filename E cfg json_data w in
  ((length parts < 3)%nat -> outcome = (Raise IndexError, w))
  /\ (forall seq : string,
        parts !! 2%nat = Some seq -> Py.int seq = None ->
        outcome = (Raise ValueError, w))
  /\ (forall (full_path path : string) (made : list string) (e : exn),
        cve_location cfg json_data = Ok (full_path, path) ->
        makedirs E full_path = (made, Some e) ->
        outcome = (Raise e, add_dirs made w))
  /\ (is_ok (fst outcome) = false
      <-> (length parts < 3)%nat
          \/ (exists seq : string, parts !! 2%nat = Some seq /\ Py.int seq = None)
          \/ (exists (full_path path : string) (e : exn),
                cve_location cfg json_data = Ok (full_path, path)
                /\ snd (makedirs E full_path) = Some e))
  /\ (forall (other : json) (cve' : string),
        cve_field (cmode cfg) other = Ok (JStr cve') ->
        take 3 (Py.split "-" cve') = take 3 parts ->
        get_cve_path_and_filename E cfg other w = outcome).
Proof.
  intros Hid parts outcome. unfold outcome, parts.
  rewrite resolve_unfold.
  split; [|split; [|split; [|split]]].
  - intros Hlen. unfold cve_location. rewrite Hid. simpl.
    destruct (Py.split "-" cve) as [|prefix [|year [|seq rest]]]; simpl in *;
      try done. lia.
  - intros seq Hseq Hint. unfold cve_location. rewrite Hid. simpl.
    destruct (Py.split "-" cve) as [|prefix [|year [|seq' rest]]]; simpl in *;
      try done.
    injection Hseq as ->. by rewrite Hint.
  - intros full_path path made e Hloc Hmk. by rewrite Hloc, Hmk.
  - unfold cve_location. rewrite Hid. simpl.
    destruct (Py.split "-" cve) as [|prefix [|year [|seq rest]]] eqn:Hsplit; simpl.
    + split; [intros _; left; lia | done].
    + split; [intros _; left; lia | done].
    + split; [intros _; left; lia | done].
    + destruct (Py.int seq) as [n|] eqn:Hint; simpl.
      * destruct (makedirs E _) as [made [e|]] eqn:Hmk; simpl.
        -- split; [|done]. intros _. right. right. eexists _, _, e.
           split; [done |]. by rewrite Hmk.
        -- split; [done |].
           intros [H | [(seq' & [= <-] & H) | (fp & pa & e & [= <- <-] & H)]];
             [lia | congruence |].
           rewrite Hmk in H. done.
      * split; [|done]. intros _. right. left. by exists seq.
  - intros other cve' Hother Htake.
    rewrite resolve_unfold.
    by rewrite (location_three_parts cfg other json_data cve' cve Hother Hid Htake).
Qed.

(** The identifier [CVE-2020] has two parts and does not resolve. *)
Lemma resolution_fails_iff_witness :
  get_cve_path_and_filename (example_env dead_net) (default_config Info)
    (record_with_id "CVE-2020") empty_world
  = (Raise IndexError, empty_world).
Proof.
  apply (resolution_fails_iff (example_env dead_net) (default_config Info)
           (record_with_id "CVE-2020") "CVE-2020" empty_world eq_refl).
  simpl. lia.
Defined.

(** C8, as stated, fails: an identifier with four dash-separated parts
    is malformed in the words of the specification, and it resolves. *)
Lemma four_parts_accepted :
  spec_well_formed "CVE-2020-123-extra" = false
  /\ fst (get_cve_path_and_filename (example_env dead_net) (default_config Info)
            (record_with_id "CVE-2020-123-extra") empty_world)
     = Ok "/usr/src/data/2020/00/01/CVE-2020-000123".
Proof. split; reflexivity. Qed.

End PathClaims.


(** ** The frame of archiving and saving *)

Module Frame.

Import PyFacts.

Lemma quiet_refl (w : world) : quiet w w.
Proof. split; [done |]. exists []. by rewrite app_nil_r. Qed.

Lemma quiet_trans (w1 w2 w3 : world) : quiet w1 w2 -> quiet w2 w3 -> quiet w1 w3.
Proof.
  intros [F12 (l12 & T12 & R12)] [F23 (l23 & T23 & R23)]. split.
  - intros p Hp. by rewrite F23, F12.
  - exists (l12 ++ l23). rewrite T23, T12, <- app_assoc. split; [done |].
    by rewrite forallb_app, R12, R23.
Qed.

Lemma quietly_ret {A : Type} (a : A) : quietly (io_ret a).
Proof. intros w. apply quiet_refl. Qed.

Lemma quietly_raise {A : Type} (e : exn) : quietly (@io_raise A e).
Proof. intros w. apply quiet_refl. Qed.

Lemma quietly_lift {A : Type} (r : result A) : quietly (lift r).
Proof. intros w. apply quiet_refl. Qed.

Lemma quietly_bind {A B : Type} (m : io A) (k : A -> io B) :
  quietly m -> (forall a, quietly (k a)) -> quietly (io_bind m k).
Proof.
  intros Hm Hk w. unfold io_bind. specialize (Hm w).
  destruct (m w) as [[a | e] w1]; simpl in *; [|done].
  eapply quiet_trans; [exact Hm | apply Hk].
Qed.

Lemma quietly_try {A : Type} (m : io A) (h : exn -> io A) :
  quietly m -> (forall e, quietly (h e)) -> quietly (try_except m h).
Proof.
  intros Hm Hh w. unfold try_except. specialize (Hm w).
  destruct (m w) as [[a | e] w1]; simpl in *; [done |].
  eapply quiet_trans; [exact Hm | apply Hh].
Qed.

Lemma quietly_get_ref (E : env) (ref_url : json) :
  quietly (requests_get E (GetRef ref_url)).
Proof.
  intros w. unfold requests_get. simpl. split; [done |].
  by exists [Requested (GetRef ref_url)].
Qed.

Lemma quietly_write (E : env) (p s : string) :
  control_like p = false -> quietly (write_file E p s).
Proof.
  intros Hp w. unfold write_file.
  destruct (writable E p); simpl; [|apply quiet_refl].
  split; [|exists []; by rewrite app_nil_r].
  intros q Hq. apply lookup_insert_ne. congruence.
Qed.

Lemma quietly_append (E : env) (p s : string) :
  control_like p = false -> quietly (append_file E p s).
Proof.
  intros Hp w. unfold append_file.
  destruct (writable E p); simpl; [|apply quiet_refl].
  split; [|exists []; by rewrite app_nil_r].
  intros q Hq. apply lookup_insert_ne. congruence.
Qed.

Lemma quietly_makedirs (E : env) (name : string) : quietly (os_makedirs E name).
Proof.
  intros w. unfold os_makedirs.
  destruct (makedirs E name) as [made [e|]]; simpl;
    (split; [done | exists []; by rewrite app_nil_r]).
Qed.

Lemma quietly_resolve (E : env) (cfg : config) (json_data : json) :
  quietly (get_cve_path_and_filename E cfg json_data).
Proof.
  unfold get_cve_path_and_filename.
  apply quietly_bind; [apply quietly_lift |]. intros location.
  apply quietly_bind; [apply quietly_makedirs |]. intros _. apply quietly_ret.
Qed.

(** *** The names of the files *)

Lemma endswith_trans (q name p : string) :
  Py.endswith q name = true -> Py.endswith name p = true -> Py.endswith q p = true.
Proof.
  intros Hq. induction p as [|c p IH].
  - simpl. rewrite orb_false_r. intros H%String.eqb_eq. by subst name.
  - change (Py.endswith name (String c p))
      with (String.eqb name (String c p) || Py.endswith name p).
    change (Py.endswith q (String c p))
      with (String.eqb q (String c p) || Py.endswith q p).
    intros H. apply orb_true_iff in H as [H | H].
    + apply String.eqb_eq in H. subst name. exact Hq.
    + rewrite (IH H). apply orb_true_r.
Qed.

Lemma endswith_join1 (root name : string) :
  Py.startswith "/" name = false -> Py.endswith name (Py.join1 root name) = true.
Proof.
  intros H. unfold Py.join1. rewrite H.
  destruct (_ || _).
  - apply endswith_cat_self.
  - rewrite <- cat_assoc. apply endswith_cat_self.
Qed.

Lemma control_like_index (cfg : config) : control_like (index_path cfg) = true.
Proof.
  unfold control_like, index_path, Py.os_path_join. simpl.
  rewrite (endswith_trans "x.txt" INDEX_FILENAME); [done | done |].
  by apply endswith_join1.
Qed.

Lemma control_like_last_update (cfg : config) :
  control_like (last_update_path cfg) = true.
Proof.
  unfold control_like, last_update_path, Py.os_path_join. simpl.
  rewrite (endswith_trans "p.txt" LAST_UPDATE_FILENAME); [|done|].
  - by rewrite orb_true_r.
  - by apply endswith_join1.
Qed.

Lemma control_like_missing (cfg : config) : control_like (missing_path cfg) = true.
Proof.
  unfold control_like, missing_path, Py.os_path_join. simpl.
  rewrite (endswith_trans "s.txt" MISSING_INDEXES); [|done|].
  - by rewrite !orb_true_r.
  - by apply endswith_join1.
Qed.

Lemma str_last (z : Z) :
  exists front c, Py.str z = Py.cat front (String c "") /\ Py.isdigit c = true.
Proof.
  unfold Py.str. destruct (z <? 0).
  - destruct (all_digits_last (Py.digits (Z.to_N (- z))))
      as (front & c & Heq & Hc);
      [apply all_digits_digits | apply digits_nonempty |].
    exists (String "-" front), c. simpl. by rewrite Heq.
  - destruct (all_digits_last (Py.digits (Z.to_N z))) as (front & c & Heq & Hc);
      [apply all_digits_digits | apply digits_nonempty |].
    by exists front, c.
Qed.

(** A digit is none of the letters before [.txt] in a control file, nor
    the [t] that ends one. *)
Lemma digit_not_letter (c : ascii) :
  Py.isdigit c = true ->
  Ascii.eqb "x" c = false /\ Ascii.eqb "p" c = false
  /\ Ascii.eqb "s" c = false /\ Ascii.eqb "t" c = false.
Proof.
  intros Hc. repeat split.
  all: match goal with
       | |- Ascii.eqb ?a ?b = false =>
           destruct (Ascii.eqb_spec a b) as [<- | _]; [discriminate Hc | done]
       end.
Qed.

Lemma endswith_one (a c : ascii) (tail : string) :
  Ascii.eqb a c = false ->
  Py.endswith (String a tail) (String c tail) = Py.endswith (String a tail) tail.
Proof.
  intros Hac.
  change (Py.endswith (String a tail) (String c tail))
    with (String.eqb (String a tail) (String c tail)
          || Py.endswith (String a tail) tail).
  destruct (String.eqb_spec (String a tail) (String c tail)) as [Heq | _]; [|done].
  injection Heq as ->. by rewrite Ascii.eqb_refl in Hac.
Qed.

(** A control file ends with a [t]. *)
Lemma control_like_t (p : string) :
  Py.endswith "t" p = false -> control_like p = false.
Proof.
  intros Ht. unfold control_like.
  destruct (Py.endswith "x.txt" p) eqn:H1.
  { rewrite (endswith_trans "t" "x.txt" p) in Ht; done. }
  destruct (Py.endswith "p.txt" p) eqn:H2.
  { rewrite (endswith_trans "t" "p.txt" p) in Ht; done. }
  destruct (Py.endswith "s.txt" p) eqn:H3.
  { rewrite (endswith_trans "t" "s.txt" p) in Ht; done. }
  done.
Qed.

Lemma control_like_json (stem : string) : control_like (Py.cat stem ".json") = false.
Proof. apply control_like_t. by rewrite endswith_cat by (simpl; lia). Qed.

Lemma control_like_jsonl (stem : string) : control_like (Py.cat stem ".jsonl") = false.
Proof. apply control_like_t. by rewrite endswith_cat by (simpl; lia). Qed.

Lemma control_like_side_text (stem : string) (n : Z) :
  control_like (Py.cat stem (Py.cat "-" (Py.cat (Py.str n) ".txt"))) = false.
Proof.
  destruct (str_last n) as (front & c & -> & Hc).
  destruct (digit_not_letter c Hc) as (Hx & Hp & Hs & _).
  rewrite (cat_assoc front). simpl (Py.cat (String c "") ".txt").
  rewrite <- !cat_assoc.
  unfold control_like. rewrite !endswith_cat by (simpl; lia).
  by rewrite (endswith_one _ _ _ Hx), (endswith_one _ _ _ Hp), (endswith_one _ _ _ Hs).
Qed.

Lemma control_like_side (stem : string) (n : Z) :
  control_like (Py.cat stem (Py.cat "-" (Py.str n))) = false.
Proof.
  destruct (str_last n) as (front & c & -> & Hc).
  destruct (digit_not_letter c Hc) as (_ & _ & _ & Ht).
  rewrite <- !cat_assoc. apply control_like_t.
  rewrite endswith_cat by (simpl; lia). by rewrite (endswith_one _ _ _ Ht).
Qed.

(** *** Archiving and saving are quiet *)

Ltac quiet_step :=
  first
    [ apply quietly_ret | apply quietly_raise | apply quietly_lift
    | apply quietly_get_ref | apply quietly_resolve
    | apply quietly_write;
        first [ apply control_like_json | apply control_like_side_text
              | apply control_like_side ]
    | apply quietly_append; apply control_like_jsonl
    | apply quietly_bind; [|intros ?]
    | apply quietly_try; [|intros ?] ].

Lemma quietly_stream_text (E : env) (stem : string) (n : Z) (r : response) :
  quietly (stream_text_to E (Py.cat stem (Py.cat "-" (Py.cat (Py.str n) ".txt"))) r).
Proof.
  unfold stream_text_to. quiet_step; [quiet_step |].
  destruct (encoding r) as [enc|].
  - destruct (known_codec E enc); repeat quiet_step.
  - quiet_step; [quiet_step |]. destruct (String.eqb _ ""); quiet_step.
Qed.

Lemma quietly_stream (E : env) (stem : string) (n : Z) (r : response) :
  quietly (stream_to E (Py.cat stem (Py.cat "-" (Py.str n))) r).
Proof. unfold stream_to. repeat quiet_step. Qed.

Lemma quietly_fetch_reference (E : env) (cfg : config) (json_data : json)
    (ext_ref_id : Z) (ref_url : json) :
  quietly (fetch_reference E cfg json_data ext_ref_id ref_url).
Proof.
  unfold fetch_reference. quiet_step; [quiet_step |].
  destruct (status_code _ =? 200); [|quiet_step].
  quiet_step; [quiet_step |].
  destruct (is_textual _).
  - quiet_step; [quiet_step |].
    match goal with b : bool |- _ => destruct b end.
    + quiet_step; [apply quietly_stream_text | quiet_step].
    + repeat quiet_step.
  - quiet_step; [apply quietly_stream | quiet_step].
Qed.

Lemma quietly_fetch_references (E : env) (cfg : config) (json_data : json)
    (references : list json) (ext_ref_id : Z) (read_references : list json) :
  quietly (fetch_references E cfg json_data references ext_ref_id read_references).
Proof.
  revert ext_ref_id read_references.
  induction references as [|ref_url rest IH]; intros n acc; simpl.
  - quiet_step.
  - quiet_step; [|apply IH].
    quiet_step; [apply quietly_fetch_reference | quiet_step].
Qed.

Lemma quietly_fetch_and_add_references (E : env) (cfg : config) (json_data : json) :
  quietly (fetch_and_add_references E cfg json_data).
Proof.
  unfold fetch_and_add_references. quiet_step; [|quiet_step].
  quiet_step; [quiet_step |].
  quiet_step; [apply quietly_fetch_references | quiet_step].
Qed.

Lemma quietly_save_data (E : env) (cfg : config) (json_data : json) :
  quietly (save_data E cfg json_data).
Proof.
  unfold save_data. quiet_step; [|quiet_step].
  quiet_step; [quiet_step |]. destruct (cmode cfg); quiet_step.
Qed.

Lemma quietly_save_item (E : env) (cfg : config) (e : json) :
  quietly (save_item E cfg e).
Proof.
  unfold save_item. quiet_step; [|apply quietly_save_data].
  destruct (cmode cfg); [apply quietly_fetch_and_add_references | quiet_step].
Qed.

Lemma quietly_save_items (E : env) (cfg : config) (json_list : list json) :
  quietly (save_items E cfg json_list).
Proof.
  induction json_list as [|e rest IH]; simpl; [quiet_step |].
  quiet_step; [apply quietly_save_item | apply IH].
Qed.

Lemma quietly_save_wrapper (E : env) (cfg : config) (response_json : page) :
  quietly (save_wrapper E cfg response_json).
Proof.
  unfold save_wrapper. quiet_step; [quiet_step | apply quietly_save_items].
Qed.

(** Requests for references are not page requests. *)
Lemma bulk_requests_app (t1 t2 : list event) :
  bulk_requests (t1 ++ t2) = bulk_requests t1 ++ bulk_requests t2.
Proof.
  induction t1 as [|e t1 IH]; simpl; [done |].
  destruct e as [[index | ts now | url] | secs]; simpl; by rewrite ?IH.
Qed.

Lemma bulk_requests_refs (l : list event) :
  forallb is_ref_request l = true -> bulk_requests l = [].
Proof.
  induction l as [|e l IH]; simpl; [done |].
  destruct e as [[index | ts now | url] | secs]; simpl; done.
Qed.

Lemma quiet_bulk_requests (w w' : world) :
  quiet w w' -> bulk_requests (trace w') = bulk_requests (trace w).
Proof.
  intros [_ (l & -> & Hl)].
  by rewrite bulk_requests_app, (bulk_requests_refs l Hl), app_nil_r.
Qed.

End Frame.


(** ** The reference archiver *)

Module Archive.

Import PyFacts Frame.

Section OneReference.

Variable E : env.
Variable cfg : config.
Variable json_data : json.
Variable ext_ref_id : Z.
Variable ref_url : json.
Variable w : world.

(** The world once the request for the reference has been sent. *)
Let w1 : world := log (Requested (GetRef ref_url)) w.


Lemma fetch_no_answer :
  net E (length (trace w)) (GetRef ref_url) = None ->
  fetch_reference E cfg json_data ext_ref_id ref_url w = (Raise RequestException, w1).
Proof.
  intros Hnet. unfold fetch_reference, io_bind, requests_get. by rewrite Hnet.
Qed.

Lemma fetch_not_200 (r : response) :
  net E (length (trace w)) (GetRef ref_url) = Some r ->
  status_code r <> 200 ->
  fetch_reference E cfg json_data ext_ref_id ref_url w
  = (Ok (JNum (status_code r), ext_ref_id), w1).
Proof.
  intros Hnet Hst. unfold fetch_reference, io_bind, requests_get. rewrite Hnet.
  simpl. destruct (status_code r =? 200) eqn:H200; [|done].
  apply Z.eqb_eq in H200. done.
Qed.

Section Answer200.

Variable r : response.
Variable path : string.
Variable w2 : world.
Hypothesis Hnet : net E (length (trace w)) (GetRef ref_url) = Some r.
Hypothesis H200 : status_code r = 200.
Hypothesis Hpath : get_cve_path_and_filename E cfg json_data w1 = (Ok path, w2).

Lemma fetch_inline (body : string) :
  is_textual (default "" (content_type r)) = true ->
  over_threshold (content_length r) = Ok false ->
  text r = Some body ->
  fetch_reference E cfg json_data ext_ref_id ref_url w
  = (Ok (JStr body, ext_ref_id), w2).
Proof.
  intros Htext Hbig Hbody.
  unfold fetch_reference, io_bind at 1, requests_get. rewrite Hnet. simpl.
  rewrite H200. simpl. unfold io_bind at 1. fold w1. rewrite Hpath.
  unfold io_bind, lift. rewrite Htext, Hbig, Hbody. done.
Qed.










End Answer200.


End OneReference.

(** *** Only the request itself is added to the trace *)

Lemma silent_ret {A : Type} (a : A) : silent (io_ret a).
Proof. done. Qed.

Lemma silent_raise {A : Type} (e : exn) : silent (@io_raise A e).
Proof. done. Qed.

Lemma silent_lift {A : Type} (r : result A) : silent (lift r).
Proof. done. Qed.

Lemma silent_bind {A B : Type} (m : io A) (k : A -> io B) :
  silent m -> (forall a, silent (k a)) -> silent (io_bind m k).
Proof.
  intros Hm Hk w0. unfold io_bind. specialize (Hm w0).
  destruct (m w0) as [[a | e] w']; simpl in *; [|done].
  by rewrite Hk.
Qed.

Lemma silent_write (E : env) (p s : string) : silent (write_file E p s).
Proof. intros w0. unfold write_file. by destruct (writable E p). Qed.

Lemma silent_resolve (E : env) (cfg : config) (json_data : json) :
  silent (get_cve_path_and_filename E cfg json_data).
Proof. intros w0. apply PathFacts.resolve_files. Qed.

Lemma silent_stream (E : env) (p : string) (r : response) : silent (stream_to E p r).
Proof.
  unfold stream_to. apply silent_bind; [apply silent_write |]. intros _.
  apply silent_bind; [apply silent_lift |]. intros body. apply silent_write.
Qed.

Lemma silent_stream_text (E : env) (p : string) (r : response) :
  silent (stream_text_to E p r).
Proof.
  unfold stream_text_to. apply silent_bind; [apply silent_write |]. intros _.
  destruct (encoding r) as [enc|].
  - destruct (known_codec E enc); [|apply silent_raise].
    apply silent_bind; [apply silent_lift |]. intros body. apply silent_write.
  - apply silent_bind; [apply silent_lift |]. intros body.
    destruct (String.eqb body ""); [apply silent_ret | apply silent_raise].
Qed.

Lemma fetch_reference_trace (E : env) (cfg : config) (json_data : json)
    (n : Z) (ref_url : json) (w : world) :
  trace (snd (fetch_reference E cfg json_data n ref_url w))
  = trace w ++ [Requested (GetRef ref_url)].
Proof.
  unfold fetch_reference, io_bind at 1, requests_get.
  destruct (net E (length (trace w)) (GetRef ref_url)) as [r|]; simpl; [|done].
  match goal with
  | |- trace (snd (?m ?w0)) = _ => assert (silent m) as Hs; [|by rewrite Hs]
  end.
  destruct (status_code r =? 200); [|apply silent_ret].
  apply silent_bind; [apply silent_resolve |]. intros path.
  destruct (is_textual _).
  - apply silent_bind; [apply silent_lift |]. intros [|].
    + apply silent_bind; [apply silent_stream_text | intros _; apply silent_ret].
    + apply silent_bind; [apply silent_lift | intros body; apply silent_ret].
  - apply silent_bind; [apply silent_stream | intros _; apply silent_ret].
Qed.

(** *** The loop over the references *)

Section Loop.

Variable E : env.
Variable cfg : config.
Variable json_data : json.

(** One turn of the loop never raises, and what it adds to the trace is
    the request. *)
Lemma guarded_fetch (n : Z) (ref_url : json) (w : world) :
  exists (v : json) (n' : Z) (w' : world),
    archive_reference E cfg json_data n ref_url w = (Ok (v, n'), w')
    /\ trace w' = trace w ++ [Requested (GetRef ref_url)]
    /\ match net E (length (trace w)) (GetRef ref_url) with
       | None => v = JStr ERROR_MARKER
       | Some r => status_code r <> 200 -> v = JNum (status_code r)
       end.
Proof.
  pose proof (fetch_reference_trace E cfg json_data n ref_url w) as Htrace.
  unfold archive_reference, try_except.
  destruct (net E (length (trace w)) (GetRef ref_url)) as [r|] eqn:Hnet.
  - destruct (fetch_reference E cfg json_data n ref_url w) as [[[v n'] | e] w'] eqn:Hf.
    + exists v, n', w'. split; [done |]. split; [done |].
      intros Hst. rewrite (fetch_not_200 _ _ _ _ _ _ r Hnet Hst) in Hf. congruence.
    + exists (JStr ERROR_MARKER), n, w'. split; [done |]. split; [done |].
      intros Hst. rewrite (fetch_not_200 _ _ _ _ _ _ r Hnet Hst) in Hf. congruence.
  - rewrite (fetch_no_answer _ _ _ _ _ _ Hnet) in *.
    exists (JStr ERROR_MARKER), n, (log (Requested (GetRef ref_url)) w). done.
Qed.

Lemma fetch_references_spec (refs : list json) :
  forall (n : Z) (acc : list json) (w : world),
  exists (vals : list json) (w' : world),
    fetch_references E cfg json_data refs n acc w = (Ok (acc ++ entries refs vals), w')
    /\ length vals = length refs
    /\ trace w' = trace w ++ map (fun u => Requested (GetRef u)) refs
    /\ forall (i : nat) (u v : json),
         refs !! i = Some u -> vals !! i = Some v ->
         match net E (length (trace w) + i)%nat (GetRef u) with
         | None => v = JStr ERROR_MARKER
         | Some r => status_code r <> 200 -> v = JNum (status_code r)
         end.
Proof.
  induction refs as [|u rest IH]; intros n acc w.
  - exists [], w. simpl. unfold io_ret, entries. simpl.
    rewrite !app_nil_r. repeat split; try done.
  - destruct (guarded_fetch n u w) as (v & n' & w1 & Hstep & Htr & Hv).
    destruct (IH n' (acc ++ [JArr [u; v]]) w1) as (vals & w' & Hrest & Hlen & Htr' & Hvals).
    exists (v :: vals), w'.
    change (fetch_references E cfg json_data (u :: rest) n acc w)
      with (io_bind (archive_reference E cfg json_data n u)
              (fun r => fetch_references E cfg json_data rest (snd r)
                          (acc ++ [JArr [u; fst r]])) w).
    unfold io_bind. rewrite Hstep. simpl. rewrite Hrest.
    split; [by rewrite <- app_assoc |]. split; [simpl; lia |]. split.
    { rewrite Htr', Htr, <- app_assoc. done. }
    intros i u' v' Hu Hv'. destruct i as [|i]; simpl in Hu, Hv'.
    + injection Hu as <-. injection Hv' as <-. by rewrite Nat.add_0_r.
    + specialize (Hvals i u' v' Hu Hv'). rewrite Htr in Hvals.
      rewrite length_app in Hvals. simpl in Hvals.
      by replace (length (trace w) + S i)%nat with (length (trace w) + 1 + i)%nat by lia.
Qed.

End Loop.

(** *** The counter of side files *)


(** *** The record after archiving *)

Lemma assoc_set_get (k : string) (v : json) (kvs : list (string * json)) :
  assoc k (assoc_set k v kvs) = Some v.
Proof.
  induction kvs as [|[k' v'] kvs IH]; simpl.
  - by rewrite String.eqb_refl.
  - destruct (String.eqb k k') eqn:Hk; simpl.
    + by rewrite String.eqb_refl.
    + by rewrite Hk.
Qed.

Lemma add_references_ok (read_references refs : list json) (json_data : json) :
  reference_urls json_data = Ok refs ->
  exists j' : json,
    add_references read_references json_data = Ok j'
    /\ (c ← jget "cve" j'; jget "added_references" c) = Ok (JArr read_references).
Proof.
  unfold reference_urls, add_references.
  destruct json_data as [| | | | |kvs]; try done. simpl.
  destruct (assoc "cve" kvs) as [c|]; [|done]. simpl.
  destruct c as [| | | | |ckvs]; try done. simpl. intros _.
  eexists. split; [done |]. simpl.
  rewrite assoc_set_get. simpl. by rewrite assoc_set_get.
Qed.

Section WholeRecord.

Variable E : env.
Variable cfg : config.
Variable json_data : json.
Variable w : world.

Lemma archive_malformed (e : exn) :
  reference_urls json_data = Raise e ->
  fetch_and_add_references E cfg json_data w = (Ok json_data, w).
Proof.
  intros H. unfold fetch_and_add_references, try_except, io_bind, lift.
  by rewrite H.
Qed.

Lemma archive_ok (refs : list json) :
  reference_urls json_data = Ok refs ->
  exists (vals : list json) (j' : json) (w' : world),
    fetch_and_add_references E cfg json_data w = (Ok j', w')
    /\ add_references (entries refs vals) json_data = Ok j'
    /\ (c ← jget "cve" j'; jget "added_references" c)
       = Ok (JArr (entries refs vals))
    /\ length vals = length refs
    /\ forall (i : nat) (u v : json),
         refs !! i = Some u -> vals !! i = Some v ->
         match net E (length (trace w) + i)%nat (GetRef u) with
         | None => v = JStr ERROR_MARKER
         | Some r => status_code r <> 200 -> v = JNum (status_code r)
         end.
Proof.
  intros Hrefs.
  destruct (fetch_references_spec E cfg json_data refs 0 [] w)
    as (vals & w' & Hloop & Hlen & _ & Hvals).
  destruct (add_references_ok (entries refs vals) refs json_data Hrefs)
    as (j' & Hadd & Hget).
  exists vals, j', w'.
  unfold fetch_and_add_references, try_except, io_bind, lift.
  rewrite Hrefs, Hloop. simpl. rewrite Hadd. done.
Qed.

End WholeRecord.

End Archive.


(** ** Claims about the reference archiver *)

Section ArchiveClaims.

Import Archive.

(** C7. Archiving the references of a record never raises. When the
    reference list cannot be read, the record comes back as it was and
    nothing has happened, so that [save_wrapper] saves it without archived
    references. When it can be read, the record gains one entry per URL,
    in the order of the URLs, under [added_references]; the entry of a URL
    whose request raised holds the error marker, and the entry of a URL
    answered with a status other than 200 holds that status. *)
Theorem archiving_never_raises (E : env) (cfg : config) (json_data : json)
    (w : world) :
  (exists j' : json, fst (fetch_and_add_references E cfg json_data w) = Ok j')
  /\ (forall e : exn,
        reference_urls json_data = Raise e ->
        fetch_and_add_references E cfg json_data w = (Ok json_data, w)
        /\ (cmode cfg = Info -> save_item E cfg json_data w = save_data E cfg json_data w))
  /\ (forall refs : list json,
        reference_urls json_data = Ok refs ->
        exists (vals : list json) (j' : json) (w' : world),
          fetch_and_add_references E cfg json_data w = (Ok j', w')
          /\ (c ← jget "cve" j'; jget "added_references" c)
             = Ok (JArr (entries refs vals))
          /\ length vals = length refs
          /\ forall (i : nat) (u v : json),
               refs !! i = Some u -> vals !! i = Some v ->
               match net E (length (trace w) + i)%nat (GetRef u) with
               | None => v = JStr ERROR_MARKER
               | Some r => status_code r <> 200 -> v = JNum (status_code r)
               end).
Proof.
  split; [|split].
  - destruct (reference_urls json_data) as [refs | e] eqn:Hrefs.
    + destruct (archive_ok E cfg json_data w refs Hrefs) as (vals & j' & w' & H & _).
      exists j'. by rewrite H.
    + exists json_data. by rewrite (archive_malformed E cfg json_data w e Hrefs).
  - intros e Hrefs.
    pose proof (archive_malformed E cfg json_data w e Hrefs) as H.
    split; [exact H |]. intros Hmode.
    unfold save_item, io_bind. rewrite Hmode, H. done.
  - intros refs Hrefs.
    destruct (archive_ok E cfg json_data w refs Hrefs)
      as (vals & j' & w' & H & _ & Hget & Hlen & Hvals).
    exists vals, j', w'. done.
Qed.

(** A record with two references that both answer 404: archiving
    returns. *)
Lemma archiving_never_raises_witness :
  exists j' : json,
    fst (fetch_and_add_references
           (example_env (ref_net (ref_response 404 None "text/html" "")))
           (default_config Info)
           (record_with_refs "CVE-2021-44" ["http://a.example/1"; "http://b.example/2"])
           empty_world)
    = Ok j'.
Proof.
  exact (proj1 (archiving_never_raises
                  (example_env (ref_net (ref_response 404 None "text/html" "")))
                  (default_config Info)
                  (record_with_refs "CVE-2021-44"
                     ["http://a.example/1"; "http://b.example/2"])
                  empty_world)).
Defined.




(** C10. A textual answer with status 200 and no [Content-Length] header
    is kept inline whatever the length of its body, and no file is
    written: the threshold is only looked at when the header is there. *)
Theorem no_length_header_inline (E : env) (cfg : config) (json_data : json)
    (n : Z) (ref_url : json) (w w2 : world) (r : response) (path body : string) :
  net E (length (trace w)) (GetRef ref_url) = Some r ->
  status_code r = 200 ->
  is_textual (default "" (content_type r)) = true ->
  content_length r = None ->
  get_cve_path_and_filename E cfg json_data (log (Requested (GetRef ref_url)) w)
  = (Ok path, w2) ->
  text r = Some body ->
  fetch_reference E cfg json_data n ref_url w = (Ok (JStr body, n), w2)
  /\ fs (snd (fetch_reference E cfg json_data n ref_url w)) = fs w
  /\ trace (snd (fetch_reference E cfg json_data n ref_url w))
     = trace w ++ [Requested (GetRef ref_url)].
Proof.
  intros Hnet H200 Htext Hlen Hpath Hbody.
  assert (fetch_reference E cfg json_data n ref_url w = (Ok (JStr body, n), w2)) as H.
  { apply (fetch_inline E cfg json_data n ref_url w r path w2 Hnet H200 Hpath body);
      [done | by rewrite Hlen | done]. }
  split; [exact H |]. split; [|apply fetch_reference_trace].
  rewrite H. simpl.
  pose proof (PathFacts.resolve_files E cfg json_data
                (log (Requested (GetRef ref_url)) w)) as (Hfs & _).
  by rewrite Hpath in Hfs.
Qed.

Lemma no_length_header_inline_witness :
  fetch_reference (example_env (ref_net (ref_response 200 None "application/json" "{}")))
    (default_config Info) (record_with_id "CVE-2021-44") 3
    (JStr "http://example.org/feed.json") empty_world
  = (Ok (JStr "{}", 3),
     add_dirs ["/usr/src/data/2021/00/00"]
       (log (Requested (GetRef (JStr "http://example.org/feed.json"))) empty_world)).
Proof.
  apply (no_length_header_inline
           (example_env (ref_net (ref_response 200 None "application/json" "{}")))
           (default_config Info) (record_with_id "CVE-2021-44") 3
           (JStr "http://example.org/feed.json") empty_world _
           (ref_response 200 None "application/json" "{}")
           "/usr/src/data/2021/00/00/CVE-2021-000044" "{}"
           eq_refl eq_refl eq_refl eq_refl eq_refl eq_refl).
Defined.

End ArchiveClaims.


(** ** The incremental update *)

Module Update.

Import PyFacts Frame.

Section Cycle.

Variable E : env.
Variable cfg : config.

Lemma maintain_absent (w : world) :
  read_error E (last_update_path cfg) = None ->
  fs w !! last_update_path cfg = None ->
  maintain_data E cfg w
  = write_file E (last_update_path cfg) (clock E (length (trace w))) w.
Proof.
  intros Hr H. unfold maintain_data, io_bind, datetime_now, try_except, read_file.
  by rewrite Hr, H.
Qed.

Lemma maintain_present (w : world) (content : string) :
  read_error E (last_update_path cfg) = None ->
  fs w !! last_update_path cfg = Some content ->
  maintain_data E cfg w
  = fetch_update E cfg (Py.strip content) (clock E (length (trace w))) w.
Proof.
  intros Hr H. unfold maintain_data, io_bind, datetime_now, try_except, read_file.
  by rewrite Hr, H.
Qed.

(** An error of the read other than the absence of the file is not
    caught: the cycle raises it and has done nothing. *)
Lemma maintain_unreadable (w : world) (e : exn) :
  read_error E (last_update_path cfg) = Some e ->
  e <> FileNotFoundError ->
  maintain_data E cfg w = (Raise e, w).
Proof.
  intros Hr He. unfold maintain_data, io_bind, datetime_now, try_except, read_file.
  rewrite Hr. by destruct e.
Qed.

Section Fetch.

Variable timestamp now : string.
Variable w : world.

(** The world once the request for the update has been sent. *)
Let w1 : world := log (Requested (GetDelta timestamp now)) w.

Lemma update_no_answer :
  net E (length (trace w)) (GetDelta timestamp now) = None ->
  fetch_update E cfg timestamp now w = (Ok tt, w1).
Proof.
  intros H. unfold fetch_update, try_except, io_bind, requests_get. by rewrite H.
Qed.

Section Answer.

Variable r : response.
Hypothesis Hnet : net E (length (trace w)) (GetDelta timestamp now) = Some r.

Lemma update_not_200 :
  status_code r <> 200 -> fetch_update E cfg timestamp now w = (Ok tt, w1).
Proof.
  intros H. unfold fetch_update, try_except, io_bind, requests_get.
  rewrite Hnet. simpl. destruct (status_code r =? 200) eqn:H200; [|done].
  by apply Z.eqb_eq in H200.
Qed.

Hypothesis H200 : status_code r = 200.

Lemma update_undecodable :
  json_body r = None -> fetch_update E cfg timestamp now w = (Ok tt, w1).
Proof.
  intros H. unfold fetch_update, try_except, io_bind, requests_get, lift.
  rewrite Hnet. simpl. rewrite H200, H. done.
Qed.

Variable response_json : page.
Hypothesis Hjson : json_body r = Some response_json.

Lemma update_no_results (e : exn) :
  results cfg response_json = Raise e ->
  fetch_update E cfg timestamp now w = (Ok tt, w1).
Proof.
  intros H. unfold fetch_update, try_except, io_bind, requests_get, lift.
  rewrite Hnet. simpl. rewrite H200, Hjson. simpl. rewrite H. done.
Qed.

Lemma update_empty :
  results cfg response_json = Ok [] ->
  fetch_update E cfg timestamp now w
  = (Ok tt, if writable E (last_update_path cfg)
            then set_file (last_update_path cfg) now w1 else w1).
Proof.
  intros H. unfold fetch_update, try_except, io_bind, requests_get, lift.
  rewrite Hnet. simpl. rewrite H200, Hjson. simpl. rewrite H. simpl.
  unfold write_file. by destruct (writable E (last_update_path cfg)).
Qed.

Variable first : json.
Variable others : list json.
Hypothesis Hitems : results cfg response_json = Ok (first :: others).

Lemma update_no_timestamp (e : exn) :
  last_item_timestamp cfg (first :: others) = Raise e ->
  fetch_update E cfg timestamp now w = (Ok tt, w1).
Proof.
  intros H. unfold fetch_update, try_except, io_bind, requests_get, lift.
  rewrite Hnet. simpl. rewrite H200, Hjson. simpl. rewrite Hitems. simpl.
  unfold io_bind, lift. rewrite H. done.
Qed.

Variable last_timestamp : json.
Hypothesis Hlast : last_item_timestamp cfg (first :: others) = Ok last_timestamp.

Lemma update_items :
  fetch_update E cfg timestamp now w
  = match save_wrapper E cfg response_json w1 with
    | (Ok _, w2) =>
        match write_value E (last_update_path cfg) last_timestamp w2 with
        | (_, w3) => (Ok tt, w3)
        end
    | (Raise _, w2) => (Ok tt, w2)
    end.
Proof.
  unfold fetch_update, try_except, io_bind, requests_get, lift.
  rewrite Hnet. simpl. rewrite H200, Hjson. simpl. rewrite Hitems. simpl.
  unfold io_bind, lift. rewrite Hlast. fold w1.
  destruct (save_wrapper E cfg response_json w1) as [[[] | e] w2]; [|done].
  unfold io_ret.
  by destruct (write_value E (last_update_path cfg) last_timestamp w2) as [[[] | e] w3].
Qed.

End Answer.

End Fetch.

Lemma write_value_trace (p : string) (v : json) (w : world) :
  trace (snd (write_value E p v w)) = trace w.
Proof.
  unfold write_value.
  destruct v; unfold io_bind, write_file, io_raise; by destruct (writable E p).
Qed.

(** The update never raises, and what it adds to the trace is its own
    request followed by requests for references. *)
Lemma fetch_update_total (timestamp now : string) (w : world) :
  exists (w' : world) (l : list event),
    fetch_update E cfg timestamp now w = (Ok tt, w')
    /\ trace w' = trace w ++ Requested (GetDelta timestamp now) :: l
    /\ forallb is_ref_request l = true.
Proof.
  set (w1 := log (Requested (GetDelta timestamp now)) w).
  assert (trace w1 = trace w ++ [Requested (GetDelta timestamp now)]) as Hw1 by done.
  destruct (net E (length (trace w)) (GetDelta timestamp now)) as [r|] eqn:Hnet.
  2:{ exists w1, []. by rewrite (update_no_answer timestamp now w Hnet). }
  destruct (decide (status_code r = 200)) as [H200 | H200].
  2:{ exists w1, []. by rewrite (update_not_200 timestamp now w r Hnet H200). }
  destruct (json_body r) as [pg|] eqn:Hjson.
  2:{ exists w1, []. by rewrite (update_undecodable timestamp now w r Hnet H200 Hjson). }
  destruct (results cfg pg) as [[|x l] | e] eqn:Hres.
  3:{ exists w1, [].
      by rewrite (update_no_results timestamp now w r Hnet H200 pg Hjson e Hres). }
  { rewrite (update_empty timestamp now w r Hnet H200 pg Hjson Hres).
    eexists _, []. split; [done |]. by destruct (writable E _). }
  destruct (last_item_timestamp cfg (x :: l)) as [t | e] eqn:Hlast.
  2:{ exists w1, [].
      by rewrite (update_no_timestamp timestamp now w r Hnet H200 pg Hjson x l Hres e Hlast). }
  rewrite (update_items timestamp now w r Hnet H200 pg Hjson x l Hres t Hlast).
  fold w1. pose proof (quietly_save_wrapper E cfg pg w1) as [_ (refs & Htr & Hrefs)].
  destruct (save_wrapper E cfg pg w1) as [[[] | e] w2]; simpl in Htr.
  - destruct (write_value E (last_update_path cfg) t w2) as [res w3] eqn:Hwrite.
    exists w3, refs. split; [done |]. split; [|done].
    pose proof (write_value_trace (last_update_path cfg) t w2) as Ht.
    rewrite Hwrite in Ht. simpl in Ht.
    rewrite Ht, Htr. unfold w1. simpl. by rewrite <- app_assoc.
  - exists w2, refs. split; [done |]. split; [|done].
    rewrite Htr. unfold w1. simpl. by rewrite <- app_assoc.
Qed.


End Cycle.

End Update.

(** ** Claims about the incremental update *)

Section UpdateClaims.

Import Frame Update.



(** What [watermark_rules] leaves out: a timestamp that is not a string.
    The file is opened, hence emptied, before [write] refuses the value,
    and the exception is caught by the caller. *)
Remark non_string_timestamp_empties (E : env) (p : string) (z : Z) (w : world) :
  writable E p = true ->
  write_value E p (JNum z) w = (Raise TypeError, set_file p "" w).
Proof.
  intros Hw. unfold write_value, io_bind, write_file, io_raise. by rewrite Hw.
Qed.

(** C9, as amended. Inside one process the watermark file carries the
    state from one cycle to the next: a cycle that finds the file asks
    for the update from the stored time, and a cycle that does not find
    it stores the current time and asks for nothing. Across a restart the
    stored watermark is not used: once the storage directory is there and
    the bulk crawl has returned, [run] stores the current time in the file
    whatever it held, and the first cycle asks for the update from that
    time. The watermark file is taken to be readable and writable, and
    the update interval to be one that [time.sleep] takes. *)
Theorem watermark_across_restart (E : env) (cfg : config) (fuel : nat)
    (w wd w0 : world) :
  os_makedirs E (storage_path cfg) w = (Ok tt, wd) ->
  init_data_population E cfg fuel wd = Some (Ok tt, w0) ->
  writable E (last_update_path cfg) = true ->
  read_error E (last_update_path cfg) = None ->
  sleep_error (update_interval cfg) = None ->
  let wm := last_update_path cfg in
  let stamp := clock E (length (trace w0)) in
  let w1 := set_file wm stamp w0 in
  startup E cfg fuel w = Some (Ok tt, w1)
  /\ fs w1 !! wm = Some stamp
  /\ (exists l : list event,
        trace (snd (cycle E cfg w1))
        = trace w0
          ++ Slept (update_interval cfg)
             :: Requested (GetDelta (Py.strip stamp)
                             (clock E (S (length (trace w0))))) :: l)
  /\ (forall (v : world) (content : string),
        fs v !! wm = Some content ->
        exists l : list event,
          trace (snd (maintain_data E cfg v))
          = trace v
            ++ Requested (GetDelta (Py.strip content) (clock E (length (trace v))))
               :: l)
  /\ (forall v : world,
        fs v !! wm = None ->
        fs (snd (maintain_data E cfg v)) !! wm = Some (clock E (length (trace v)))
        /\ trace (snd (maintain_data E cfg v)) = trace v).
Proof.
  intros Hmk Hinit Hw Hread Hsleep. cbv zeta.
  assert (forall (v : world) (content : string),
            fs v !! last_update_path cfg = Some content ->
            exists l : list event,
              trace (snd (maintain_data E cfg v))
              = trace v
                ++ Requested (GetDelta (Py.strip content)
                                (clock E (length (trace v)))) :: l) as Hpresent.
  { intros v content Hv. rewrite (maintain_present E cfg v content Hread Hv).
    destruct (fetch_update_total E cfg (Py.strip content)
                (clock E (length (trace v))) v) as (v' & l & -> & Htr & _).
    by exists l. }
  split; [|split; [|split; [|split]]].
  - unfold startup. rewrite Hmk, Hinit. unfold io_bind, datetime_now, write_file.
    by rewrite Hw.
  - simpl. apply lookup_insert_eq.
  - unfold cycle, io_bind, sleep. rewrite Hsleep.
    set (w2 := log (Slept (update_interval cfg))
                 (set_file (last_update_path cfg) (clock E (length (trace w0))) w0)).
    destruct (Hpresent w2 (clock E (length (trace w0)))) as (l & Hl).
    { simpl. apply lookup_insert_eq. }
    exists l. rewrite Hl. unfold w2. simpl.
    rewrite length_app, <- app_assoc. simpl.
    by replace (length (trace w0) + 1)%nat with (S (length (trace w0))) by lia.
  - exact Hpresent.
  - intros v Hv. rewrite (maintain_absent E cfg v Hread Hv). unfold write_file.
    rewrite Hw. simpl. split; [apply lookup_insert_eq | done].
Qed.

(** A restart on the disk of an earlier run, against a feed that has
    nothing new. *)
Lemma watermark_across_restart_witness :
  startup (example_env (steady_feed 4500)) (default_config Info) 1 restart_world
  = Some (Ok tt,
          set_file (last_update_path (default_config Info)) "2024-05-01T12:00:01"
            (set_file (index_path (default_config Info)) "6000"
               (log (Requested (GetBulk 6000))
                  (add_dirs ["/usr/src/data"] restart_world)))).
Proof.
  refine (proj1 (watermark_across_restart
                   (example_env (steady_feed 4500)) (default_config Info) 1
                   restart_world
                   (add_dirs ["/usr/src/data"] restart_world)
                   (set_file (index_path (default_config Info)) "6000"
                      (log (Requested (GetBulk 6000))
                         (add_dirs ["/usr/src/data"] restart_world)))
                   eq_refl _ eq_refl eq_refl eq_refl)).
  vm_compute. reflexivity.
Defined.

(** C9, as stated, fails: the disk holds the watermark of an earlier run,
    and after the restart the first cycle asks for the update from the
    time of the restart, not from that watermark. *)
Lemma restart_forgets_watermark :
  fs restart_world !! last_update_path (default_config Info)
  = Some "2024-01-01T00:00:00.000000"
  /\ trace_of (run (example_env (steady_feed 4500)) (default_config Info) 1 1
                 restart_world)
     = Some [Requested (GetBulk 6000);
             Slept 7200;
             Requested (GetDelta "2024-05-01T12:00:01" "2024-05-01T12:00:02")].
Proof. split; vm_compute; reflexivity. Qed.

End UpdateClaims.


(** ** The bulk crawl *)

Module Bulk.

Import PyFacts Frame.

Section Loop.

Variable E : env.
Variable cfg : config.

(** The counter only shows in the result of an attempt: which way the
    attempt goes, and the world it leaves, do not depend on it. *)
Lemma attempt_page_uniform (index actual_retries : Z) (w : world) :
  attempt_page E cfg index actual_retries w
  = (match fst (attempt_page E cfg index 0 w) with
     | Ok UpToDate => Ok UpToDate
     | Ok (Attempted _ _ true) => Ok (Attempted index (actual_retries + 1) true)
     | Ok (Attempted _ _ false) =>
         Ok (Attempted (index + entries_for_request cfg) 0 false)
     | Raise e => Raise e
     end,
     snd (attempt_page E cfg index 0 w)).
Proof.
  unfold attempt_page, try_except, io_bind at 1 4 7, requests_get.
  destruct (net E (length (trace w)) (GetBulk index)) as [r|]; simpl; [|done].
  destruct (status_code r =? 200); [|done].
  unfold io_bind at 1 3 5, lift.
  destruct (json_body r) as [pg|]; simpl; [|done].
  destruct (totalResults pg <=? startIndex pg); [done |].
  unfold io_bind.
  by destruct (save_wrapper E cfg pg _) as [[[] | e] w2].
Qed.

Lemma attempt_page_quiet (index actual_retries : Z) (w : world) :
  quiet (log (Requested (GetBulk index)) w)
    (snd (attempt_page E cfg index actual_retries w)).
Proof.
  unfold attempt_page, try_except, io_bind at 1, requests_get.
  destruct (net E (length (trace w)) (GetBulk index)) as [r|]; simpl;
    [|apply quiet_refl].
  destruct (status_code r =? 200); [|apply quiet_refl].
  unfold io_bind at 1, lift.
  destruct (json_body r) as [pg|]; simpl; [|apply quiet_refl].
  destruct (totalResults pg <=? startIndex pg); [apply quiet_refl |].
  unfold io_bind.
  pose proof (quietly_save_wrapper E cfg pg (log (Requested (GetBulk index)) w)) as H.
  by destruct (save_wrapper E cfg pg _) as [[[] | e] w2].
Qed.

(** *** The control files are three different files *)

Lemma join1_tail (root name : string) :
  Py.startswith "/" name = false ->
  exists stem : string, Py.join1 root name = Py.cat stem name.
Proof.
  intros H. unfold Py.join1. rewrite H. destruct (_ || _).
  - by exists root.
  - exists (Py.cat root "/"). by rewrite cat_assoc.
Qed.

Lemma missing_not_index : missing_path cfg <> index_path cfg.
Proof.
  intros Heq.
  assert (Py.endswith "x.txt" (index_path cfg) = true) as Hi.
  { apply (endswith_trans "x.txt" INDEX_FILENAME); [done |].
    by apply endswith_join1. }
  rewrite <- Heq in Hi. unfold missing_path, Py.os_path_join in Hi. simpl in Hi.
  destruct (join1_tail (storage_path cfg) MISSING_INDEXES) as (stem & Hs); [done |].
  rewrite Hs, endswith_cat in Hi by (simpl; lia). done.
Qed.

(** *** One iteration *)

Section Iteration.

Variable index actual_retries : Z.
Variable w : world.
Hypothesis Hindex : writable E (index_path cfg) = true.

(** The world after the attempt of the iteration. *)
Let w2 : world := snd (attempt_page E cfg index 0 (checkpoint cfg index w)).

Lemma iteration_unfold :
  iteration E cfg index actual_retries w
  = match fst (attempt_page E cfg index 0 (checkpoint cfg index w)) with
    | Ok UpToDate => (Ok None, w2)
    | Ok (Attempted _ _ true) =>
        match after_attempt E cfg index (actual_retries + 1) true w2 with
        | (Ok next, w3) => (Ok (Some next), w3)
        | (Raise e, w3) => (Raise e, w3)
        end
    | Ok (Attempted _ _ false) =>
        match after_attempt E cfg (index + entries_for_request cfg) 0 false w2 with
        | (Ok next, w3) => (Ok (Some next), w3)
        | (Raise e, w3) => (Raise e, w3)
        end
    | Raise e => (Raise e, w2)
    end.
Proof.
  unfold iteration, io_bind at 1, write_file. rewrite Hindex.
  unfold io_bind at 1. fold (checkpoint cfg index w).
  rewrite attempt_page_uniform. fold w2.
  destruct (fst (attempt_page E cfg index 0 (checkpoint cfg index w)))
    as [[|i r [|]] | e]; try done;
    unfold io_bind; by destruct (after_attempt _ _ _ _ _ _) as [[next | e'] w3].
Qed.

Lemma after_attempt_below (i r : Z) (failed : bool) (v : world) :
  r <> retries_for_request cfg ->
  sleep_error (if failed then retry_interval cfg
               else interval_between_requests cfg) = None ->
  after_attempt E cfg i r failed v
  = (Ok (i, r),
     log (Slept (if failed then retry_interval cfg
                 else interval_between_requests cfg)) v).
Proof.
  intros H Hsleep. unfold after_attempt, io_bind, sleep. rewrite Hsleep.
  destruct (r =? retries_for_request cfg) eqn:Heq; [|done].
  by apply Z.eqb_eq in Heq.
Qed.

Lemma after_attempt_limit (i : Z) (failed : bool) (v : world) :
  writable E (missing_path cfg) = true ->
  sleep_error (if failed then retry_interval cfg
               else interval_between_requests cfg) = None ->
  after_attempt E cfg i (retries_for_request cfg) failed v
  = (Ok (i + entries_for_request cfg, 0),
     log (Slept (if failed then retry_interval cfg
                 else interval_between_requests cfg))
       (set_file (missing_path cfg)
          (Py.cat (default "" (fs v !! missing_path cfg))
             (Py.cat (Py.str i) Py.nl)) v)).
Proof.
  intros H Hsleep. unfold after_attempt, io_bind, sleep, append_file.
  by rewrite Hsleep, Z.eqb_refl, H.
Qed.

Lemma iteration_retry :
  attempt_fails E cfg index (checkpoint cfg index w) = true ->
  actual_retries + 1 <> retries_for_request cfg ->
  sleep_error (retry_interval cfg) = None ->
  iteration E cfg index actual_retries w
  = (Ok (Some (index, actual_retries + 1)), log (Slept (retry_interval cfg)) w2).
Proof.
  intros Hfail Hlimit Hsleep. rewrite iteration_unfold.
  unfold attempt_fails in Hfail.
  destruct (fst (attempt_page E cfg index 0 (checkpoint cfg index w)))
    as [[|i r [|]] | e]; try done.
  by rewrite after_attempt_below.
Qed.

Lemma iteration_give_up :
  attempt_fails E cfg index (checkpoint cfg index w) = true ->
  actual_retries + 1 = retries_for_request cfg ->
  writable E (missing_path cfg) = true ->
  sleep_error (retry_interval cfg) = None ->
  iteration E cfg index actual_retries w
  = (Ok (Some (index + entries_for_request cfg, 0)),
     log (Slept (retry_interval cfg))
       (set_file (missing_path cfg)
          (Py.cat (default "" (fs w2 !! missing_path cfg))
             (Py.cat (Py.str index) Py.nl)) w2)).
Proof.
  intros Hfail Hlimit Hw Hsleep. rewrite iteration_unfold.
  unfold attempt_fails in Hfail.
  destruct (fst (attempt_page E cfg index 0 (checkpoint cfg index w)))
    as [[|i r [|]] | e]; try done.
  by rewrite Hlimit, after_attempt_limit.
Qed.

Lemma iteration_success :
  attempt_succeeds E cfg index (checkpoint cfg index w) = true ->
  retries_for_request cfg <> 0 ->
  sleep_error (interval_between_requests cfg) = None ->
  iteration E cfg index actual_retries w
  = (Ok (Some (index + entries_for_request cfg, 0)),
     log (Slept (interval_between_requests cfg)) w2).
Proof.
  intros Hok Hlimit Hsleep. rewrite iteration_unfold.
  unfold attempt_succeeds in Hok.
  destruct (fst (attempt_page E cfg index 0 (checkpoint cfg index w)))
    as [[|i r [|]] | e]; try done.
  by rewrite after_attempt_below.
Qed.

(** The attempt leaves the control files as the checkpoint left them. *)
Lemma attempt_keeps_control (p : string) :
  control_like p = true -> fs w2 !! p = fs (checkpoint cfg index w) !! p.
Proof.
  intros Hp.
  destruct (attempt_page_quiet index 0 (checkpoint cfg index w)) as [Hfs _].
  unfold w2. by rewrite (Hfs p Hp).
Qed.

Lemma attempt_keeps_missing : fs w2 !! missing_path cfg = fs w !! missing_path cfg.
Proof.
  rewrite (attempt_keeps_control _ (control_like_missing cfg)).
  unfold checkpoint. simpl. apply lookup_insert_ne. apply not_eq_sym, missing_not_index.
Qed.

Lemma attempt_keeps_index : fs w2 !! index_path cfg = Some (Py.str index).
Proof.
  rewrite (attempt_keeps_control _ (control_like_index cfg)).
  unfold checkpoint. simpl. apply lookup_insert_eq.
Qed.

End Iteration.

(** *** Several iterations *)

Lemma iterations_snoc (n : nat) (index actual_retries : Z) (w : world) :
  iterations E cfg (S n) index actual_retries w
  = match iterations E cfg n index actual_retries w with
    | Some (i, r, v) =>
        match iteration E cfg i r v with
        | (Ok (Some (i', r')), v') => Some (i', r', v')
        | _ => None
        end
    | None => None
    end.
Proof.
  revert index actual_retries w.
  induction n as [|n IH]; intros index actual_retries w.
  - simpl. by destruct (iteration E cfg index actual_retries w) as [[[[i r]|]|e] v].
  - change (iterations E cfg (S (S n)) index actual_retries w)
      with (match iteration E cfg index actual_retries w with
            | (Ok (Some (i, r)), v) => iterations E cfg (S n) i r v
            | _ => None
            end).
    change (iterations E cfg (S n) index actual_retries w)
      with (match iteration E cfg index actual_retries w with
            | (Ok (Some (i, r)), v) => iterations E cfg n i r v
            | _ => None
            end).
    destruct (iteration E cfg index actual_retries w) as [[[[i r]|]|e] v];
      first [apply IH | done].
Qed.

Lemma after_attempt_keeps_index (i r : Z) (failed : bool) (v : world) :
  fs (snd (after_attempt E cfg i r failed v)) !! index_path cfg
  = fs v !! index_path cfg.
Proof.
  unfold after_attempt, io_bind, sleep, append_file.
  destruct (sleep_error _).
  all: destruct (r =? retries_for_request cfg); [|done].
  all: destruct (writable E (missing_path cfg)); [|done].
  all: simpl; apply lookup_insert_ne, missing_not_index.
Qed.

(** Whatever an iteration does, the cursor file holds the cursor it
    started from. *)
Lemma iteration_checkpoint (index actual_retries : Z) (w : world) :
  writable E (index_path cfg) = true ->
  fs (snd (iteration E cfg index actual_retries w)) !! index_path cfg
  = Some (Py.str index).
Proof.
  intros Hindex. rewrite (iteration_unfold index actual_retries w Hindex).
  pose proof (attempt_keeps_index index w) as Hkeep.
  destruct (fst (attempt_page E cfg index 0 (checkpoint cfg index w)))
    as [[|i r [|]] | e]; try done.
  - pose proof (after_attempt_keeps_index index (actual_retries + 1) true
                  (snd (attempt_page E cfg index 0 (checkpoint cfg index w)))) as Hk.
    destruct (after_attempt _ _ _ _ _ _) as [[next | e] w3]; simpl in *;
      by rewrite Hk.
  - pose proof (after_attempt_keeps_index (index + entries_for_request cfg) 0 false
                  (snd (attempt_page E cfg index 0 (checkpoint cfg index w)))) as Hk.
    destruct (after_attempt _ _ _ _ _ _) as [[next | e] w3]; simpl in *;
      by rewrite Hk.
Qed.

(** *** Which way an attempt goes *)

Section Attempt.

Variable index : Z.
Variable v : world.
Variable resp : response.
Variable pg : page.
Hypothesis Hnet : net E (length (trace v)) (GetBulk index) = Some resp.
Hypothesis H200 : status_code resp = 200.
Hypothesis Hjson : json_body resp = Some pg.

Lemma attempt_up_to_date :
  totalResults pg <= startIndex pg ->
  attempt_page E cfg index 0 v = (Ok UpToDate, log (Requested (GetBulk index)) v).
Proof.
  intros H. unfold attempt_page, try_except, io_bind, requests_get, lift.
  rewrite Hnet. simpl. rewrite H200, Hjson. simpl.
  destruct (totalResults pg <=? startIndex pg) eqn:Hle; [done |].
  apply Z.leb_gt in Hle. lia.
Qed.

Lemma attempt_with_page :
  startIndex pg < totalResults pg ->
  attempt_page E cfg index 0 v
  = match save_wrapper E cfg pg (log (Requested (GetBulk index)) v) with
    | (Ok _, v') => (Ok (Attempted (index + entries_for_request cfg) 0 false), v')
    | (Raise _, v') => (Ok (Attempted index (0 + 1) true), v')
    end.
Proof.
  intros H. unfold attempt_page, try_except, io_bind, requests_get, lift.
  rewrite Hnet. simpl. rewrite H200, Hjson. simpl.
  destruct (totalResults pg <=? startIndex pg) eqn:Hle.
  { apply Z.leb_le in Hle. lia. }
  by destruct (save_wrapper E cfg pg _) as [[[] | e] v'].
Qed.

Lemma attempt_succeeds_saved :
  startIndex pg < totalResults pg ->
  fst (save_wrapper E cfg pg (log (Requested (GetBulk index)) v)) = Ok tt ->
  attempt_succeeds E cfg index v = true.
Proof.
  intros H Hsave. unfold attempt_succeeds. rewrite (attempt_with_page H).
  by destruct (save_wrapper E cfg pg _) as [[[] | e] v'].
Qed.

Lemma attempt_fails_unsaved (e : exn) :
  startIndex pg < totalResults pg ->
  fst (save_wrapper E cfg pg (log (Requested (GetBulk index)) v)) = Raise e ->
  attempt_fails E cfg index v = true.
Proof.
  intros H Hsave. unfold attempt_fails. rewrite (attempt_with_page H).
  by destruct (save_wrapper E cfg pg _) as [[[] | e'] v'].
Qed.

End Attempt.

Lemma bulk_requests_after_attempt (i r : Z) (failed : bool) (v : world) :
  bulk_requests (trace (snd (after_attempt E cfg i r failed v)))
  = bulk_requests (trace v).
Proof.
  unfold after_attempt, io_bind, sleep, append_file.
  destruct (sleep_error _).
  all: destruct (r =? retries_for_request cfg).
  all: try (destruct (writable E (missing_path cfg))); simpl; try done.
  all: by rewrite bulk_requests_app, app_nil_r.
Qed.

(** An iteration sends one page request, for its cursor. *)
Lemma iteration_requests (index actual_retries : Z) (w : world) :
  writable E (index_path cfg) = true ->
  bulk_requests (trace (snd (iteration E cfg index actual_retries w)))
  = bulk_requests (trace w) ++ [index].
Proof.
  intros Hindex. rewrite (iteration_unfold index actual_retries w Hindex).
  pose proof (quiet_bulk_requests _ _
                (attempt_page_quiet index 0 (checkpoint cfg index w))) as Hq.
  simpl in Hq. rewrite bulk_requests_app in Hq. simpl in Hq.
  destruct (fst (attempt_page E cfg index 0 (checkpoint cfg index w)))
    as [[|i r [|]] | e]; try done.
  - pose proof (bulk_requests_after_attempt index (actual_retries + 1) true
                  (snd (attempt_page E cfg index 0 (checkpoint cfg index w)))) as Hb.
    destruct (after_attempt _ _ _ _ _ _) as [[next | e] w3]; simpl in *; congruence.
  - pose proof (bulk_requests_after_attempt (index + entries_for_request cfg) 0 false
                  (snd (attempt_page E cfg index 0 (checkpoint cfg index w)))) as Hb.
    destruct (after_attempt _ _ _ _ _ _) as [[next | e] w3]; simpl in *; congruence.
Qed.

(** The first event of an iteration is the request for its cursor. *)
Lemma iteration_first_request (index actual_retries : Z) (w : world) :
  writable E (index_path cfg) = true ->
  exists l : list event,
    trace (snd (iteration E cfg index actual_retries w))
    = trace w ++ Requested (GetBulk index) :: l.
Proof.
  intros Hindex. rewrite (iteration_unfold index actual_retries w Hindex).
  destruct (attempt_page_quiet index 0 (checkpoint cfg index w))
    as [_ (l & Htr & _)].
  simpl in Htr. rewrite <- app_assoc in Htr. simpl in Htr.
  assert (forall i r failed,
            exists l', trace (snd (after_attempt E cfg i r failed
                         (snd (attempt_page E cfg index 0 (checkpoint cfg index w)))))
                       = trace w ++ Requested (GetBulk index) :: l') as Hafter.
  { intros i r failed. unfold after_attempt, io_bind, sleep, append_file.
    destruct (sleep_error _).
    all: destruct (r =? retries_for_request cfg).
    all: try (destruct (writable E (missing_path cfg))); simpl; eauto.
    all: rewrite Htr, <- app_assoc; simpl; eauto. }
  destruct (fst (attempt_page E cfg index 0 (checkpoint cfg index w)))
    as [[|i r [|]] | e]; eauto.
  - destruct (Hafter index (actual_retries + 1) true) as (l' & Hl').
    destruct (after_attempt _ _ _ _ _ _) as [[next | e] w3]; simpl in *; eauto.
  - destruct (Hafter (index + entries_for_request cfg) 0 false) as (l' & Hl').
    destruct (after_attempt _ _ _ _ _ _) as [[next | e] w3]; simpl in *; eauto.
Qed.

Lemma iteration_done (index actual_retries : Z) (w : world) :
  writable E (index_path cfg) = true ->
  fst (attempt_page E cfg index 0 (checkpoint cfg index w)) = Ok UpToDate ->
  iteration E cfg index actual_retries w
  = (Ok None, snd (attempt_page E cfg index 0 (checkpoint cfg index w))).
Proof.
  intros Hindex H. rewrite (iteration_unfold index actual_retries w Hindex).
  by rewrite H.
Qed.

Lemma crawl_continue (fuel : nat) (index r index' r' : Z) (w w' : world) :
  iteration E cfg index r w = (Ok (Some (index', r')), w') ->
  crawl E cfg (S fuel) index r w = crawl E cfg fuel index' r' w'.
Proof. intros H. simpl. by rewrite H. Qed.

Lemma crawl_done (fuel : nat) (index r : Z) (w w' : world) :
  iteration E cfg index r w = (Ok None, w') ->
  crawl E cfg (S fuel) index r w = Some (Ok tt, w').
Proof. intros H. simpl. by rewrite H. Qed.

(** The cursor never goes back. *)
Lemma iteration_cursor (index r index' r' : Z) (w w' : world) :
  iteration E cfg index r w = (Ok (Some (index', r')), w') -> index <= index'.
Proof.
  destruct (writable E (index_path cfg)) eqn:Hindex.
  2:{ unfold iteration, io_bind at 1, write_file. by rewrite Hindex. }
  rewrite (iteration_unfold index r w Hindex).
  assert (forall i c failed v next v',
            after_attempt E cfg i c failed v = (Ok next, v') -> i <= fst next) as Hafter.
  { intros i c failed v next v'. unfold after_attempt, io_bind, sleep, append_file.
    destruct (sleep_error _).
    all: destruct (c =? retries_for_request cfg).
    all: try (destruct (writable E (missing_path cfg))); try done.
    all: intros [= <- _]; simpl.
    all: unfold entries_for_request; destruct (cmode cfg); lia. }
  assert (0 <= entries_for_request cfg) as Hsize
    by (unfold entries_for_request; destruct (cmode cfg); lia).
  destruct (fst (attempt_page E cfg index 0 (checkpoint cfg index w)))
    as [[|i c [|]] | e]; try done.
  - destruct (after_attempt _ _ _ _ _ _) as [[next | e] w3] eqn:Ha; [|done].
    intros [= -> _]. apply Hafter in Ha. simpl in Ha. lia.
  - destruct (after_attempt _ _ _ _ _ _) as [[next | e] w3] eqn:Ha; [|done].
    intros [= -> _]. apply Hafter in Ha. simpl in Ha. lia.
Qed.

Lemma iterations_cursor (n : nat) (index r index' r' : Z) (w w' : world) :
  iterations E cfg n index r w = Some (index', r', w') -> index <= index'.
Proof.
  revert index r w. induction n as [|n IH]; intros index r w; simpl.
  - intros [= <- _ _]. lia.
  - destruct (iteration E cfg index r w) as [[[[i c]|]|e] v] eqn:Hi; try done.
    intros H. apply IH in H. apply iteration_cursor in Hi. lia.
Qed.

(** Failures below the limit pile up on the same page and leave the list
    of missing cursors alone. *)
Lemma failures_accumulate (index : Z) (w : world) (k : nat) :
  writable E (index_path cfg) = true ->
  sleep_error (retry_interval cfg) = None ->
  Z.of_nat k < retries_for_request cfg ->
  (forall j : nat, (j < k)%nat -> fails_at E cfg index w j) ->
  exists v : world,
    iterations E cfg k index 0 w = Some (index, Z.of_nat k, v)
    /\ fs v !! missing_path cfg = fs w !! missing_path cfg.
Proof.
  intros Hindex Hsleep. induction k as [|k IH]; intros Hk Hfails.
  - by exists w.
  - destruct IH as (v & Hv & Hmissing); [lia | intros j Hj; apply Hfails; lia |].
    pose proof (Hfails k ltac:(lia)) as Hfail. unfold fails_at in Hfail.
    rewrite Hv in Hfail.
    rewrite iterations_snoc, Hv.
    rewrite (iteration_retry index (Z.of_nat k) v Hindex Hfail) by (done || lia).
    eexists. split; [f_equal; f_equal; f_equal; lia |].
    simpl. by rewrite (attempt_keeps_missing index v).
Qed.

End Loop.

End Bulk.

(** ** Claims about the bulk crawl *)

Section BulkClaims.

Import Frame Bulk.

(** C3. With a retry limit above zero and intervals that [time.sleep]
    takes: the crawl starts with the counter at 0; an iteration whose attempt saves its page moves the cursor by
    one page, sets the counter to 0 and leaves the list of missing
    cursors alone; an iteration whose attempt fails below the limit keeps
    the cursor, adds one to the counter and leaves the list alone; an
    iteration whose failure brings the counter to the limit appends the
    cursor and a line feed to the list, sets the counter to 0 and moves
    the cursor by one page, and the iteration after it writes that new
    cursor to the cursor file. Hence as many failures in a row as the
    limit append the cursor exactly once, and with a limit above eight,
    eight failures followed by a success append nothing. *)
Theorem retry_counter (E : env) (cfg : config) :
  0 < retries_for_request cfg ->
  writable E (index_path cfg) = true ->
  writable E (missing_path cfg) = true ->
  sleep_error (retry_interval cfg) = None ->
  sleep_error (interval_between_requests cfg) = None ->
  let limit := retries_for_request cfg in
  let page_size := entries_for_request cfg in
  let missing := missing_path cfg in
  (forall (fuel : nat) (w : world),
     exists index : Z,
       init_data_population E cfg fuel w = crawl E cfg fuel index 0 w)
  /\ (forall (index r : Z) (w : world),
        attempt_succeeds E cfg index (checkpoint cfg index w) = true ->
        exists w' : world,
          iteration E cfg index r w = (Ok (Some (index + page_size, 0)), w')
          /\ fs w' !! missing = fs w !! missing)
  /\ (forall (index r : Z) (w : world),
        attempt_fails E cfg index (checkpoint cfg index w) = true ->
        r + 1 <> limit ->
        exists w' : world,
          iteration E cfg index r w = (Ok (Some (index, r + 1)), w')
          /\ fs w' !! missing = fs w !! missing)
  /\ (forall (index r : Z) (w : world),
        attempt_fails E cfg index (checkpoint cfg index w) = true ->
        r + 1 = limit ->
        exists w' : world,
          iteration E cfg index r w = (Ok (Some (index + page_size, 0)), w')
          /\ fs w' !! missing
             = Some (Py.cat (default "" (fs w !! missing))
                       (Py.cat (Py.str index) Py.nl))
          /\ fs (snd (iteration E cfg (index + page_size) 0 w')) !! index_path cfg
             = Some (Py.str (index + page_size)))
  /\ (forall (index : Z) (w : world),
        (forall j : nat, Z.of_nat j < limit -> fails_at E cfg index w j) ->
        exists w' : world,
          iterations E cfg (Z.to_nat limit) index 0 w
          = Some (index + page_size, 0, w')
          /\ fs w' !! missing
             = Some (Py.cat (default "" (fs w !! missing))
                       (Py.cat (Py.str index) Py.nl)))
  /\ (8 < limit ->
      forall (index : Z) (w : world),
        (forall j : nat, (j < 8)%nat -> fails_at E cfg index w j) ->
        succeeds_at E cfg index w 8 ->
        exists w' : world,
          iterations E cfg 9 index 0 w = Some (index + page_size, 0, w')
          /\ fs w' !! missing = fs w !! missing)
  /\ (forall (n : nat) (index r index' r' : Z) (w w' : world),
        iterations E cfg n index r w = Some (index', r', w') -> index <= index').
Proof.
  intros Hlimit Hindex Hmissing Hretry Hpause. cbv zeta.
  split; [|split; [|split; [|split; [|split; [|split]]]]];
    [| | | | | |apply iterations_cursor].
  - intros fuel w. unfold init_data_population, load_index, try_except, io_bind,
      read_file, lift.
    destruct (read_error E (index_path cfg)); [eauto |].
    destruct (fs w !! index_path cfg) as [content|]; simpl.
    + destruct (Py.int (Py.strip content)) as [index|]; simpl; eauto.
    + eauto.
  - intros index r w Hok.
    rewrite (iteration_success E cfg index r w Hindex Hok) by (done || lia).
    eexists. split; [done |]. simpl. apply attempt_keeps_missing.
  - intros index r w Hfail Hr.
    rewrite (iteration_retry E cfg index r w Hindex Hfail Hr Hretry).
    eexists. split; [done |]. simpl. apply attempt_keeps_missing.
  - intros index r w Hfail Hr.
    rewrite (iteration_give_up E cfg index r w Hindex Hfail Hr Hmissing Hretry).
    eexists. split; [done |]. split.
    + simpl. rewrite lookup_insert_eq. by rewrite attempt_keeps_missing.
    + by apply iteration_checkpoint.
  - intros index w Hfails.
    destruct (Z.to_nat (retries_for_request cfg)) as [|k] eqn:Hk; [lia |].
    destruct (failures_accumulate E cfg index w k Hindex Hretry) as (v & Hv & Hmiss);
      [lia | intros j Hj; apply Hfails; lia |].
    pose proof (Hfails k ltac:(lia)) as Hfail. unfold fails_at in Hfail.
    rewrite Hv in Hfail.
    rewrite iterations_snoc, Hv.
    rewrite (iteration_give_up E cfg index (Z.of_nat k) v Hindex Hfail) by (done || lia).
    eexists. split; [done |].
    simpl. rewrite lookup_insert_eq. by rewrite attempt_keeps_missing, Hmiss.
  - intros Hlimit8 index w Hfails Hok.
    destruct (failures_accumulate E cfg index w 8 Hindex Hretry) as (v & Hv & Hmiss);
      [lia | done |].
    unfold succeeds_at in Hok. rewrite Hv in Hok.
    rewrite iterations_snoc, Hv.
    rewrite (iteration_success E cfg index _ v Hindex Hok) by (done || lia).
    eexists. split; [done |]. simpl. by rewrite attempt_keeps_missing.
Qed.

(** A page that cannot be reached is given up after nine attempts: its
    cursor is the one line of the list of missing cursors. *)
Lemma retry_counter_witness :
  exists w' : world,
    iterations (example_env dead_net) (default_config Info) 9 0 0 empty_world
    = Some (2000, 0, w')
    /\ fs w' !! missing_path (default_config Info) = Some (Py.cat "0" Py.nl).
Proof.
  destruct (retry_counter (example_env dead_net) (default_config Info)
              eq_refl eq_refl eq_refl eq_refl eq_refl) as (_ & _ & _ & _ & H & _ & _).
  apply (H 0 empty_world).
  intros j Hj.
  do 9 (destruct j as [|j]; [vm_compute; reflexivity |]).
  simpl in Hj. lia.
Defined.

(** With a limit of zero the counter equals the limit right after a
    success, and it is the next cursor that goes to the list of missing
    cursors: [retry_counter] asks for a limit above zero. *)
Remark zero_limit_skips_after_success (E : env) (cfg : config) (index r : Z)
    (w : world) :
  retries_for_request cfg = 0 ->
  writable E (index_path cfg) = true ->
  writable E (missing_path cfg) = true ->
  sleep_error (interval_between_requests cfg) = None ->
  attempt_succeeds E cfg index (checkpoint cfg index w) = true ->
  fst (iteration E cfg index r w)
  = Ok (Some (index + entries_for_request cfg + entries_for_request cfg, 0)).
Proof.
  intros Hlimit Hindex Hmissing Hpause Hok.
  rewrite (iteration_unfold E cfg index r w Hindex). unfold attempt_succeeds in Hok.
  destruct (fst (attempt_page E cfg index 0 (checkpoint cfg index w)))
    as [[|i r' [|]] | e]; try done.
  pose proof (after_attempt_limit E cfg (index + entries_for_request cfg) false
                (snd (attempt_page E cfg index 0 (checkpoint cfg index w)))
                Hmissing Hpause) as H.
  rewrite Hlimit in H. by rewrite H.
Qed.

(** C1, as amended. A record whose path cannot be derived or whose file
    cannot be opened makes [save_data] raise [RuntimeError], and nothing
    else is ever raised by it; what [get_cve_path_and_filename] has done,
    the directories it has made, stays, and no file is touched; the
    exception stops the loop over the items of the page: the items after
    it are not saved. In the bulk crawl, with a retry interval that
    [time.sleep] takes, the exception is
    caught like any other failure of the attempt: the counter goes up by
    one, the cursor stays, the crawler sleeps for the retry interval and
    the next iteration requests the same page again; when the counter
    reaches the limit the page is given up like a page that could not be
    fetched. *)
Theorem save_failure_is_retried (E : env) (cfg : config) (index r : Z)
    (w : world) (resp : response) (pg : page) (e : exn) :
  writable E (index_path cfg) = true ->
  sleep_error (retry_interval cfg) = None ->
  let w0 := checkpoint cfg index w in
  let w1 := log (Requested (GetBulk index)) w0 in
  net E (length (trace w0)) (GetBulk index) = Some resp ->
  status_code resp = 200 ->
  json_body resp = Some pg ->
  startIndex pg < totalResults pg ->
  fst (save_wrapper E cfg pg w1) = Raise e ->
  (forall (j : json) (v : world) (e' : exn),
     fst (save_data E cfg j v) = Raise e' -> e' = RuntimeError "Cannot save data")
  /\ (forall (j : json) (v : world),
        is_ok (fst (get_cve_path_and_filename E cfg j v)) = false ->
        save_data E cfg j v
        = (Raise (RuntimeError "Cannot save data"),
           snd (get_cve_path_and_filename E cfg j v)))
  /\ (forall (j : json) (v : world) (path : string),
        fst (get_cve_path_and_filename E cfg j v) = Ok path ->
        writable E (Py.cat path (match cmode cfg with
                                 | Info => ".json"
                                 | Changes => ".jsonl"
                                 end)) = false ->
        save_data E cfg j v
        = (Raise (RuntimeError "Cannot save data"),
           snd (get_cve_path_and_filename E cfg j v)))
  /\ (forall (j : json) (v : world),
        is_ok (fst (save_data E cfg j v)) = false ->
        fs (snd (save_data E cfg j v)) = fs v)
  /\ (forall (j : json) (rest : list json) (v : world) (e' : exn),
        fst (save_item E cfg j v) = Raise e' ->
        save_items E cfg (j :: rest) v = (Raise e', snd (save_item E cfg j v)))
  /\ attempt_fails E cfg index w0 = true
  /\ (r + 1 <> retries_for_request cfg ->
      exists w' : world,
        iteration E cfg index r w = (Ok (Some (index, r + 1)), w')
        /\ last (trace w') = Some (Slept (retry_interval cfg))
        /\ exists l : list event,
             trace (snd (iteration E cfg index (r + 1) w'))
             = trace w' ++ Requested (GetBulk index) :: l)
  /\ (r + 1 = retries_for_request cfg ->
      writable E (missing_path cfg) = true ->
      exists w' : world,
        iteration E cfg index r w
        = (Ok (Some (index + entries_for_request cfg, 0)), w')
        /\ fs w' !! missing_path cfg
           = Some (Py.cat (default "" (fs w !! missing_path cfg))
                     (Py.cat (Py.str index) Py.nl))).
Proof.
  intros Hindex Hretry w0 w1 Hnet H200 Hjson Hpage Hsave.
  assert (attempt_fails E cfg index w0 = true) as Hfail.
  { by apply (attempt_fails_unsaved E cfg index w0 resp pg Hnet H200 Hjson e). }
  split; [|split; [|split; [|split; [|split; [|split; [|split]]]]]].
  - intros j v e'. unfold save_data, try_except, io_bind, io_raise.
    destruct (get_cve_path_and_filename E cfg j v) as [[path | e0] v']; simpl.
    + destruct (cmode cfg); unfold write_file, append_file; simpl;
        destruct (writable E (Py.cat path _)); simpl; congruence.
    + congruence.
  - intros j v Hpath. unfold save_data, try_except, io_bind, io_raise.
    by destruct (get_cve_path_and_filename E cfg j v) as [[path | e0] v'].
  - intros j v path Hpath Hw. unfold save_data, try_except, io_bind, io_raise.
    destruct (get_cve_path_and_filename E cfg j v) as [[path' | e0] v'];
      simpl in *; [|done].
    injection Hpath as ->.
    destruct (cmode cfg); unfold write_file, append_file; by rewrite Hw.
  - intros j v. unfold save_data, try_except, io_bind, io_raise.
    pose proof (PathFacts.resolve_files E cfg j v) as (Hfs & _).
    destruct (get_cve_path_and_filename E cfg j v) as [[path | e0] v'];
      simpl in *; [|done].
    destruct (cmode cfg); unfold write_file, append_file; simpl;
      destruct (writable E (Py.cat path _)); simpl; done.
  - intros j rest v e' Hj. simpl. unfold io_bind.
    destruct (save_item E cfg j v) as [[[] | e0] v']; simpl in *; congruence.
  - exact Hfail.
  - intros Hr. rewrite (iteration_retry E cfg index r w Hindex Hfail Hr Hretry).
    eexists. split; [done |]. split.
    + simpl. apply last_snoc.
    + by apply iteration_first_request.
  - intros Hr Hmissing.
    rewrite (iteration_give_up E cfg index r w Hindex Hfail Hr Hmissing Hretry).
    eexists. split; [done |]. simpl.
    rewrite lookup_insert_eq. by rewrite attempt_keeps_missing.
Qed.

(** The page at cursor 0 of [broken_feed] is fetched and cannot be saved:
    the counter is at 1 and the cursor still at 0 after the iteration. *)
Lemma save_failure_is_retried_witness :
  exists w' : world,
    iteration (example_env broken_feed) (default_config Info) 0 0 empty_world
    = (Ok (Some (0, 0 + 1)), w')
    /\ last (trace w') = Some (Slept 600).
Proof.
  destruct (save_failure_is_retried (example_env broken_feed) (default_config Info)
              0 0 empty_world
              (feed_response (feed_page 0 4500 [record_with_id "CVE-2024"]))
              (feed_page 0 4500 [record_with_id "CVE-2024"])
              (RuntimeError "Cannot save data")
              eq_refl eq_refl eq_refl eq_refl eq_refl eq_refl eq_refl)
    as (_ & _ & _ & _ & _ & _ & H & _).
  destruct (H ltac:(discriminate)) as (w' & Hiter & Hlast & _).
  exists w'. split; [exact Hiter | exact Hlast].
Defined.

(** C1, as stated, fails: the record of the page at cursor 0 cannot be
    saved, and after two iterations the counter is at 2, the cursor is
    still 0 and the page has been requested twice. *)
Lemma save_failure_counted_and_repeated :
  fst (save_wrapper (example_env broken_feed) (default_config Info)
         (feed_page 0 4500 [record_with_id "CVE-2024"])
         (log (Requested (GetBulk 0)) (checkpoint (default_config Info) 0 empty_world)))
  = Raise (RuntimeError "Cannot save data")
  /\ progress (iterations (example_env broken_feed) (default_config Info) 2 0 0
                 empty_world)
     = Some (0, 2, [0; 0]).
Proof. split; vm_compute; reflexivity. Qed.

(** C2, as amended. Against a feed that reports 4500 records, echoes the
    requested cursor and whose pages are all saved, a crawl with a page
    size of 2000 that starts without a cursor file sends four page
    requests, for the cursors 0, 2000, 4000 and 6000: the pages at 0, 2000
    and 4000 are saved, and the answer to the fourth request, the first
    whose cursor is not below the total, ends the crawl normally. The
    cursor file then holds 6000. *)
Theorem crawl_of_4500 (E : env) (cfg : config) (w : world) :
  entries_for_request cfg = 2000 ->
  retries_for_request cfg <> 0 ->
  sleep_error (interval_between_requests cfg) = None ->
  writable E (index_path cfg) = true ->
  fs w !! index_path cfg = None ->
  (forall (t : nat) (index : Z),
     exists (resp : response) (pg : page),
       net E t (GetBulk index) = Some resp
       /\ status_code resp = 200
       /\ json_body resp = Some pg
       /\ startIndex pg = index
       /\ totalResults pg = 4500
       /\ forall v : world, fst (save_wrapper E cfg pg v) = Ok tt) ->
  forall fuel : nat,
    (4 <= fuel)%nat ->
    exists w' : world,
      init_data_population E cfg fuel w = Some (Ok tt, w')
      /\ bulk_requests (trace w') = bulk_requests (trace w) ++ [0; 2000; 4000; 6000]
      /\ fs w' !! index_path cfg = Some (Py.str 6000).
Proof.
  intros Hsize Hlimit Hpause Hindex Hfresh Hfeed fuel Hfuel.
  assert (forall (index r : Z) (v : world),
            index < 4500 ->
            exists v' : world,
              iteration E cfg index r v = (Ok (Some (index + 2000, 0)), v')
              /\ bulk_requests (trace v') = bulk_requests (trace v) ++ [index])
    as Hstep.
  { intros index r v Hlt.
    destruct (Hfeed (length (trace (checkpoint cfg index v))) index)
      as (resp & pg & Hnet & H200 & Hjson & Hstart & Htotal & Hsave).
    assert (attempt_succeeds E cfg index (checkpoint cfg index v) = true) as Hok.
    { apply (attempt_succeeds_saved E cfg index _ resp pg Hnet H200 Hjson); [lia |].
      apply Hsave. }
    pose proof (iteration_requests E cfg index r v Hindex) as Hreq.
    rewrite (iteration_success E cfg index r v Hindex Hok Hlimit Hpause) in Hreq |- *.
    rewrite Hsize. eexists. split; [done | exact Hreq]. }
  assert (forall (index r : Z) (v : world),
            4500 <= index ->
            exists v' : world,
              iteration E cfg index r v = (Ok None, v')
              /\ bulk_requests (trace v') = bulk_requests (trace v) ++ [index]
              /\ fs v' !! index_path cfg = Some (Py.str index))
    as Hstop.
  { intros index r v Hge.
    destruct (Hfeed (length (trace (checkpoint cfg index v))) index)
      as (resp & pg & Hnet & H200 & Hjson & Hstart & Htotal & Hsave).
    pose proof (attempt_up_to_date E cfg index _ resp pg Hnet H200 Hjson
                  ltac:(lia)) as Hup.
    pose proof (iteration_requests E cfg index r v Hindex) as Hreq.
    pose proof (iteration_checkpoint E cfg index r v Hindex) as Hcp.
    rewrite (iteration_done E cfg index r v Hindex) in Hreq, Hcp |- *
      by (by rewrite Hup).
    eexists. split; [done |]. split; [exact Hreq | exact Hcp]. }
  assert (init_data_population E cfg fuel w = crawl E cfg fuel 0 0 w) as ->.
  { unfold init_data_population, load_index, try_except, io_bind, read_file.
    destruct (read_error E (index_path cfg)); [done |]. by rewrite Hfresh. }
  destruct fuel as [|[|[|[|fuel]]]]; try lia.
  destruct (Hstep 0 0 w ltac:(lia)) as (v1 & Hi1 & Hr1).
  destruct (Hstep 2000 0 v1 ltac:(lia)) as (v2 & Hi2 & Hr2).
  destruct (Hstep 4000 0 v2 ltac:(lia)) as (v3 & Hi3 & Hr3).
  destruct (Hstop 6000 0 v3 ltac:(lia)) as (v4 & Hi4 & Hr4 & Hcp).
  rewrite (crawl_continue E cfg _ _ _ _ _ _ _ Hi1).
  rewrite (crawl_continue E cfg _ _ _ _ _ _ _ Hi2).
  rewrite (crawl_continue E cfg _ _ _ _ _ _ _ Hi3).
  rewrite (crawl_done E cfg _ _ _ _ _ Hi4).
  exists v4. split; [done |]. split; [|done].
  rewrite Hr4, Hr3, Hr2, Hr1, <- !app_assoc. done.
Qed.

(** The crawl of [steady_feed 4500] from an empty disk. *)
Lemma crawl_of_4500_witness :
  exists w' : world,
    init_data_population (example_env (steady_feed 4500)) (default_config Info) 4
      empty_world
    = Some (Ok tt, w')
    /\ bulk_requests (trace w') = [0; 2000; 4000; 6000]
    /\ fs w' !! index_path (default_config Info) = Some "6000".
Proof.
  apply (crawl_of_4500 (example_env (steady_feed 4500)) (default_config Info)
           empty_world eq_refl ltac:(discriminate) eq_refl eq_refl eq_refl).
  - intros t index.
    exists (feed_response
              (feed_page index 4500
                 (if index <? 4500 then [page_record index] else []))).
    eexists. split; [reflexivity |]. split; [reflexivity |].
    split; [reflexivity |]. split; [reflexivity |]. split; [reflexivity |].
    intros v. unfold page_record.
    destruct (index <? 4500); [|reflexivity].
    destruct (index <? 2000); [reflexivity |].
    destruct (index <? 4000); reflexivity.
  - lia.
Defined.

(** C2, as stated, fails: the crawl of a feed of 4500 records sends a
    fourth page request, for the cursor 6000, and that request, not the
    one for 4000, is the last. *)
Lemma fourth_request_needed :
  bulk_requests
    <$> trace_of (init_data_population (example_env (steady_feed 4500))
                    (default_config Info) 10 empty_world)
  = Some [0; 2000; 4000; 6000].
Proof. vm_compute. reflexivity. Qed.

End BulkClaims.


(** ** Worked examples *)

Section Examples.

Example int_with_spaces : Py.int " 0042 " = Some 42.
Proof. reflexivity. Qed.

Example int_with_underscore : Py.int "1_000" = Some 1000.
Proof. reflexivity. Qed.

Example int_rejects_letters : Py.int "12a" = None.
Proof. reflexivity. Qed.

Example join_restarts_at_absolute :
  Py.os_path_join "/usr/src/data" ["/tmp"; "00"] = "/tmp/00".
Proof. reflexivity. Qed.

Example path_of_short_sequence :
  get_cve_path_and_filename (example_env dead_net) (default_config Info)
    (record_with_id "CVE-2021-44") empty_world
  = (Ok "/usr/src/data/2021/00/00/CVE-2021-000044",
     add_dirs ["/usr/src/data/2021/00/00"] empty_world).
Proof. reflexivity. Qed.

Example path_of_change_record :
  fst (get_cve_path_and_filename (example_env dead_net) (default_config Changes)
         (JObj [("change", JObj [("cveId", JStr "CVE-1999-0095")])]) empty_world)
  = Ok "/usr/src/data/1999/00/00/CVE-1999-000095".
Proof. reflexivity. Qed.

Example path_of_two_parts :
  get_cve_path_and_filename (example_env dead_net) (default_config Info)
    (record_with_id "CVE-2020") empty_world
  = (Raise IndexError, empty_world).
Proof. reflexivity. Qed.

Example path_of_letters :
  get_cve_path_and_filename (example_env dead_net) (default_config Info)
    (record_with_id "CVE-2020-abc") empty_world
  = (Raise ValueError, empty_world).
Proof. reflexivity. Qed.

(** A well-formed identifier on a disk where no directory can be made. *)
Example path_without_directory :
  get_cve_path_and_filename (no_dirs_env dead_net) (default_config Info)
    (record_with_id "CVE-2021-44") empty_world
  = (Raise OSError, empty_world).
Proof. reflexivity. Qed.

(** A record that cannot be saved because its file cannot be opened: the
    directory made for it stays. *)
Example directory_left_behind :
  save_data (read_only_env dead_net) (default_config Info)
    (record_with_id "CVE-2021-44") empty_world
  = (Raise (RuntimeError "Cannot save data"),
     add_dirs ["/usr/src/data/2021/00/00"] empty_world).
Proof. reflexivity. Qed.

(** A long answer of type [application/xml], for which [requests] has no
    encoding: the side file is created and stays empty, and the entry
    holds the error marker. *)
Example bytes_into_text_file :
  archive_reference
    (example_env (ref_net (ref_response 200 (Some "6000000") "application/xml" "<a/>")))
    (default_config Info) (record_with_id "CVE-2021-44") 0
    (JStr "http://example.org/advisory.xml") empty_world
  = (Ok (JStr ERROR_MARKER, 0),
     set_file "/usr/src/data/2021/00/00/CVE-2021-000044-0.txt" ""
       (add_dirs ["/usr/src/data/2021/00/00"]
          (log (Requested (GetRef (JStr "http://example.org/advisory.xml")))
             empty_world))).
Proof. reflexivity. Qed.

(** With a negative retry interval the first failed attempt ends the
    crawl: [time.sleep] raises outside the [try]. *)
Example negative_interval_raises :
  fst <$> crawl (example_env dead_net) (hasty_config Info) 5 0 0 empty_world
  = Some (Raise ValueError).
Proof. vm_compute. reflexivity. Qed.

(** A watermark file that cannot be read ends the cycle with the error of
    the read. *)
Example locked_watermark_raises :
  maintain_data (locked_watermark_env dead_net) (default_config Info)
    (world_with_watermark "2024-04-29T00:00:00.000000")
  = (Raise PermissionError, world_with_watermark "2024-04-29T00:00:00.000000").
Proof. reflexivity. Qed.

(** A record with two references, the network answering 404 to both:
    the record is saved with the two statuses. *)
Example archive_two_missing :
  fst (fetch_and_add_references
         (example_env (ref_net (ref_response 404 None "text/html" "")))
         (default_config Info)
         (record_with_refs "CVE-2021-44" ["http://a.example/1"; "http://b.example/2"])
         empty_world)
  = Ok (JObj [("cve",
               JObj [("id", JStr "CVE-2021-44");
                     ("references",
                      JArr [JObj [("url", JStr "http://a.example/1")];
                            JObj [("url", JStr "http://b.example/2")]]);
                     ("added_references",
                      JArr [JArr [JStr "http://a.example/1"; JNum 404];
                            JArr [JStr "http://b.example/2"; JNum 404]])])]).
Proof. reflexivity. Qed.

(** An update that brings two records moves the watermark to the
    modification time of the second. *)
Example update_moves_watermark :
  fs (snd (maintain_data
             (example_env (delta_feed [record_modified "CVE-2024-0001" "2024-04-30T08:00:00.000";
                                       record_modified "CVE-2024-0002" "2024-04-30T09:30:00.000"]))
             (default_config Info)
             (world_with_watermark "2024-04-29T00:00:00.000000")))
    !! last_update_path (default_config Info)
  = Some "2024-04-30T09:30:00.000".
Proof. vm_compute. reflexivity. Qed.

(** An update that brings nothing moves the watermark to the time of the
    cycle, and an update that is not answered leaves it. *)
Example update_empty_moves_to_now :
  fs (snd (maintain_data (example_env (delta_feed [])) (default_config Info)
             (world_with_watermark "2024-04-29T00:00:00.000000")))
    !! last_update_path (default_config Info)
  = Some "2024-05-01T12:00:00".
Proof. vm_compute. reflexivity. Qed.

Example update_unanswered_keeps :
  fs (snd (maintain_data (example_env dead_net) (default_config Info)
             (world_with_watermark "2024-04-29T00:00:00.000000")))
    !! last_update_path (default_config Info)
  = Some "2024-04-29T00:00:00.000000".
Proof. vm_compute. reflexivity. Qed.

(** Eight attempts without an answer, then the feed is back: after nine
    iterations the first page has been saved, the counter is at 0 and no
    cursor was given up. *)
Example eight_failures_then_success :
  progress (iterations (example_env (silent_until 16 (steady_feed 4500)))
              (default_config Info) 9 0 0 empty_world)
  = Some (2000, 0, [0; 0; 0; 0; 0; 0; 0; 0; 0])
  /\ (fun o => match o with
               | Some (_, _, w) => fs w !! missing_path (default_config Info)
               | None => None
               end)
       (iterations (example_env (silent_until 16 (steady_feed 4500)))
          (default_config Info) 9 0 0 empty_world)
     = None.
Proof. split; vm_compute; reflexivity. Qed.

End Examples.

(** * Further properties of the code *)

(** ** Decimal numbers written and read *)

Module DecimalFacts.

Import PyFacts.

Lemma int_digits_uint (u : Decimal.uint) (acc : Z) (seen : bool) :
  seen = true \/ u <> Decimal.Nil ->
  Py.int_digits acc seen (NilEmpty.string_of_uint u) = Some (uval acc u).
Proof.
  revert acc seen. induction u; intros acc seen Hseen; simpl;
    try (apply IHu; by left).
  destruct Hseen as [-> | H]; done.
Qed.

Lemma uval_pos (u : Decimal.uint) (p : positive) :
  uval (Z.pos p) u = Z.pos (Pos.of_uint_acc u p).
Proof.
  revert p. induction u; intros p; cbn [uval Pos.of_uint_acc]; try done;
    rewrite <- IHu; f_equal; lia.
Qed.

Lemma uval_zero (u : Decimal.uint) : uval 0 u = Z.of_N (Pos.of_uint u).
Proof.
  induction u; cbn [uval Pos.of_uint]; try done;
    match goal with
    | |- uval ?z _ = _ =>
        let p := eval cbv in z in change z with p
    end;
    apply uval_pos.
Qed.

Lemma int_digits_digits (n : N) :
  Py.int_digits 0 false (Py.digits n) = Some (Z.of_N n).
Proof.
  unfold Py.digits. rewrite int_digits_uint.
  - rewrite uval_zero. f_equal. f_equal. apply DecimalN.Unsigned.of_to.
  - right. destruct n; simpl; [done | apply DecimalPos.Unsigned.to_uint_nonnil].
Qed.

End DecimalFacts.

Module StrFacts.

Import PyFacts DecimalFacts.

Lemma digit_not_space (c : ascii) : Py.isdigit c = true -> Py.isspace c = false.
Proof.
  unfold Py.isdigit, Py.isspace. set (n := nat_of_ascii c). intros H.
  apply andb_true_iff in H as [H1 H2]. apply Nat.leb_le in H1, H2.
  repeat match goal with
         | |- context [(?a <=? ?b)%nat] =>
             destruct (Nat.leb_spec a b); try lia
         | |- context [(?a =? ?b)%nat] =>
             destruct (Nat.eqb_spec a b); try lia
         end; done.
Qed.

Lemma rstrip_digits (s : string) : Py.all_digits s = true -> Py.rstrip s = s.
Proof.
  induction s as [|c s IH]; [done |].
  change (Py.all_digits (String c s)) with (Py.isdigit c && Py.all_digits s).
  intros H. apply andb_true_iff in H as [Hc Hs].
  change (Py.rstrip (String c s))
    with (match Py.rstrip s with
          | EmptyString => if Py.isspace c then EmptyString else String c EmptyString
          | r => String c r
          end).
  rewrite (IH Hs). destruct s; [|done]. by rewrite (digit_not_space c Hc).
Qed.

Lemma strip_digits (s : string) : Py.all_digits s = true -> Py.strip s = s.
Proof.
  intros H. unfold Py.strip.
  assert (Py.lstrip s = s) as ->; [|by apply rstrip_digits].
  destruct s as [|c s]; [done |].
  change (Py.all_digits (String c s)) with (Py.isdigit c && Py.all_digits s) in H.
  apply andb_true_iff in H as [Hc _].
  change (Py.lstrip (String c s))
    with (if Py.isspace c then Py.lstrip s else String c s).
  by rewrite (digit_not_space c Hc).
Qed.

Lemma strip_minus_digits (s : string) :
  Py.all_digits s = true -> s <> "" -> Py.strip (String "-" s) = String "-" s.
Proof.
  intros H Hne. unfold Py.strip.
  change (Py.lstrip (String "-" s)) with (String "-" s).
  change (Py.rstrip (String "-" s))
    with (match Py.rstrip s with
          | EmptyString => String "-" EmptyString
          | r => String "-" r
          end).
  rewrite (rstrip_digits s H). by destruct s.
Qed.

(** [str] never adds or loses white space. *)
Lemma strip_str (z : Z) : Py.strip (Py.str z) = Py.str z.
Proof.
  unfold Py.str. destruct (z <? 0).
  - apply strip_minus_digits; [apply all_digits_digits | apply digits_nonempty].
  - apply strip_digits, all_digits_digits.
Qed.

(** [int(str(z)) == z] *)
Lemma int_str (z : Z) : Py.int (Py.str z) = Some z.
Proof.
  unfold Py.int. rewrite strip_str. unfold Py.str.
  destruct (z <? 0) eqn:Hz.
  - change (Ascii.eqb "-" "+") with false. change (Ascii.eqb "-" "-") with true.
    cbv iota. rewrite int_digits_digits. simpl. f_equal.
    apply Z.ltb_lt in Hz. lia.
  - pose proof (int_digits_digits (Z.to_N z)) as Hd.
    pose proof (all_digits_digits (Z.to_N z)) as Hall.
    pose proof (digits_nonempty (Z.to_N z)) as Hne.
    destruct (Py.digits (Z.to_N z)) as [|c r]; [done |].
    change (Py.all_digits (String c r)) with (Py.isdigit c && Py.all_digits r) in Hall.
    apply andb_true_iff in Hall as [Hc _].
    destruct (Ascii.eqb_spec c "+") as [-> | _]; [discriminate Hc |].
    destruct (Ascii.eqb_spec c "-") as [-> | _]; [discriminate Hc |].
    rewrite Hd. f_equal. apply Z.ltb_ge in Hz. lia.
Qed.

End StrFacts.

(** ** Further properties: the record store *)

Module Store.

(** [save_data] is path resolution followed by one write. *)
Lemma save_data_unfold (E : env) (cfg : config) (json_data : json) (w : world) :
  save_data E cfg json_data w
  = match get_cve_path_and_filename E cfg json_data w with
    | (Ok path, w') =>
        match cmode cfg with
        | Info =>
            if writable E (Py.cat path ".json")
            then (Ok tt, set_file (Py.cat path ".json") (dumps E json_data) w')
            else (Raise (RuntimeError "Cannot save data"), w')
        | Changes =>
            if writable E (Py.cat path ".jsonl")
            then (Ok tt,
                  set_file (Py.cat path ".jsonl")
                    (Py.cat (default "" (fs w' !! Py.cat path ".jsonl"))
                       (Py.cat (dumps E json_data) Py.nl)) w')
            else (Raise (RuntimeError "Cannot save data"), w')
        end
    | (Raise e, w') => (Raise (RuntimeError "Cannot save data"), w')
    end.
Proof.
  unfold save_data, try_except, io_bind, io_raise.
  destruct (get_cve_path_and_filename E cfg json_data w) as [[path | e] w'];
    [|done].
  destruct (cmode cfg); unfold write_file, append_file;
    by destruct (writable E _).
Qed.

End Store.

Section StoreFacts.

Import PyFacts Frame.

(** X1. A crawl that starts on a disk where an iteration has written the
    cursor [index] resumes at [index], with the counter at 0, when the
    cursor file can be read: it is read back as the number that was
    written. Without a cursor file, with one that does not read as a
    number, or with one that cannot be read, the crawl starts at 0. *)
Theorem resume_at_checkpoint (E : env) (cfg : config) (fuel : nat) (index : Z)
    (w : world) :
  (read_error E (index_path cfg) = None ->
   init_data_population E cfg fuel (checkpoint cfg index w)
   = crawl E cfg fuel index 0 (checkpoint cfg index w))
  /\ (forall (v : world) (e : exn),
        read_error E (index_path cfg) = Some e ->
        init_data_population E cfg fuel v = crawl E cfg fuel 0 0 v)
  /\ (forall v : world,
        fs v !! index_path cfg = None ->
        init_data_population E cfg fuel v = crawl E cfg fuel 0 0 v)
  /\ (forall (v : world) (content : string),
        fs v !! index_path cfg = Some content ->
        Py.int (Py.strip content) = None ->
        init_data_population E cfg fuel v = crawl E cfg fuel 0 0 v).
Proof.
  split; [|split; [|split]].
  - intros Hread.
    unfold init_data_population, load_index, try_except, io_bind, read_file, lift.
    rewrite Hread.
    unfold checkpoint at 1 2. simpl. rewrite lookup_insert_eq. simpl.
    by rewrite StrFacts.strip_str, StrFacts.int_str.
  - intros v e Hread.
    unfold init_data_population, load_index, try_except, io_bind, read_file, lift.
    by rewrite Hread.
  - intros v Hv.
    unfold init_data_population, load_index, try_except, io_bind, read_file, lift.
    destruct (read_error E (index_path cfg)); [done |]. by rewrite Hv.
  - intros v content Hv Hint.
    unfold init_data_population, load_index, try_except, io_bind, read_file, lift.
    destruct (read_error E (index_path cfg)); [done |].
    rewrite Hv. simpl. by rewrite Hint.
Qed.

(** X2. In [info] mode a record is one file that is replaced as a whole:
    after two records with the same path have been saved one after the
    other, the file holds the second alone, and the files are those that
    saving the second alone would have left. *)
Theorem info_save_overwrites (E : env) (cfg : config) (j1 j2 : json)
    (path : string) (w : world) :
  cmode cfg = Info ->
  fst (get_cve_path_and_filename E cfg j1 w) = Ok path ->
  fst (get_cve_path_and_filename E cfg j2 w) = Ok path ->
  writable E (Py.cat path ".json") = true ->
  let w1 := snd (save_data E cfg j1 w) in
  let w2 := snd (save_data E cfg j2 w1) in
  fst (save_data E cfg j2 w1) = Ok tt
  /\ fs w2 !! Py.cat path ".json" = Some (dumps E j2)
  /\ fs w2 = fs (snd (save_data E cfg j2 w)).
Proof.
  intros Hmode H1 H2 Hw. cbv zeta.
  pose proof (PathFacts.resolve_any_world E cfg j2
                (snd (save_data E cfg j1 w)) w) as H2'.
  rewrite H2 in H2'.
  pose proof (PathFacts.resolve_files E cfg j2 (snd (save_data E cfg j1 w)))
    as (Hfs2' & _).
  pose proof (PathFacts.resolve_files E cfg j2 w) as (Hfs2 & _).
  pose proof (PathFacts.resolve_files E cfg j1 w) as (Hfs1 & _).
  rewrite (Store.save_data_unfold E cfg j2 (snd (save_data E cfg j1 w))).
  rewrite (Store.save_data_unfold E cfg j2 w).
  destruct (get_cve_path_and_filename E cfg j2 (snd (save_data E cfg j1 w)))
    as [[p2' | e] v2']; simpl in H2', Hfs2'; [|done]. injection H2' as ->.
  destruct (get_cve_path_and_filename E cfg j2 w) as [[p2 | e] v2];
    simpl in H2, Hfs2; [|done]. injection H2 as ->.
  rewrite Hmode, Hw. simpl.
  split; [done |]. split; [apply lookup_insert_eq |].
  rewrite Hfs2', Hfs2.
  rewrite (Store.save_data_unfold E cfg j1 w).
  destruct (get_cve_path_and_filename E cfg j1 w) as [[p1 | e] v1];
    simpl in H1, Hfs1; [|done]. injection H1 as ->.
  rewrite Hmode, Hw. simpl. rewrite Hfs1. apply insert_insert_eq.
Qed.

Lemma info_save_overwrites_witness :
  fs (snd (save_data (example_env dead_net) (default_config Info)
             (record_modified "CVE-2024-0001" "2024-04-30T09:30:00.000")
             (snd (save_data (example_env dead_net) (default_config Info)
                     (record_modified "CVE-2024-0001" "2024-04-30T08:00:00.000")
                     empty_world))))
    !! "/usr/src/data/2024/00/00/CVE-2024-000001.json"
  = Some (dumps_plain (record_modified "CVE-2024-0001" "2024-04-30T09:30:00.000")).
Proof.
  exact (proj1 (proj2 (info_save_overwrites (example_env dead_net) (default_config Info)
                         (record_modified "CVE-2024-0001" "2024-04-30T08:00:00.000")
                         (record_modified "CVE-2024-0001" "2024-04-30T09:30:00.000")
                         "/usr/src/data/2024/00/00/CVE-2024-000001" empty_world
                         eq_refl eq_refl eq_refl eq_refl))).
Defined.

(** X3. In [changes] mode a record is a line added to a file that is
    never rewritten: after two events of the same vulnerability have been
    saved, the file holds what it held before, then the first event and a
    line feed, then the second and a line feed. Saving the same event
    twice gives the line twice. *)
Theorem changes_save_appends (E : env) (cfg : config) (j1 j2 : json)
    (path : string) (w : world) :
  cmode cfg = Changes ->
  fst (get_cve_path_and_filename E cfg j1 w) = Ok path ->
  fst (get_cve_path_and_filename E cfg j2 w) = Ok path ->
  writable E (Py.cat path ".jsonl") = true ->
  let w1 := snd (save_data E cfg j1 w) in
  let w2 := snd (save_data E cfg j2 w1) in
  fst (save_data E cfg j2 w1) = Ok tt
  /\ fs w2 !! Py.cat path ".jsonl"
     = Some (Py.cat (default "" (fs w !! Py.cat path ".jsonl"))
               (Py.cat (dumps E j1)
                  (Py.cat Py.nl (Py.cat (dumps E j2) Py.nl)))).
Proof.
  intros Hmode H1 H2 Hw. cbv zeta.
  pose proof (PathFacts.resolve_any_world E cfg j2
                (snd (save_data E cfg j1 w)) w) as H2'.
  rewrite H2 in H2'.
  pose proof (PathFacts.resolve_files E cfg j2 (snd (save_data E cfg j1 w)))
    as (Hfs2' & _).
  pose proof (PathFacts.resolve_files E cfg j1 w) as (Hfs1 & _).
  rewrite (Store.save_data_unfold E cfg j2 (snd (save_data E cfg j1 w))).
  destruct (get_cve_path_and_filename E cfg j2 (snd (save_data E cfg j1 w)))
    as [[p2' | e] v2']; simpl in H2', Hfs2'; [|done]. injection H2' as ->.
  rewrite Hmode, Hw. simpl.
  split; [done |]. rewrite lookup_insert_eq, Hfs2'.
  rewrite (Store.save_data_unfold E cfg j1 w).
  destruct (get_cve_path_and_filename E cfg j1 w) as [[p1 | e] v1];
    simpl in H1, Hfs1; [|done]. injection H1 as ->.
  rewrite Hmode, Hw. simpl. rewrite lookup_insert_eq, Hfs1. simpl.
  by rewrite !cat_assoc.
Qed.

Lemma changes_save_appends_witness :
  fs (snd (save_data (example_env dead_net) (default_config Changes)
             (change_record "CVE-2024-0001" "2024-04-30T08:00:00.000")
             (snd (save_data (example_env dead_net) (default_config Changes)
                     (change_record "CVE-2024-0001" "2024-04-30T08:00:00.000")
                     empty_world))))
    !! "/usr/src/data/2024/00/00/CVE-2024-000001.jsonl"
  = Some (Py.cat ""
            (Py.cat (dumps_plain (change_record "CVE-2024-0001" "2024-04-30T08:00:00.000"))
               (Py.cat Py.nl
                  (Py.cat (dumps_plain (change_record "CVE-2024-0001" "2024-04-30T08:00:00.000"))
                     Py.nl)))).
Proof.
  exact (proj2 (changes_save_appends (example_env dead_net) (default_config Changes)
                  (change_record "CVE-2024-0001" "2024-04-30T08:00:00.000")
                  (change_record "CVE-2024-0001" "2024-04-30T08:00:00.000")
                  "/usr/src/data/2024/00/00/CVE-2024-000001" empty_world
                  eq_refl eq_refl eq_refl eq_refl)).
Defined.


End StoreFacts.

(** ** Further properties: saving a page *)

Module SaveFacts.

Import PyFacts Frame Archive.

Lemma silent_append (E : env) (p s : string) : silent (append_file E p s).
Proof. intros w0. unfold append_file. by destruct (writable E p). Qed.

Lemma silent_try {A : Type} (m : io A) (h : exn -> io A) :
  silent m -> (forall e, silent (h e)) -> silent (try_except m h).
Proof.
  intros Hm Hh w0. unfold try_except. specialize (Hm w0).
  destruct (m w0) as [[a | e] w']; simpl in *; [done |]. by rewrite Hh.
Qed.

Lemma silent_save_data (E : env) (cfg : config) (json_data : json) :
  silent (save_data E cfg json_data).
Proof.
  unfold save_data. apply silent_try; [|done].
  apply silent_bind; [apply silent_resolve |]. intros path.
  destruct (cmode cfg); [apply silent_write | apply silent_append].
Qed.

Lemma save_items_app (E : env) (cfg : config) (l1 l2 : list json) (w : world) :
  save_items E cfg (l1 ++ l2) w
  = io_bind (save_items E cfg l1) (fun _ => save_items E cfg l2) w.
Proof.
  revert w. induction l1 as [|x l1 IH]; intros w; [done |].
  change (save_items E cfg ((x :: l1) ++ l2) w)
    with (io_bind (save_item E cfg x) (fun _ => save_items E cfg (l1 ++ l2)) w).
  change (save_items E cfg (x :: l1))
    with (io_bind (save_item E cfg x) (fun _ => save_items E cfg l1)).
  unfold io_bind at 1 2 3.
  destruct (save_item E cfg x w) as [[[] | e] w1]; [|done].
  rewrite IH. done.
Qed.

Lemma assoc_set_other (k k' : string) (v : json) (kvs : list (string * json)) :
  k <> k' -> assoc k (assoc_set k' v kvs) = assoc k kvs.
Proof.
  intros Hne. induction kvs as [|[k0 v0] kvs IH]; simpl.
  - destruct (String.eqb_spec k k'); done.
  - destruct (String.eqb_spec k' k0) as [<- | Hk0]; simpl.
    + destruct (String.eqb_spec k k'); done.
    + by rewrite IH.
Qed.

Lemma add_references_keeps_id (m : mode) (rr : list json) (j j' : json) :
  add_references rr j = Ok j' -> cve_field m j' = cve_field m j.
Proof.
  unfold add_references.
  destruct j as [| | | | |kvs]; try done. simpl.
  destruct (assoc "cve" kvs) as [c|] eqn:Hc; [|done]. simpl.
  destruct c as [| | | | |ckvs]; try done. simpl. intros [= <-].
  destruct m; simpl.
  - rewrite assoc_set_get, Hc. simpl. by rewrite assoc_set_other.
  - by rewrite assoc_set_other.
Qed.

End SaveFacts.

Section PageFacts.

Import PyFacts Frame Archive SaveFacts Bulk.

(** X5. In [changes] mode saving a page sends no request at all:
    references are only fetched in [info] mode. *)
Theorem changes_mode_sends_nothing (E : env) (cfg : config) (response_json : page)
    (w : world) :
  cmode cfg = Changes ->
  trace (snd (save_wrapper E cfg response_json w)) = trace w.
Proof.
  intros Hmode. revert w.
  change (silent (save_wrapper E cfg response_json)).
  unfold save_wrapper. apply silent_bind; [apply silent_lift |]. intros l.
  induction l as [|x l IH]; [done |].
  change (save_items E cfg (x :: l))
    with (io_bind (save_item E cfg x) (fun _ => save_items E cfg l)).
  apply silent_bind; [|by intros _].
  unfold save_item. rewrite Hmode.
  apply silent_bind; [done |]. intros j. apply silent_save_data.
Qed.

Lemma changes_mode_sends_nothing_witness :
  trace (snd (save_wrapper (example_env dead_net) (default_config Changes)
                (feed_page 0 2 [change_record "CVE-2024-0001" "2024-04-30T08:00:00.000";
                                change_record "CVE-2024-0002" "2024-04-30T09:00:00.000"])
                empty_world))
  = [].
Proof.
  exact (changes_mode_sends_nothing (example_env dead_net) (default_config Changes)
           (feed_page 0 2 [change_record "CVE-2024-0001" "2024-04-30T08:00:00.000";
                           change_record "CVE-2024-0002" "2024-04-30T09:00:00.000"])
           empty_world eq_refl).
Defined.

(** X6. The items of a page are saved in order, and the first one that
    cannot be saved ends the page: the items before it stay saved, the
    items after it are not looked at. *)
Theorem first_failure_ends_page (E : env) (cfg : config) (l1 l2 : list json)
    (bad : json) (w : world) (e : exn) :
  fst (save_items E cfg l1 w) = Ok tt ->
  fst (save_item E cfg bad (snd (save_items E cfg l1 w))) = Raise e ->
  save_items E cfg (l1 ++ bad :: l2) w
  = (Raise e, snd (save_item E cfg bad (snd (save_items E cfg l1 w)))).
Proof.
  intros H1 Hbad. rewrite save_items_app. unfold io_bind at 1.
  destruct (save_items E cfg l1 w) as [[[] | e1] w1]; simpl in *; [|done].
  unfold io_bind.
  destruct (save_item E cfg bad w1) as [[[] | e2] w2]; simpl in *; congruence.
Qed.

Lemma first_failure_ends_page_witness :
  files_of (Some (save_items (example_env dead_net) (default_config Changes)
                    [change_record "CVE-2024-0001" "a";
                     change_record "CVE-2024" "b";
                     change_record "CVE-2024-0003" "c"] empty_world))
  = None
  /\ save_items (example_env dead_net) (default_config Changes)
       ([change_record "CVE-2024-0001" "a"]
        ++ change_record "CVE-2024" "b" :: [change_record "CVE-2024-0003" "c"])
       empty_world
     = (Raise (RuntimeError "Cannot save data"),
        snd (save_item (example_env dead_net) (default_config Changes)
               (change_record "CVE-2024" "b")
               (snd (save_items (example_env dead_net) (default_config Changes)
                       [change_record "CVE-2024-0001" "a"] empty_world)))).
Proof.
  split; [reflexivity |].
  exact (first_failure_ends_page (example_env dead_net) (default_config Changes)
           [change_record "CVE-2024-0001" "a"] [change_record "CVE-2024-0003" "c"]
           (change_record "CVE-2024" "b") empty_world
           (RuntimeError "Cannot save data") eq_refl eq_refl).
Defined.

(** X7. An attempt that fails before any record is saved counts as one
    failure and leaves the disk as it was: this is so when the request
    raises, when the status is not 200, when the body cannot be decoded
    and when the decoded body lacks the result list of the mode. *)
Theorem early_failures_change_nothing (E : env) (cfg : config) (index r : Z)
    (w : world) :
  let failed := (Ok (Attempted index (r + 1) true),
                 log (Requested (GetBulk index)) w) in
  (net E (length (trace w)) (GetBulk index) = None ->
   attempt_page E cfg index r w = failed)
  /\ forall resp : response,
       net E (length (trace w)) (GetBulk index) = Some resp ->
       (status_code resp <> 200 -> attempt_page E cfg index r w = failed)
       /\ (status_code resp = 200 ->
           (json_body resp = None -> attempt_page E cfg index r w = failed)
           /\ forall (pg : page) (e : exn),
                json_body resp = Some pg ->
                startIndex pg < totalResults pg ->
                results cfg pg = Raise e ->
                attempt_page E cfg index r w = failed).
Proof.
  cbv zeta. split.
  { intros Hnet. unfold attempt_page, try_except, io_bind, requests_get.
    by rewrite Hnet. }
  intros resp Hnet. split.
  { intros Hst. unfold attempt_page, try_except, io_bind, requests_get.
    rewrite Hnet. simpl. destruct (status_code resp =? 200) eqn:H200; [|done].
    by apply Z.eqb_eq in H200. }
  intros H200. split.
  { intros Hjson. unfold attempt_page, try_except, io_bind, requests_get, lift.
    rewrite Hnet. simpl. by rewrite H200, Hjson. }
  intros pg e Hjson Hlt Hres.
  unfold attempt_page, try_except, io_bind, requests_get, lift.
  rewrite Hnet. simpl. rewrite H200, Hjson. simpl.
  destruct (totalResults pg <=? startIndex pg) eqn:Hle.
  { apply Z.leb_le in Hle. lia. }
  unfold save_wrapper, io_bind, lift. by rewrite Hres.
Qed.

Lemma early_failures_change_nothing_witness :
  attempt_page (example_env keyless_feed) (default_config Info) 0 3 empty_world
  = (Ok (Attempted 0 (3 + 1) true), log (Requested (GetBulk 0)) empty_world).
Proof.
  destruct (early_failures_change_nothing (example_env keyless_feed)
              (default_config Info) 0 3 empty_world) as [_ H].
  destruct (H _ eq_refl) as [_ H200].
  destruct (H200 eq_refl) as [_ Hpg].
  exact (Hpg _ KeyError eq_refl eq_refl eq_refl).
Defined.

(** X8. What path resolution does and returns depends on the year and
    on the number that the sequence reads as, and on nothing else in the
    identifier: two identifiers with the same year whose sequences read
    as the same number make the same directory and get the same path, or
    the same exception, whatever their prefix, their leading zeros and
    the parts after the third. *)
Theorem path_ignores_prefix_and_zeros (E : env) (cfg : config) (j1 j2 : json)
    (cve1 cve2 prefix1 prefix2 year seq1 seq2 : string)
    (rest1 rest2 : list string) (n : Z) (w : world) :
  cve_field (cmode cfg) j1 = Ok (JStr cve1) ->
  cve_field (cmode cfg) j2 = Ok (JStr cve2) ->
  Py.split "-" cve1 = prefix1 :: year :: seq1 :: rest1 ->
  Py.split "-" cve2 = prefix2 :: year :: seq2 :: rest2 ->
  Py.int seq1 = Some n ->
  Py.int seq2 = Some n ->
  get_cve_path_and_filename E cfg j1 w = get_cve_path_and_filename E cfg j2 w.
Proof.
  intros Hid1 Hid2 Hs1 Hs2 Hn1 Hn2. apply PathFacts.resolve_same_location.
  rewrite (PathFacts.location_parts cfg j1 _ _ _ _ _ _ Hid1 Hs1 Hn1).
  by rewrite (PathFacts.location_parts cfg j2 _ _ _ _ _ _ Hid2 Hs2 Hn2).
Qed.

Lemma path_ignores_prefix_and_zeros_witness :
  get_cve_path_and_filename (example_env dead_net) (default_config Info)
    (record_with_id "CVE-2020-7") empty_world
  = get_cve_path_and_filename (example_env dead_net) (default_config Info)
      (record_with_id "GHSA-2020-0007-draft") empty_world.
Proof.
  exact (path_ignores_prefix_and_zeros (example_env dead_net) (default_config Info)
           (record_with_id "CVE-2020-7") (record_with_id "GHSA-2020-0007-draft")
           "CVE-2020-7" "GHSA-2020-0007-draft" "CVE" "GHSA" "2020" "7" "0007"
           [] ["draft"] 7 empty_world
           eq_refl eq_refl eq_refl eq_refl eq_refl eq_refl).
Defined.

(** X9. A year that starts with a separator takes path resolution out of
    the storage directory: the directory it asks [os.makedirs] for and
    the path it returns start with the year and are the same whatever the
    storage directory is. The file name holds the year, separator
    included, so the path does not lie in the directory that was made. *)
Theorem absolute_year_leaves_root (E : env) (cfg cfg' : config) (json_data : json)
    (cve prefix year seq : string) (rest : list string) (n : Z) (w : world) :
  cve_field (cmode cfg) json_data = Ok (JStr cve) ->
  Py.split "-" cve = prefix :: year :: seq :: rest ->
  Py.int seq = Some n ->
  Py.startswith "/" year = true ->
  cmode cfg' = cmode cfg ->
  let p := Py.format_06d n in
  let full_path := Py.os_path_join year [Py.slice 0 2 p; Py.slice 2 4 p] in
  let name := Py.cat "CVE-" (Py.cat year (Py.cat "-" p)) in
  cve_location cfg json_data = Ok (full_path, Py.os_path_join full_path [name])
  /\ get_cve_path_and_filename E cfg' json_data w
     = get_cve_path_and_filename E cfg json_data w
  /\ Py.has_char "/" name = true
  /\ (forall made : list string,
        makedirs E full_path = (made, None) ->
        get_cve_path_and_filename E cfg json_data w
        = (Ok (Py.os_path_join full_path [name]),
           add_dirs (made ++ [full_path]) w)).
Proof.
  intros Hid Hsplit Hint Hyear Hmode. cbv zeta.
  assert (forall c : config,
            cmode c = cmode cfg ->
            cve_location c json_data
            = Ok (Py.os_path_join year
                    [Py.slice 0 2 (Py.format_06d n); Py.slice 2 4 (Py.format_06d n)],
                  Py.os_path_join
                    (Py.os_path_join year
                       [Py.slice 0 2 (Py.format_06d n);
                        Py.slice 2 4 (Py.format_06d n)])
                    [Py.cat "CVE-" (Py.cat year (Py.cat "-" (Py.format_06d n)))]))
    as Hany.
  { intros c Hc. rewrite <- Hc in Hid.
    rewrite (PathFacts.location_parts c json_data _ _ _ _ _ _ Hid Hsplit Hint).
    cbv zeta. unfold Py.os_path_join. cbn [fold_left].
    assert (Py.join1 (storage_path c) year = year) as ->; [|done].
    unfold Py.join1. by rewrite Hyear. }
  split; [by apply Hany |]. split.
  { apply PathFacts.resolve_same_location. by rewrite (Hany cfg' Hmode), Hany. }
  split.
  { destruct year as [|c year']; [done |].
    change (Py.startswith "/" (String c year'))
      with (Ascii.eqb "/" c && Py.startswith "" year') in Hyear.
    apply andb_true_iff in Hyear as [Hc _].
    change (Py.has_char "/" (Py.cat "CVE-" (Py.cat (String c year')
                                             (Py.cat "-" (Py.format_06d n)))))
      with (Ascii.eqb "/" "C" || (Ascii.eqb "/" "V" || (Ascii.eqb "/" "E"
            || (Ascii.eqb "/" "-" || (Ascii.eqb "/" c
                || Py.has_char "/" (Py.cat year' (Py.cat "-" (Py.format_06d n)))))))).
    rewrite Hc. by rewrite !orb_true_r. }
  intros made Hmk. by rewrite PathFacts.resolve_unfold, Hany, Hmk.
Qed.

Lemma absolute_year_leaves_root_witness :
  get_cve_path_and_filename (example_env dead_net) (default_config Info)
    (record_with_id "CVE-/tmp-7") empty_world
  = (Ok "/tmp/00/00/CVE-/tmp-000007", add_dirs ["/tmp/00/00"] empty_world).
Proof.
  exact (proj2 (proj2 (proj2 (absolute_year_leaves_root (example_env dead_net)
                  (default_config Info) (default_config Info)
                  (record_with_id "CVE-/tmp-7") "CVE-/tmp-7" "CVE" "/tmp" "7" [] 7
                  empty_world
                  eq_refl eq_refl eq_refl eq_refl eq_refl))) [] eq_refl).
Defined.

(** X10. Saving a page, references included, never touches the cursor
    file, the watermark file or the list of missing cursors, and the only
    things it sends are requests for references. *)
Theorem saving_keeps_control_files (E : env) (cfg : config) (response_json : page)
    (w : world) :
  let w' := snd (save_wrapper E cfg response_json w) in
  fs w' !! index_path cfg = fs w !! index_path cfg
  /\ fs w' !! last_update_path cfg = fs w !! last_update_path cfg
  /\ fs w' !! missing_path cfg = fs w !! missing_path cfg
  /\ exists l : list event,
       trace w' = trace w ++ l /\ forallb is_ref_request l = true.
Proof.
  cbv zeta. destruct (quietly_save_wrapper E cfg response_json w) as [Hfs Htr].
  split; [apply Hfs, control_like_index |].
  split; [apply Hfs, control_like_last_update |].
  split; [apply Hfs, control_like_missing | exact Htr].
Qed.

(** X11. Archiving the references of a record does not change where the
    record is saved: the record that comes back has the path of the
    record that went in, in either mode. *)
Theorem archiving_keeps_path (E E' : env) (cfg cfg' : config) (json_data j' : json)
    (w v : world) :
  fst (fetch_and_add_references E cfg json_data w) = Ok j' ->
  get_cve_path_and_filename E' cfg' j' v
  = get_cve_path_and_filename E' cfg' json_data v.
Proof.
  intros H.
  assert (cve_field (cmode cfg') j' = cve_field (cmode cfg') json_data) as Hid.
  { destruct (reference_urls json_data) as [refs | e] eqn:Hrefs.
    - destruct (archive_ok E cfg json_data w refs Hrefs)
        as (vals & j0 & w' & Hf & Hadd & _).
      rewrite Hf in H. injection H as <-.
      by apply (add_references_keeps_id _ _ _ _ Hadd).
    - rewrite (archive_malformed E cfg json_data w e Hrefs) in H.
      by injection H as <-. }
  apply PathFacts.resolve_same_location.
  by apply PathFacts.location_same_identifier.
Qed.

Lemma archiving_keeps_path_witness :
  get_cve_path_and_filename (example_env dead_net) (default_config Info)
    (JObj [("cve",
            JObj [("id", JStr "CVE-2021-44");
                  ("references", JArr [JObj [("url", JStr "http://a.example/1")]]);
                  ("added_references",
                   JArr [JArr [JStr "http://a.example/1"; JNum 404]])])])
    empty_world
  = get_cve_path_and_filename (example_env dead_net) (default_config Info)
      (record_with_refs "CVE-2021-44" ["http://a.example/1"]) empty_world.
Proof.
  exact (archiving_keeps_path
           (example_env (ref_net (ref_response 404 None "text/html" "")))
           (example_env dead_net)
           (default_config Info) (default_config Info)
           (record_with_refs "CVE-2021-44" ["http://a.example/1"]) _
           empty_world empty_world eq_refl).
Defined.

End PageFacts.

(** ** Further properties: the reference archiver *)

Section ArchiverFacts.

Import PyFacts Frame Archive SaveFacts.

(** X12. Archiving sends exactly one request per reference URL, in the
    order of the URLs, whether the fetches succeed or not, and sends
    nothing when the reference list cannot be read. *)
Theorem one_request_per_reference (E : env) (cfg : config) (json_data : json)
    (w : world) :
  (forall refs : list json,
     reference_urls json_data = Ok refs ->
     trace (snd (fetch_and_add_references E cfg json_data w))
     = trace w ++ map (fun u => Requested (GetRef u)) refs)
  /\ (forall e : exn,
        reference_urls json_data = Raise e ->
        trace (snd (fetch_and_add_references E cfg json_data w)) = trace w).
Proof.
  split.
  - intros refs Hrefs.
    destruct (fetch_references_spec E cfg json_data refs 0 [] w)
      as (vals & w' & Hloop & _ & Htr & _).
    unfold fetch_and_add_references, try_except, io_bind, lift.
    rewrite Hrefs, Hloop. simpl.
    by destruct (add_references _ json_data).
  - intros e Hrefs. by rewrite (archive_malformed E cfg json_data w e Hrefs).
Qed.



End ArchiverFacts.

(** ** Further properties: the bulk crawl *)

Module CrawlFacts.

Import PyFacts Frame Bulk SaveFacts.

Section Loop.

Variable E : env.
Variable cfg : config.

Lemma after_attempt_missing (i r : Z) (failed : bool) (v : world) :
  exists sfx : string,
    default "" (fs (snd (after_attempt E cfg i r failed v)) !! missing_path cfg)
    = Py.cat (default "" (fs v !! missing_path cfg)) sfx.
Proof.
  unfold after_attempt, io_bind, sleep, append_file.
  destruct (sleep_error _).
  all: destruct (r =? retries_for_request cfg).
  all: try (destruct (writable E (missing_path cfg))); simpl.
  all: try (rewrite lookup_insert_eq; simpl; eauto).
  all: exists ""; by rewrite cat_empty_r.
Qed.

(** One iteration, however it ends, only adds to the list of missing
    cursors. *)
Lemma iteration_missing (index r : Z) (w : world) :
  exists sfx : string,
    default "" (fs (snd (iteration E cfg index r w)) !! missing_path cfg)
    = Py.cat (default "" (fs w !! missing_path cfg)) sfx.
Proof.
  destruct (writable E (index_path cfg)) eqn:Hindex.
  2:{ unfold iteration, io_bind at 1, write_file. rewrite Hindex.
      exists "". by rewrite cat_empty_r. }
  rewrite (iteration_unfold E cfg index r w Hindex).
  pose proof (attempt_keeps_missing E cfg index w) as Hkeep.
  destruct (fst (attempt_page E cfg index 0 (checkpoint cfg index w)))
    as [[|i c [|]] | e]; simpl.
  - exists "". by rewrite Hkeep, cat_empty_r.
  - destruct (after_attempt_missing index (r + 1) true
                (snd (attempt_page E cfg index 0 (checkpoint cfg index w))))
      as (sfx & Hs).
    exists sfx. rewrite <- Hkeep, <- Hs.
    by destruct (after_attempt _ _ _ _ _ _) as [[next | e] w3].
  - destruct (after_attempt_missing (index + entries_for_request cfg) 0 false
                (snd (attempt_page E cfg index 0 (checkpoint cfg index w))))
      as (sfx & Hs).
    exists sfx. rewrite <- Hkeep, <- Hs.
    by destruct (after_attempt _ _ _ _ _ _) as [[next | e] w3].
  - exists "". by rewrite Hkeep, cat_empty_r.
Qed.

(** An iteration ends the loop exactly when the cursor could be written
    and the answer says that the crawl is up to date. *)
Lemma iteration_ends_iff (index r : Z) (w w' : world) :
  iteration E cfg index r w = (Ok None, w')
  <-> writable E (index_path cfg) = true
      /\ fst (attempt_page E cfg index 0 (checkpoint cfg index w)) = Ok UpToDate
      /\ w' = snd (attempt_page E cfg index 0 (checkpoint cfg index w)).
Proof.
  destruct (writable E (index_path cfg)) eqn:Hindex.
  2:{ unfold iteration, io_bind at 1, write_file. rewrite Hindex.
      split; [done | by intros (? & _)]. }
  rewrite (iteration_unfold E cfg index r w Hindex).
  destruct (fst (attempt_page E cfg index 0 (checkpoint cfg index w)))
    as [[|i c [|]] | e].
  - split; [by intros [= <-] | by intros (_ & _ & ->)].
  - destruct (after_attempt _ _ _ _ _ _) as [[next | e] w3];
      (split; [done | by intros (_ & ? & _)]).
  - destruct (after_attempt _ _ _ _ _ _) as [[next | e] w3];
      (split; [done | by intros (_ & ? & _)]).
  - split; [done | by intros (_ & ? & _)].
Qed.

(** An up-to-date answer has saved nothing. *)
Lemma up_to_date_world (index r : Z) (v : world) :
  fst (attempt_page E cfg index r v) = Ok UpToDate ->
  snd (attempt_page E cfg index r v) = log (Requested (GetBulk index)) v.
Proof.
  unfold attempt_page, try_except, io_bind, requests_get, lift, io_ret.
  destruct (net E (length (trace v)) (GetBulk index)) as [resp|]; simpl; [|done].
  destruct (status_code resp =? 200); simpl; [|done].
  destruct (json_body resp) as [pg|]; simpl; [|done].
  destruct (totalResults pg <=? startIndex pg); simpl; [done |].
  by destruct (save_wrapper E cfg pg _) as [[[] | e] v'].
Qed.

Lemma save_wrapper_changes_silent (response_json : page) :
  cmode cfg = Changes -> silent (save_wrapper E cfg response_json).
Proof.
  intros Hmode.
  unfold save_wrapper. apply Archive.silent_bind; [apply Archive.silent_lift |].
  intros l. induction l as [|x l IH]; [done |].
  change (save_items E cfg (x :: l))
    with (io_bind (save_item E cfg x) (fun _ => save_items E cfg l)).
  apply Archive.silent_bind; [|by intros _].
  unfold save_item. rewrite Hmode.
  apply Archive.silent_bind; [done |]. intros j. apply silent_save_data.
Qed.

End Loop.

End CrawlFacts.

Section CrawlExtras.

Import PyFacts Frame Bulk SaveFacts CrawlFacts.

(** X14. The list of missing cursors is only ever added to: whatever a
    crawl does before it returns or raises, the list it leaves is the
    list it found followed by what it appended. *)
Theorem missing_log_append_only (E : env) (cfg : config) (fuel : nat)
    (index r : Z) (w w' : world) (res : result unit) :
  crawl E cfg fuel index r w = Some (res, w') ->
  exists sfx : string,
    default "" (fs w' !! missing_path cfg)
    = Py.cat (default "" (fs w !! missing_path cfg)) sfx.
Proof.
  revert index r w. induction fuel as [|fuel IH]; intros index r w; [done |].
  simpl. destruct (iteration_missing E cfg index r w) as (sfx & Hs).
  destruct (iteration E cfg index r w) as [[[[i c]|]|e] v]; simpl in Hs.
  - intros H. destruct (IH _ _ _ H) as (sfx' & Hs').
    exists (Py.cat sfx sfx'). by rewrite Hs', Hs, cat_assoc.
  - intros [= <- <-]. eauto.
  - intros [= <- <-]. eauto.
Qed.

(** A crawl that gives the page at cursor 0 up after nine attempts
    without an answer and ends at the next cursor. *)
Lemma missing_log_append_only_witness :
  exists sfx : string,
    default ""
      (fs (final_world (crawl (example_env (silent_until 18 (steady_feed 0)))
                          (default_config Info) 10 0 0 empty_world))
       !! missing_path (default_config Info))
    = Py.cat (default "" (fs empty_world !! missing_path (default_config Info))) sfx.
Proof.
  apply (missing_log_append_only (example_env (silent_until 18 (steady_feed 0)))
           (default_config Info) 10 0 0 empty_world _ (Ok tt)).
  vm_compute. reflexivity.
Defined.

(** X15. An iteration that goes on sleeps exactly once, as its last act:
    for the retry interval when its attempt failed, for the interval
    between requests when the page was saved. An iteration that ends the
    crawl neither sleeps nor saves: all it leaves is the cursor file and
    the request. *)
Theorem sleep_policy (E : env) (cfg : config) (index r : Z) (w : world) :
  writable E (index_path cfg) = true ->
  let w2 := snd (attempt_page E cfg index 0 (checkpoint cfg index w)) in
  (attempt_fails E cfg index (checkpoint cfg index w) = true ->
   forall (next : Z * Z) (w' : world),
     iteration E cfg index r w = (Ok (Some next), w') ->
     trace w' = trace w2 ++ [Slept (retry_interval cfg)])
  /\ (attempt_succeeds E cfg index (checkpoint cfg index w) = true ->
      forall (next : Z * Z) (w' : world),
        iteration E cfg index r w = (Ok (Some next), w') ->
        trace w' = trace w2 ++ [Slept (interval_between_requests cfg)])
  /\ (forall w' : world,
        iteration E cfg index r w = (Ok None, w') ->
        w' = log (Requested (GetBulk index)) (checkpoint cfg index w)).
Proof.
  intros Hindex. cbv zeta.
  assert (forall i c failed v next v',
            after_attempt E cfg i c failed v = (Ok next, v') ->
            trace v' = trace v ++ [Slept (if failed then retry_interval cfg
                                          else interval_between_requests cfg)])
    as Hafter.
  { intros i c failed v next v'. unfold after_attempt, io_bind, sleep, append_file.
    destruct (sleep_error _).
    all: destruct (c =? retries_for_request cfg).
    all: try (destruct (writable E (missing_path cfg))); try done.
    all: by intros [= _ <-]. }
  split; [|split].
  - intros Hfail next w'. rewrite (iteration_unfold E cfg index r w Hindex).
    unfold attempt_fails in Hfail.
    destruct (fst (attempt_page E cfg index 0 (checkpoint cfg index w)))
      as [[|i c [|]] | e]; try done.
    destruct (after_attempt _ _ _ _ _ _) as [[nx | e] w3] eqn:Ha; [|done].
    intros [= _ <-]. by apply Hafter in Ha.
  - intros Hok next w'. rewrite (iteration_unfold E cfg index r w Hindex).
    unfold attempt_succeeds in Hok.
    destruct (fst (attempt_page E cfg index 0 (checkpoint cfg index w)))
      as [[|i c [|]] | e]; try done.
    destruct (after_attempt _ _ _ _ _ _) as [[nx | e] w3] eqn:Ha; [|done].
    intros [= _ <-]. by apply Hafter in Ha.
  - intros w' Hend. apply iteration_ends_iff in Hend as (_ & Hup & ->).
    by apply up_to_date_world.
Qed.

Lemma sleep_policy_witness :
  trace (snd (iteration (example_env dead_net) (default_config Info) 0 0 empty_world))
  = trace (snd (attempt_page (example_env dead_net) (default_config Info) 0 0
                  (checkpoint (default_config Info) 0 empty_world)))
    ++ [Slept 600].
Proof.
  exact (proj1 (sleep_policy (example_env dead_net) (default_config Info) 0 0
                  empty_world eq_refl) eq_refl (0, 1) _ eq_refl).
Defined.

(** X16. When the cursor file cannot be written the crawler stops at
    once: the first iteration raises before anything is requested or
    saved, and the exception goes through [init_data_population] and
    [run], which has done nothing but make the storage directory. *)
Theorem unwritable_cursor_aborts (E : env) (cfg : config) (fuel n : nat)
    (w : world) :
  writable E (index_path cfg) = false ->
  (forall v : world,
     init_data_population E cfg (S fuel) v = Some (Raise OSError, v))
  /\ (forall made : list string,
        makedirs E (storage_path cfg) = (made, None) ->
        run E cfg (S fuel) n w
        = Some (Raise OSError, add_dirs (made ++ [storage_path cfg]) w))
  /\ (forall (made : list string) (e : exn),
        makedirs E (storage_path cfg) = (made, Some e) ->
        run E cfg (S fuel) n w = Some (Raise e, add_dirs made w)).
Proof.
  intros Hindex.
  assert (forall v, init_data_population E cfg (S fuel) v = Some (Raise OSError, v))
    as Hinit.
  { intros v. unfold init_data_population.
    assert (exists index, load_index E cfg v = (Ok index, v)) as (index & ->).
    { unfold load_index, try_except, io_bind, read_file, lift.
      destruct (read_error E (index_path cfg)); [eauto |].
      destruct (fs v !! index_path cfg) as [content|]; simpl; [|eauto].
      destruct (Py.int (Py.strip content)); simpl; eauto. }
    simpl. unfold iteration, io_bind at 1, write_file. by rewrite Hindex. }
  split; [exact Hinit |]. split.
  - intros made Hmk. unfold run, startup, os_makedirs. by rewrite Hmk, Hinit.
  - intros made e Hmk. unfold run, startup, os_makedirs. by rewrite Hmk.
Qed.

Lemma unwritable_cursor_aborts_witness :
  run (read_only_env (steady_feed 4500)) (default_config Info) 1 3 empty_world
  = Some (Raise OSError, add_dirs ["/usr/src/data"] empty_world).
Proof.
  exact (proj1 (proj2 (unwritable_cursor_aborts (read_only_env (steady_feed 4500))
                         (default_config Info) 0 3 empty_world eq_refl))
           [] eq_refl).
Defined.

(** X17. Giving a page up is done outside the [try]: when the counter
    reaches the limit and the list of missing cursors cannot be opened,
    the iteration raises and the crawl ends with that exception, the
    cursor still on the page. *)
Theorem unwritable_missing_aborts (E : env) (cfg : config) (fuel : nat)
    (index r : Z) (w : world) :
  writable E (index_path cfg) = true ->
  writable E (missing_path cfg) = false ->
  attempt_fails E cfg index (checkpoint cfg index w) = true ->
  r + 1 = retries_for_request cfg ->
  let w2 := snd (attempt_page E cfg index 0 (checkpoint cfg index w)) in
  crawl E cfg (S fuel) index r w = Some (Raise OSError, w2)
  /\ fs w2 !! index_path cfg = Some (Py.str index).
Proof.
  intros Hindex Hmissing Hfail Hr. cbv zeta. split.
  - simpl. rewrite (iteration_unfold E cfg index r w Hindex).
    unfold attempt_fails in Hfail.
    destruct (fst (attempt_page E cfg index 0 (checkpoint cfg index w)))
      as [[|i c [|]] | e]; try done.
    unfold after_attempt, io_bind, append_file.
    by rewrite Hr, Z.eqb_refl, Hmissing.
  - apply attempt_keeps_index.
Qed.

Lemma unwritable_missing_aborts_witness :
  crawl (no_missing_env dead_net) (default_config Info) 1 0 8 empty_world
  = Some (Raise OSError,
          snd (attempt_page (no_missing_env dead_net) (default_config Info) 0 0
                 (checkpoint (default_config Info) 0 empty_world))).
Proof.
  exact (proj1 (unwritable_missing_aborts (no_missing_env dead_net)
                  (default_config Info) 0 0 8 empty_world
                  eq_refl eq_refl eq_refl eq_refl)).
Defined.

(** X18. The crawl returns normally exactly when, after some number of
    iterations that went on, an iteration gets an answer with status 200
    whose [startIndex] is not below its [totalResults]; the world it
    returns is the world of that iteration with the cursor written and the
    request sent, nothing else. *)
Theorem crawl_returns_iff_up_to_date (E : env) (cfg : config) (fuel : nat)
    (index r : Z) (w w' : world) :
  crawl E cfg fuel index r w = Some (Ok tt, w')
  <-> exists (n : nat) (i c : Z) (v : world),
        (n < fuel)%nat
        /\ iterations E cfg n index r w = Some (i, c, v)
        /\ writable E (index_path cfg) = true
        /\ fst (attempt_page E cfg i 0 (checkpoint cfg i v)) = Ok UpToDate
        /\ w' = log (Requested (GetBulk i)) (checkpoint cfg i v).
Proof.
  assert (forall i c v,
            iteration E cfg i c v = (Ok None, w')
            <-> writable E (index_path cfg) = true
                /\ fst (attempt_page E cfg i 0 (checkpoint cfg i v)) = Ok UpToDate
                /\ w' = log (Requested (GetBulk i)) (checkpoint cfg i v)) as Hend.
  { intros i c v. rewrite iteration_ends_iff. split.
    - intros (Hw & Hup & ->). by rewrite (up_to_date_world E cfg i 0 _ Hup).
    - intros (Hw & Hup & ->). by rewrite (up_to_date_world E cfg i 0 _ Hup). }
  split.
  - revert index r w. induction fuel as [|fuel IH]; intros index r w; [done |].
    simpl. destruct (iteration E cfg index r w) as [[[[i1 c1]|]|e] v1] eqn:Hi.
    + intros H. destruct (IH _ _ _ H) as (n & i & c & v & Hn & Hit & Hrest).
      exists (S n), i, c, v. split; [lia |]. split; [|done].
      simpl. by rewrite Hi.
    + intros [= <-]. exists 0%nat, index, r, w. split; [lia |]. split; [done |].
      exact (proj1 (Hend index r w) Hi).
    + done.
  - intros (n & i & c & v & Hn & Hit & Hrest).
    apply (Hend i c v) in Hrest.
    revert fuel index r w Hn Hit.
    induction n as [|n IH]; intros fuel index r w Hn Hit.
    + destruct fuel as [|fuel]; [lia |]. simpl in Hit. injection Hit as -> -> ->.
      simpl. by rewrite Hrest.
    + destruct fuel as [|fuel]; [lia |]. simpl in Hit |- *.
      destruct (iteration E cfg index r w) as [[[[i1 c1]|]|e] v1]; try done.
      apply IH; [lia | done].
Qed.

(** X19. A crawl whose attempts all fail never returns and never raises,
    as long as the cursor file and the list of missing cursors can be
    written and [time.sleep] takes the retry interval: it gives page
    after page up and goes on. *)
Theorem failing_crawl_never_returns (E : env) (cfg : config) :
  writable E (index_path cfg) = true ->
  writable E (missing_path cfg) = true ->
  sleep_error (retry_interval cfg) = None ->
  (forall (i : Z) (v : world), attempt_fails E cfg i v = true) ->
  forall (fuel : nat) (index r : Z) (w : world),
    crawl E cfg fuel index r w = None.
Proof.
  intros Hindex Hmissing Hsleep Hfail fuel.
  induction fuel as [|fuel IH]; intros index r w; [done |].
  simpl. rewrite (iteration_unfold E cfg index r w Hindex).
  specialize (Hfail index (checkpoint cfg index w)). unfold attempt_fails in Hfail.
  destruct (fst (attempt_page E cfg index 0 (checkpoint cfg index w)))
    as [[|i c [|]] | e]; try done.
  unfold after_attempt, io_bind, sleep, append_file. rewrite Hsleep.
  destruct (r + 1 =? retries_for_request cfg); [rewrite Hmissing |]; apply IH.
Qed.

Lemma failing_crawl_never_returns_witness :
  crawl (example_env dead_net) (default_config Info) 40 0 0 empty_world = None.
Proof.
  apply (failing_crawl_never_returns (example_env dead_net) (default_config Info)
           eq_refl eq_refl eq_refl).
  intros i v. reflexivity.
Defined.

(** X20. Pages that are saved add up, with an interval between requests
    that [time.sleep] takes: after [n] iterations whose attempts all save
    their page, the cursor has moved by [n] pages, the counter is 0, and
    the page requests sent were for the starting cursor and then for each
    cursor one page further. *)
Theorem pages_add_up (E : env) (cfg : config) (index : Z) (w : world) (n : nat) :
  retries_for_request cfg <> 0 ->
  writable E (index_path cfg) = true ->
  sleep_error (interval_between_requests cfg) = None ->
  (forall j : nat, (j < n)%nat -> succeeds_at E cfg index w j) ->
  exists v : world,
    iterations E cfg n index 0 w
    = Some (index + Z.of_nat n * entries_for_request cfg, 0, v)
    /\ bulk_requests (trace v)
       = bulk_requests (trace w)
         ++ map (fun k => index + Z.of_nat k * entries_for_request cfg) (seq 0 n).
Proof.
  intros Hlimit Hindex Hpause. induction n as [|n IH]; intros Hok.
  - exists w. split; [simpl; do 3 f_equal; lia | by rewrite app_nil_r].
  - destruct IH as (v & Hv & Hreq); [intros j Hj; apply Hok; lia |].
    pose proof (Hok n ltac:(lia)) as Hn. unfold succeeds_at in Hn.
    rewrite Hv in Hn.
    pose proof (iteration_requests E cfg
                  (index + Z.of_nat n * entries_for_request cfg) 0 v Hindex) as Hr.
    rewrite iterations_snoc, Hv.
    rewrite (iteration_success E cfg _ 0 v Hindex Hn Hlimit Hpause) in Hr |- *.
    cbn [snd] in Hr.
    eexists. split; [do 3 f_equal; lia |].
    rewrite Hr, Hreq, seq_S, map_app, <- app_assoc. done.
Qed.

Lemma pages_add_up_witness :
  exists v : world,
    iterations (example_env (steady_feed 4500)) (default_config Info) 2 0 0 empty_world
    = Some (0 + Z.of_nat 2 * 2000, 0, v)
    /\ bulk_requests (trace v) = [] ++ [0 + 0 * 2000; 0 + 1 * 2000].
Proof.
  apply (pages_add_up (example_env (steady_feed 4500)) (default_config Info) 0
           empty_world 2 ltac:(discriminate) eq_refl eq_refl).
  intros j Hj. do 2 (destruct j as [|j]; [vm_compute; reflexivity |]). lia.
Defined.

End CrawlExtras.

(** ** Further properties: the incremental update *)

Section UpdateExtras.

Import PyFacts Frame Update SaveFacts CrawlFacts.

(** X21. As long as the watermark file can be read when it is there and
    written, and [time.sleep] takes the update interval, the loop of
    [run] never raises: whatever the network answers and whatever the
    records are, every cycle returns. Each of the three conditions is
    needed: without it the first cycle raises. *)
Theorem cycles_never_raise (E : env) (cfg : config) :
  (writable E (last_update_path cfg) = true ->
   read_error E (last_update_path cfg) = None ->
   sleep_error (update_interval cfg) = None ->
   forall (n : nat) (w : world), fst (cycles E cfg n w) = Ok tt)
  /\ (forall (e : exn) (n : nat) (w : world),
        sleep_error (update_interval cfg) = Some e ->
        cycles E cfg (S n) w = (Raise e, w))
  /\ (forall (e : exn) (n : nat) (w : world),
        sleep_error (update_interval cfg) = None ->
        read_error E (last_update_path cfg) = Some e ->
        e <> FileNotFoundError ->
        cycles E cfg (S n) w = (Raise e, log (Slept (update_interval cfg)) w))
  /\ (forall (n : nat) (w : world),
        sleep_error (update_interval cfg) = None ->
        read_error E (last_update_path cfg) = None ->
        writable E (last_update_path cfg) = false ->
        fs w !! last_update_path cfg = None ->
        cycles E cfg (S n) w = (Raise OSError, log (Slept (update_interval cfg)) w)).
Proof.
  split; [|split; [|split]].
  - intros Hw Hread Hsleep n. induction n as [|n IH]; intros w; [done |].
    simpl. unfold io_bind at 1. unfold cycle, io_bind at 1, sleep.
    rewrite Hsleep.
    set (w1 := log (Slept (update_interval cfg)) w).
    assert (exists w2, maintain_data E cfg w1 = (Ok tt, w2)) as (w2 & ->).
    { destruct (fs w1 !! last_update_path cfg) as [content|] eqn:Hfile.
      - rewrite (maintain_present E cfg w1 content Hread Hfile).
        destruct (fetch_update_total E cfg (Py.strip content)
                    (clock E (length (trace w1))) w1) as (w2 & l & -> & _).
        eauto.
      - rewrite (maintain_absent E cfg w1 Hread Hfile). unfold write_file.
        rewrite Hw. eauto. }
    apply IH.
  - intros e n w Hsleep. simpl. unfold io_bind at 1, cycle, io_bind at 1, sleep.
    by rewrite Hsleep.
  - intros e n w Hsleep Hread He. simpl.
    unfold io_bind at 1, cycle, io_bind at 1, sleep. rewrite Hsleep.
    by rewrite (maintain_unreadable E cfg _ e Hread He).
  - intros n w Hsleep Hread Hw Hfile. simpl.
    unfold io_bind at 1, cycle, io_bind at 1, sleep. rewrite Hsleep.
    rewrite (maintain_absent E cfg _ Hread) by done.
    unfold write_file. by rewrite Hw.
Qed.

Lemma cycles_never_raise_witness :
  fst (cycles (example_env dead_net) (default_config Info) 3 empty_world) = Ok tt.
Proof.
  exact (proj1 (cycles_never_raise (example_env dead_net) (default_config Info))
           eq_refl eq_refl eq_refl 3%nat empty_world).
Defined.

(** X22. A cycle that finds the watermark sends one update request, for
    the window from the stored time to the current time, and never a
    second one: what follows it in the trace are requests for references
    only, and in [changes] mode nothing at all. *)
Theorem one_update_request_per_cycle (E : env) (cfg : config) (w : world)
    (content : string) :
  read_error E (last_update_path cfg) = None ->
  fs w !! last_update_path cfg = Some content ->
  exists l : list event,
    trace (snd (maintain_data E cfg w))
    = trace w
      ++ Requested (GetDelta (Py.strip content) (clock E (length (trace w)))) :: l
    /\ forallb is_ref_request l = true
    /\ (cmode cfg = Changes -> l = []).
Proof.
  intros Hread Hfile. rewrite (maintain_present E cfg w content Hread Hfile).
  set (ts := Py.strip content). set (now := clock E (length (trace w))).
  set (w1 := log (Requested (GetDelta ts now)) w).
  destruct (net E (length (trace w)) (GetDelta ts now)) as [r|] eqn:Hnet.
  2:{ exists []. by rewrite (update_no_answer E cfg ts now w Hnet). }
  destruct (decide (status_code r = 200)) as [H200 | H200].
  2:{ exists []. by rewrite (update_not_200 E cfg ts now w r Hnet H200). }
  destruct (json_body r) as [pg|] eqn:Hjson.
  2:{ exists []. by rewrite (update_undecodable E cfg ts now w r Hnet H200 Hjson). }
  destruct (results cfg pg) as [[|x l] | e] eqn:Hres.
  3:{ exists [].
      by rewrite (update_no_results E cfg ts now w r Hnet H200 pg Hjson e Hres). }
  { rewrite (update_empty E cfg ts now w r Hnet H200 pg Hjson Hres).
    exists []. by destruct (writable E _). }
  destruct (last_item_timestamp cfg (x :: l)) as [t | e] eqn:Hlast.
  2:{ exists [].
      by rewrite (update_no_timestamp E cfg ts now w r Hnet H200 pg Hjson x l Hres e Hlast). }
  rewrite (update_items E cfg ts now w r Hnet H200 pg Hjson x l Hres t Hlast).
  fold w1.
  pose proof (quietly_save_wrapper E cfg pg w1) as [_ (refs & Htr & Hrefs)].
  pose proof (fun H => save_wrapper_changes_silent E cfg pg H w1) as Hsilent.
  assert (cmode cfg = Changes -> refs = []) as Hnil.
  { intros Hmode. specialize (Hsilent Hmode). rewrite Htr in Hsilent.
    apply (f_equal length) in Hsilent. rewrite length_app in Hsilent.
    destruct refs; [done | simpl in Hsilent; lia]. }
  exists refs. split; [|done].
  destruct (save_wrapper E cfg pg w1) as [[[] | e] w2]; simpl in Htr.
  - pose proof (write_value_trace E (last_update_path cfg) t w2) as Ht.
    destruct (write_value E (last_update_path cfg) t w2) as [res w3].
    simpl in Ht |- *. rewrite Ht, Htr. unfold w1. simpl. by rewrite <- app_assoc.
  - simpl. rewrite Htr. unfold w1. simpl. by rewrite <- app_assoc.
Qed.

Lemma one_update_request_per_cycle_witness :
  exists l : list event,
    trace (snd (maintain_data
                  (example_env (delta_feed [change_record "CVE-2024-0001" "2024-04-30T08:00:00.000"]))
                  (default_config Changes)
                  (world_with_watermark "2024-04-29T00:00:00.000000")))
    = [] ++ Requested (GetDelta (Py.strip "2024-04-29T00:00:00.000000")
                         "2024-05-01T12:00:00") :: l
    /\ forallb is_ref_request l = true
    /\ (Changes = Changes -> l = []).
Proof.
  exact (one_update_request_per_cycle
           (example_env (delta_feed [change_record "CVE-2024-0001" "2024-04-30T08:00:00.000"]))
           (default_config Changes)
           (world_with_watermark "2024-04-29T00:00:00.000000")
           "2024-04-29T00:00:00.000000" eq_refl eq_refl).
Defined.

End UpdateExtras.
